(** * OTrimmer: the trim / size-fit pipeline of [VideoTrimmer]

    A shallow embedding of the [VideoTrimmer] class of [otrimmer.py] (its
    older copy [trimmer.py] has the same methods, line for line, except
    [compressToSize]) together with the properties of the trim and
    compression pipeline.

    Conventions of the embedding.

    - Python [int] is [Z].
    - A finite Python [float] is the rational number it denotes, a [Q] in
      lowest terms.  Where the source multiplies or divides floats, converts
      an [int] operand or calls [int()], the arithmetic is IEEE 754 binary64
      with round to nearest, ties to even, written out on the rationals in
      module [PyNum]: its results are [float]s, which add [inf], [-inf] and
      [nan] to the finite values, and it raises where Python raises.  The
      sign of a zero is not kept; no branch of the source looks at it.
      Module [Binary64] evaluates the same expressions with the [SpecFloat]
      operations of the Standard Library, and the two agree on the scenarios
      of this file.
    - A Python [str] built by formatting numbers is kept as a list of
      [token]s: literal text and numbers still to be rendered.  File paths
      are plain [string]s.
    - The operating system (file system, child processes, JSON and float
      parsing, pid, temp directory) is an interface, the class [OS]; every
      theorem holds for every implementation of it.
    - A method is a function from the object and the world to a result, the
      updated object, the updated world and the events it produced
      (signals emitted, processes run, timers armed). *)

From Stdlib Require Import ZArith QArith Qround Qabs Qpower Lqa.
From Stdlib Require Import Ascii String List Lia Bool.
From Stdlib Require Import DecimalString SpecFloat.
From stdpp Require Import base gmap strings.
Import ListNotations.

Local Open Scope string_scope.
Local Open Scope Z_scope.

(** ** Exceptions *)

(** An exception object; [str_e] is [str(e)]. *)
Record exn : Type := Exception { str_e : string }.

Inductive result (A : Type) : Type :=
| Return (a : A)
| Raise (e : exn).
Arguments Return {A} a.
Arguments Raise {A} e.

(** ** Numbers *)

Module PyNum.

(** [a / b] on two ints: true division.  Python gives the double nearest to
    the quotient; the quotient itself is kept here.  For a byte count below
    2^53 over [1024 * 1024] the two are equal; for a count of milliseconds
    over [1000] they differ by less than one part in 2^53, and [str] prints
    the double as the decimal expansion of the quotient. *)
Definition truediv (a b : Z) : Q := Qred (inject_Z a / inject_Z b).

(** The value of an int [n] where the source compares it with a float (the
    comparison of a float with an int is exact in Python) or writes a small
    constant as a float operand ([8], [1000], [1024.0]). *)
Definition float_of_int (n : Z) : Q := inject_Z n.

(** [int(x)] for a finite float [x]: truncation toward zero. *)
Definition int_of_float (x : Q) : Z := Z.quot (Qnum x) (Zpos (Qden x)).

(** [x <= y]. *)
Definition fle (x y : Q) : bool := Qle_bool x y.

(** *** binary64

    A double is [m * 2^e] with [|m| < 2^53] and [-1074 <= e <= 971].
    [nearest_double x] rounds a rational to the nearest number of that form
    with the bound on [e] from above lifted, ties to the even [m]; what
    comes out at [2^1024] or beyond is an overflow. *)

Definition pow2 (e : Z) : Q := Qpower 2 e.

(** [floor (log2 |x|)] for [x] other than zero. *)
Definition ilog2 (x : Q) : Z :=
  let e := Z.log2 (Z.abs (Qnum x)) - Z.log2 (Zpos (Qden x)) in
  if Qle_bool (pow2 e) (Qabs x) then e else e - 1.

(** The nearest integer, ties to even. *)
Definition rne (x : Q) : Z :=
  let f := Qfloor x in
  match (x - inject_Z f ?= 1 # 2)%Q with
  | Lt => f
  | Gt => f + 1
  | Eq => if Z.even f then f else f + 1
  end.

(** The distance between the doubles around [x]: 53 significant bits, and
    no exponent below that of the subnormal numbers. *)
Definition ulp (x : Q) : Q := pow2 (Z.max (ilog2 x - 52) (-1074)).

Definition round_pos (x : Q) : Q := (inject_Z (rne (x / ulp x)) * ulp x)%Q.

Definition nearest_double (x : Q) : Q :=
  match (x ?= 0)%Q with
  | Eq => 0%Q
  | Gt => Qred (round_pos x)
  | Lt => Qred (- round_pos (- x))
  end.

Definition is_finite (x : Q) : bool := negb (Qle_bool (pow2 1024) (Qabs x)).

Definition negative (x : Q) : bool := negb (Qle_bool 0 x).

Inductive float : Type :=
| Finite (x : Q)
| Infinity (sign : bool)         (* inf, and -inf when the sign is set *)
| NaN.

(** The float that an exact result [x] becomes. *)
Definition rounded (x : Q) : float :=
  let y := nearest_double x in
  if is_finite y then Finite y else Infinity (negative x).

Definition is_zero (x : float) : bool :=
  match x with Finite q => Qeq_bool q 0 | _ => false end.

Definition is_negative (x : float) : bool :=
  match x with Finite q => negative q | Infinity s => s | NaN => false end.

(** [x * y] on floats. *)
Definition fmul (x y : float) : float :=
  match x, y with
  | NaN, _ | _, NaN => NaN
  | Finite a, Finite b => rounded (a * b)
  | _, _ =>
      if is_zero x || is_zero y then NaN
      else Infinity (xorb (is_negative x) (is_negative y))
  end.

(** [x / y] on floats: ZeroDivisionError when [y] is zero. *)
Definition fdiv (x y : float) : result float :=
  if is_zero y then Raise (Exception "float division by zero")
  else
    Return
      match x, y with
      | NaN, _ | _, NaN => NaN
      | Finite a, Finite b => rounded (a / b)
      | Finite _, Infinity _ => Finite 0
      | Infinity s, Finite _ => Infinity (xorb s (is_negative y))
      | Infinity _, Infinity _ => NaN
      end.

(** [int(x)] for a float [x]: OverflowError on [inf], ValueError on [nan]. *)
Definition py_int (x : float) : result Z :=
  match x with
  | Finite q => Return (int_of_float q)
  | Infinity _ => Raise (Exception "cannot convert float infinity to integer")
  | NaN => Raise (Exception "cannot convert float NaN to integer")
  end.

(** The conversion of an int [n] to a float, as [float(n)] and as the int
    operand of [n * x] with [x] a float: the nearest double, or
    OverflowError. *)
Definition float_of_long (n : Z) : result Q :=
  let y := nearest_double (inject_Z n) in
  if is_finite y then Return y
  else Raise (Exception "int too large to convert to float").

(** The literal [0.95]. *)
Definition lit_0_95 : float := rounded (95 # 100).

End PyNum.
Import PyNum.

(** The two assignments shared by [_check_and_compress] and
    [compressToSize]:
<<
    target_size_bytes = size_mb * 1024 * 1024 * 0.95  # 5% buffer
    target_bitrate = int((target_size_bytes * 8) / duration_seconds)
>> *)
Definition target_size_bytes (size_mb : Z) : result float :=
  match float_of_long (size_mb * 1024 * 1024) with
  | Return n => Return (fmul (Finite n) lit_0_95)
  | Raise e => Raise e
  end.

Definition target_bitrate (size_mb : Z) (duration_seconds : Q) : result Z :=
  match target_size_bytes size_mb with
  | Return target_size_bytes =>
      match fdiv (fmul target_size_bytes (Finite (float_of_int 8)))
                 (Finite duration_seconds) with
      | Return quotient => py_int quotient
      | Raise e => Raise e
      end
  | Raise e => Raise e
  end.

(** The bitrate of the specification's [CompressionPlan], for a ceiling
    [S] in bytes and a duration [d] in seconds:
    [floor (S * 0.95 * 8 / d)]. *)
Definition plan_bitrate (S : Z) (d : Q) : Z :=
  Qfloor (inject_Z S * (95 # 100) * inject_Z 8 / d).

(** [file_size_mb = file_size_bytes / (1024 * 1024)], in both methods. *)
Definition file_size_mb (file_size_bytes : Z) : Q :=
  truediv file_size_bytes (1024 * 1024).

(** ** Strings, values, events *)

(** A piece of a formatted string: literal text, or a number with the
    conversion the source applies to it. *)
Inductive token : Type :=
| Str (s : string)          (* a str *)
| StrOfFloat (x : Q)        (* str(x), x a float *)
| StrOfInt (n : Z)          (* f"{n}", n an int *)
| Fmt1f (x : Q)             (* f"{x:.1f}" *)
| NoneArg.                  (* None where a str is expected *)

(** A Python value as far as [float()] looks at it. *)
Inductive pyval : Type :=
| PyInt (n : Z)
| PyFloat (x : Q)
| PyStr (s : string)
| PyBool (b : bool)
| PyOther (type_name : string).   (* None, a list, a dict: type(v).__name__ *)

(** [subprocess.CompletedProcess] with [capture_output=True, text=True]. *)
Record CompletedProcess : Type := Completed {
  returncode : Z;
  stdout : string;
  stderr : string
}.

Inductive signal : Type :=
| startTimeChanged
| endTimeChanged
| durationChanged
| trimCompleteChanged (msg : list token)
| errorOccurred (msg : list token)
| compressionProgressChanged (n : Z)
| compressionStarted
| compressionFinished.

(** The callables handed to [QTimer.singleShot]. *)
Inductive callback : Type :=
| cb_check_and_compress
| cb_copy_file_path_to_clipboard (file_path : option string).

Inductive event : Type :=
| Emit (s : signal)                      (* s.emit(...) *)
| Run (cmd : list token)                 (* subprocess.run(cmd, ...) *)
| SingleShot (ms : Z) (cb : callback).   (* QTimer.singleShot(ms, cb) *)

(** ** The object *)

Record VideoTrimmer : Type := mkVideoTrimmer {
  _start_time : Z;
  _end_time : Z;
  _duration : Z;
  _video_path : string;
  _trim_completed : bool;
  _temp_output : option string;
  _compressed_output : option string;
  _max_size_mb : Z
}.

(** [VideoTrimmer.__init__]. *)
Definition __init__ : VideoTrimmer :=
  {| _start_time := 0; _end_time := 0; _duration := 0; _video_path := "";
     _trim_completed := false; _temp_output := None;
     _compressed_output := None; _max_size_mb := 50 |}.

Definition with_start_time (v : Z) (o : VideoTrimmer) : VideoTrimmer :=
  mkVideoTrimmer v (_end_time o) (_duration o) (_video_path o)
    (_trim_completed o) (_temp_output o) (_compressed_output o) (_max_size_mb o).

Definition with_end_time (v : Z) (o : VideoTrimmer) : VideoTrimmer :=
  mkVideoTrimmer (_start_time o) v (_duration o) (_video_path o)
    (_trim_completed o) (_temp_output o) (_compressed_output o) (_max_size_mb o).

Definition with_trim_completed (v : bool) (o : VideoTrimmer) : VideoTrimmer :=
  mkVideoTrimmer (_start_time o) (_end_time o) (_duration o) (_video_path o)
    v (_temp_output o) (_compressed_output o) (_max_size_mb o).

Definition with_temp_output (v : option string) (o : VideoTrimmer) : VideoTrimmer :=
  mkVideoTrimmer (_start_time o) (_end_time o) (_duration o) (_video_path o)
    (_trim_completed o) v (_compressed_output o) (_max_size_mb o).

Definition with_compressed_output (v : option string) (o : VideoTrimmer) : VideoTrimmer :=
  mkVideoTrimmer (_start_time o) (_end_time o) (_duration o) (_video_path o)
    (_trim_completed o) (_temp_output o) v (_max_size_mb o).

(** Truth value of a str, and of a str-or-None attribute. *)
Definition truthy (s : string) : bool :=
  match s with EmptyString => false | String _ _ => true end.

Definition truthy_opt (o : option string) : bool :=
  match o with None => false | Some s => truthy s end.

Definition path_arg (o : option string) : token :=
  match o with Some p => Str p | None => NoneArg end.

(** [f"{p}"] for a str-or-None [p]. *)
Definition format_opt (o : option string) : string :=
  match o with Some p => p | None => "None" end.

(** ** The operating system *)

Class OS (World : Type) : Type := {
  (* os.path.exists, os.path.getsize *)
  os_path_exists : World -> string -> bool;
  os_path_getsize : World -> string -> result Z;
  (* subprocess.run *)
  subprocess_run : list token -> World -> result CompletedProcess * World;
  (* tempfile.gettempdir(), os.getpid(), os.path.expanduser("~") *)
  tempfile_gettempdir : string;
  os_getpid : Z;
  home : string;
  (* json.loads(s).get('format', {}).get('duration'): raises, finds no
     such entry, or finds a value *)
  json_format_duration : string -> result (option pyval);
  (* float(s) for a str s: the finite double it spells, or the ValueError
     raised; a string that spells an infinity or a nan is outside the model *)
  float_of_str : string -> result Q;
  (* shutil.which, shutil.copy2 *)
  shutil_which : World -> string -> bool;
  shutil_copy2 : string -> string -> World -> result unit * World;
  (* os.path.basename, os.path.splitext(...)[1], str.strip *)
  os_path_basename : string -> string;
  splitext_ext : string -> string;
  strip : string -> string
}.

(** [os.path.join(a, b)] of [posixpath]. *)
Definition startswith_sep (s : string) : bool :=
  match s with String c _ => Ascii.eqb c "/"%char | EmptyString => false end.

Fixpoint endswith_sep (s : string) : bool :=
  match s with
  | EmptyString => false
  | String c EmptyString => Ascii.eqb c "/"%char
  | String _ rest => endswith_sep rest
  end.

Definition os_path_join (a b : string) : string :=
  if startswith_sep b then b
  else if negb (truthy a) || endswith_sep a then a ++ b
  else a ++ "/" ++ b.

(** [f"{n}"] for an int [n] inside a file name. *)
Definition str_of_int (n : Z) : string := NilZero.string_of_int (Z.to_int n).

(** [d.get(key, default)] on a dict with str keys. *)
Definition dict_get {V : Type} (d : gmap string V) (key : string) (dflt : V) : V :=
  default dflt (d !! key).

(** ** Command lines

    The three [cmd] lists of the source, as functions of what they
    interpolate. *)

(** [createTrim]: stream copy of [duration_seconds] from [start_seconds]. *)
Definition trim_cmd (video_path : string) (start_seconds duration_seconds : Q)
    (temp_output : option string) : list token :=
  [ Str "ffmpeg";
    Str "-y";
    Str "-i"; Str video_path;
    Str "-ss"; StrOfFloat start_seconds;
    Str "-t"; StrOfFloat duration_seconds;
    Str "-c"; Str "copy";
    path_arg temp_output ].

(** [_check_and_compress] and [compressToSize]: re-encode at [target_bitrate]. *)
Definition compress_cmd (input_file : option string) (target_bitrate : Z)
    (compressed_output : option string) : list token :=
  [ Str "ffmpeg";
    Str "-y";
    Str "-i"; path_arg input_file;
    Str "-c:v"; Str "libx264";
    Str "-b:v"; StrOfInt target_bitrate;
    Str "-preset"; Str "medium";
    Str "-c:a"; Str "aac";
    Str "-b:a"; Str "128k";
    path_arg compressed_output ].

(** [_get_video_info]. *)
Definition ffprobe_cmd (video_path : option string) : list token :=
  [ Str "ffprobe";
    Str "-v"; Str "error";
    Str "-select_streams"; Str "v:0";
    Str "-show_entries"; Str "format=duration";
    Str "-of"; Str "json";
    path_arg video_path ].

(** [float(v)]. *)
Definition py_float {World : Type} {os : OS World} (v : pyval) : result Q :=
  match v with
  | PyInt n => float_of_long n
  | PyFloat x => Return x
  | PyBool b => Return (float_of_int (if b then 1 else 0))
  | PyStr s => float_of_str s
  | PyOther type_name =>
      Raise (Exception ("float() argument must be a string or a real number, not '"
                        ++ type_name ++ "'"))
  end.

(** ** Methods as state transformers *)

Section Methods.
Context {World : Type} {os : OS World}.

Record out (A : Type) : Type := Out {
  value : result A;
  self_of : VideoTrimmer;
  world_of : World;
  events : list event
}.
Arguments Out {A} _ _ _ _.
Arguments value {A} _.
Arguments self_of {A} _.
Arguments world_of {A} _.
Arguments events {A} _.

Definition Py (A : Type) : Type := VideoTrimmer -> World -> out A.

Definition ret {A : Type} (a : A) : Py A :=
  fun self w => Out (Return a) self w [].

Definition raise {A : Type} (e : exn) : Py A :=
  fun self w => Out (Raise e) self w [].

Definition bind {A B : Type} (m : Py A) (k : A -> Py B) : Py B :=
  fun self w =>
    match m self w with
    | Out (Return a) self1 w1 ev1 =>
        match k a self1 w1 with
        | Out r self2 w2 ev2 => Out r self2 w2 (ev1 ++ ev2)
        end
    | Out (Raise e) self1 w1 ev1 => Out (Raise e) self1 w1 ev1
    end.

(** [try: body  except Exception as e: handler]. *)
Definition try_except {A : Type} (body : Py A) (handler : exn -> Py A) : Py A :=
  fun self w =>
    match body self w with
    | Out (Return a) self1 w1 ev1 => Out (Return a) self1 w1 ev1
    | Out (Raise e) self1 w1 ev1 =>
        match handler e self1 w1 with
        | Out r self2 w2 ev2 => Out r self2 w2 (ev1 ++ ev2)
        end
    end.

Definition get_self : Py VideoTrimmer :=
  fun self w => Out (Return self) self w [].

Definition update (f : VideoTrimmer -> VideoTrimmer) : Py unit :=
  fun self w => Out (Return tt) (f self) w [].

Definition emit (s : signal) : Py unit :=
  fun self w => Out (Return tt) self w [Emit s].

Definition singleShot (ms : Z) (cb : callback) : Py unit :=
  fun self w => Out (Return tt) self w [SingleShot ms cb].

Definition of_result {A : Type} (r : result A) : Py A :=
  fun self w => Out r self w [].

(** [subprocess.run(cmd, ...)]. *)
Definition run (cmd : list token) : Py CompletedProcess :=
  fun self w =>
    let (r, w1) := subprocess_run cmd w in Out r self w1 [Run cmd].

(** [os.path.exists(p)] and [os.path.getsize(p)] on an attribute that is a
    str or None; None is a TypeError. *)
Definition exists_ (p : option string) : Py bool :=
  fun self w =>
    match p with
    | Some path => Out (Return (os_path_exists w path)) self w []
    | None => Out (Raise (Exception "stat: path should be string, bytes, os.PathLike or integer, not NoneType")) self w []
    end.

Definition getsize (p : option string) : Py Z :=
  fun self w =>
    match p with
    | Some path => Out (os_path_getsize w path) self w []
    | None => Out (Raise (Exception "stat: path should be string, bytes, os.PathLike or integer, not NoneType")) self w []
    end.

(** [shutil.copy2(src, dst)]. *)
Definition copy2 (src : option string) (dst : string) : Py unit :=
  fun self w =>
    match src with
    | Some path => let (r, w1) := shutil_copy2 path dst w in Out r self w1 []
    | None => Out (Raise (Exception "expected str, bytes or os.PathLike object, not NoneType")) self w []
    end.

Definition which (name : string) : Py bool :=
  fun self w => Out (Return (shutil_which w name)) self w [].

(** [float(v)] inside a method. *)
Definition float_ (v : pyval) : Py Q := of_result (py_float v).

Declare Scope py_scope.
Delimit Scope py_scope with py.
Notation "x <- m ;; k" := (bind m (fun x => k))
  (at level 100, m at next level, right associativity) : py_scope.
Notation "m ;; k" := (bind m (fun _ => k))
  (at level 100, right associativity) : py_scope.
Local Open Scope py_scope.

(** *** The [startTime] and [endTime] property setters

    [set_startTime] is [@startTime.setter def startTime(self, value)], and
    likewise for [endTime]. *)

Definition set_startTime (value : Z) : Py unit :=
  self <- get_self ;;
  if negb (_start_time self =? value) then
    update (with_start_time value) ;;
    update (with_trim_completed false) ;;
    emit startTimeChanged
  else ret tt.

Definition set_endTime (value : Z) : Py unit :=
  self <- get_self ;;
  if negb (_end_time self =? value) then
    update (with_end_time value) ;;
    update (with_trim_completed false) ;;
    emit endTimeChanged
  else ret tt.

(** *** [createTrim] *)

Definition trimmed_video_path : string :=
  os_path_join tempfile_gettempdir ("trimmed_video_" ++ str_of_int os_getpid ++ ".mp4").

Definition compressed_video_path : string :=
  os_path_join tempfile_gettempdir ("compressed_video_" ++ str_of_int os_getpid ++ ".mp4").

Definition createTrim : Py bool :=
  self <- get_self ;;
  if negb (truthy (_video_path self)) then
    emit (errorOccurred [Str "No video loaded"]) ;;
    ret false
  else
    try_except
      (update (with_temp_output (Some trimmed_video_path)) ;;
       self <- get_self ;;
       let start_seconds := truediv (_start_time self) 1000 in
       let duration_seconds := truediv (_end_time self - _start_time self) 1000 in
       let cmd := trim_cmd (_video_path self) start_seconds duration_seconds
                           (_temp_output self) in
       result <- run cmd ;;
       if returncode result =? 0 then
         update (with_trim_completed true) ;;
         singleShot 100 cb_check_and_compress ;;
         emit (trimCompleteChanged [Str "Trim created and ready to save or copy"]) ;;
         ret true
       else
         emit (errorOccurred [Str "Error trimming video: "; Str (stderr result)]) ;;
         ret false)
      (fun e =>
         emit (errorOccurred [Str "Error during trimming: "; Str (str_e e)]) ;;
         ret false).

(** The command line [createTrim] builds for an object. *)
Definition createTrim_cmd (self : VideoTrimmer) : list token :=
  trim_cmd (_video_path self)
    (truediv (_start_time self) 1000)
    (truediv (_end_time self - _start_time self) 1000)
    (Some trimmed_video_path).

(** *** [_get_video_info] *)

Definition _get_video_info (video_path : option string) : Py (gmap string pyval) :=
  try_except
    (let cmd := ffprobe_cmd video_path in
     result <- run cmd ;;
     if returncode result =? 0 then
       found <- of_result (json_format_duration (stdout result)) ;;
       ret {[ "duration" := default (PyInt 0) found ]}
     else ret ∅)
    (fun _ => ret ∅).

(** The two lines with which both compression methods obtain the duration:
<<
    video_info = self._get_video_info(input_file)
    duration_seconds = float(video_info.get('duration', 0))
>> *)
Definition probe_duration_seconds (input_file : option string) : Py Q :=
  video_info <- _get_video_info input_file ;;
  float_ (dict_get video_info "duration" (PyInt 0)).

(** *** [_check_and_compress] *)

Definition _check_and_compress : Py unit :=
  try_except
    (self <- get_self ;;
     found <- exists_ (_temp_output self) ;;
     if negb found then ret tt
     else
       file_size_bytes <- getsize (_temp_output self) ;;
       let file_size_mb := file_size_mb file_size_bytes in
       if fle file_size_mb (float_of_int (_max_size_mb self)) then
         update (with_compressed_output (_temp_output self)) ;;
         emit (trimCompleteChanged
                 [Str "Trim ready (Size: "; Fmt1f file_size_mb; Str "MB)"]) ;;
         ret tt
       else
         emit (trimCompleteChanged
                 [Str "Compressing video ("; Fmt1f file_size_mb; Str "MB → ";
                  StrOfInt (_max_size_mb self); Str "MB max)..."]) ;;
         update (with_compressed_output (Some compressed_video_path)) ;;
         duration_seconds <- probe_duration_seconds (_temp_output self) ;;
         if fle duration_seconds (float_of_int 0) then
           emit (errorOccurred [Str "Could not determine video duration for compression"]) ;;
           ret tt
         else
           self <- get_self ;;
           target_bitrate <- of_result (target_bitrate (_max_size_mb self) duration_seconds) ;;
           let cmd := compress_cmd (_temp_output self) target_bitrate
                                   (_compressed_output self) in
           result <- run cmd ;;
           if returncode result =? 0 then
             compressed_size_bytes <- getsize (_compressed_output self) ;;
             let compressed_size_mb := PyNum.truediv compressed_size_bytes (1024 * 1024) in
             emit (trimCompleteChanged
                     [Str "Compressed video ("; Fmt1f file_size_mb; Str "MB → ";
                      Fmt1f compressed_size_mb; Str "MB)"])
           else
             emit (errorOccurred [Str "Error compressing video: "; Str (stderr result)]) ;;
             update (with_compressed_output (_temp_output self)))
    (fun e =>
       emit (errorOccurred [Str "Error during compression: "; Str (str_e e)]) ;;
       self <- get_self ;;
       update (with_compressed_output (_temp_output self))).

(** *** [compressToSize] *)

Definition compressToSize (size_mb : Z) : Py bool :=
  self <- get_self ;;
  if negb (_trim_completed self) then
    emit (errorOccurred [Str "No trimmed video available"]) ;;
    ret false
  else
    let input_file := _temp_output self in
    try_except
      (found <- exists_ input_file ;;
       if negb found then
         emit (errorOccurred [Str "Trimmed video file not found"]) ;;
         ret false
       else
         update (with_compressed_output (Some compressed_video_path)) ;;
         file_size_bytes <- getsize input_file ;;
         let file_size_mb := file_size_mb file_size_bytes in
         if fle file_size_mb (float_of_int size_mb) then
           update (with_compressed_output input_file) ;;
           emit (trimCompleteChanged
                   [Str "Video already fits size requirement ("; Fmt1f file_size_mb; Str "MB)"]) ;;
           ret true
         else
           emit compressionStarted ;;
           emit (trimCompleteChanged
                   [Str "Compressing video ("; Fmt1f file_size_mb; Str "MB → ";
                    StrOfInt size_mb; Str "MB)..."]) ;;
           duration_seconds <- probe_duration_seconds input_file ;;
           if fle duration_seconds (float_of_int 0) then
             emit (errorOccurred [Str "Could not determine video duration for compression"]) ;;
             ret false
           else
             self <- get_self ;;
             target_bitrate <- of_result (target_bitrate size_mb duration_seconds) ;;
             let cmd := compress_cmd input_file target_bitrate
                                     (_compressed_output self) in
             result <- run cmd ;;
             if returncode result =? 0 then
               compressed_size_bytes <- getsize (_compressed_output self) ;;
               let compressed_size_mb := PyNum.truediv compressed_size_bytes (1024 * 1024) in
               emit (trimCompleteChanged
                       [Str "Compressed video ("; Fmt1f file_size_mb; Str "MB → ";
                        Fmt1f compressed_size_mb; Str "MB)"]) ;;
               emit compressionFinished ;;
               ret true
             else
               emit (errorOccurred [Str "Error compressing video: "; Str (stderr result)]) ;;
               update (with_compressed_output input_file) ;;
               emit compressionFinished ;;
               ret false)
      (fun e =>
         emit (errorOccurred [Str "Error during compression: "; Str (str_e e)]) ;;
         update (with_compressed_output input_file) ;;
         emit compressionFinished ;;
         ret false).

(** *** Claiming the result: clipboard and save dialog *)

(** [self._compressed_output if self._compressed_output else self._temp_output]. *)
Definition file_to_claim (self : VideoTrimmer) : option string :=
  if truthy_opt (_compressed_output self) then _compressed_output self
  else _temp_output self.

Definition copyTrimToClipboard : Py bool :=
  self <- get_self ;;
  if negb (_trim_completed self) then
    emit (errorOccurred [Str "No trimmed video available"]) ;;
    ret false
  else
    try_except
      (let file_to_copy := file_to_claim self in
       found <- exists_ file_to_copy ;;
       if negb found then
         emit (errorOccurred [Str "Trimmed video file not found"]) ;;
         ret false
       else
         singleShot 100 (cb_copy_file_path_to_clipboard file_to_copy) ;;
         file_size_bytes <- getsize file_to_copy ;;
         let file_size_mb := file_size_mb file_size_bytes in
         emit (trimCompleteChanged
                 [Str "Video copied to clipboard ("; Fmt1f file_size_mb; Str "MB)"]) ;;
         ret true)
      (fun e =>
         emit (errorOccurred [Str "Error preparing video: "; Str (str_e e)]) ;;
         ret false).

Definition _copy_file_path_to_clipboard (file_path : option string) : Py unit :=
  try_except
    (found <- which "wl-copy" ;;
     if negb found then
       emit (errorOccurred
               [Str "wl-clipboard not installed. Install with: sudo pacman -S wl-clipboard"])
     else
       run [Str "wl-copy"; Str "-t"; Str "text/uri-list";
            Str ("file://" ++ format_opt file_path)] ;;
       run [Str "wl-copy"; Str "-p"; path_arg file_path] ;;
       ret tt)
    (fun e =>
       emit (errorOccurred [Str "Clipboard operation error: "; Str (str_e e)])).

Definition saveTrimmingDialog : Py bool :=
  self <- get_self ;;
  if negb (_trim_completed self) then
    emit (errorOccurred [Str "No trimmed video available"]) ;;
    ret false
  else
    try_except
      (let file_to_save := file_to_claim self in
       found <- exists_ file_to_save ;;
       if negb found then
         emit (errorOccurred [Str "Trimmed video file not found"]) ;;
         ret false
       else
         let original_filename := os_path_basename (_video_path self) in
         let extension := splitext_ext original_filename in
         let output_path := os_path_join home ("trimmed_" ++ original_filename) in
         let cmd :=
           [ Str "kdialog";
             Str "--getsavefilename";
             Str output_path;
             Str ("Video files (*" ++ extension ++ ")") ] in
         result <- run cmd ;;
         if (returncode result =? 0) && truthy (strip (stdout result)) then
           let output_path := strip (stdout result) in
           copy2 file_to_save output_path ;;
           file_size_bytes <- getsize file_to_save ;;
           let file_size_mb := file_size_mb file_size_bytes in
           emit (trimCompleteChanged
                   [Str "Saved to: "; Str output_path; Str " ("; Fmt1f file_size_mb; Str "MB)"]) ;;
           ret true
         else ret false)
      (fun e =>
         emit (errorOccurred [Str "Error saving file: "; Str (str_e e)]) ;;
         ret false).

End Methods.

Arguments Out {World A} _ _ _ _.
Arguments value {World A} _.
Arguments self_of {World A} _.
Arguments world_of {World A} _.
Arguments events {World A} _.

(** The encoder command lines among the events of a call: the [cmd]s of
    the [subprocess.run] calls whose program is [ffmpeg]. *)
Definition is_encoder_cmd (cmd : list token) : bool :=
  match cmd with
  | Str prog :: _ => String.eqb prog "ffmpeg"
  | _ => false
  end.

Fixpoint encoder_runs (evs : list event) : list (list token) :=
  match evs with
  | [] => []
  | Run cmd :: rest =>
      if is_encoder_cmd cmd then cmd :: encoder_runs rest else encoder_runs rest
  | _ :: rest => encoder_runs rest
  end.

(** ** The same arithmetic with [SpecFloat]

    The expression [int((size_mb * 1024 * 1024 * 0.95 * 8) / duration)]
    evaluated with the binary64 operations of the Standard Library, to
    compare with [PyNum] on concrete inputs. *)

Module Binary64.

Definition prec : Z := 53.
Definition emax : Z := 1024.

Definition of_int (n : Z) : spec_float := binary_normalize prec emax n 0 false.
Definition mul : spec_float -> spec_float -> spec_float := SFmul prec emax.
Definition div : spec_float -> spec_float -> spec_float := SFdiv prec emax.

(** The literal [0.95]: the double nearest to 95/100. *)
Definition lit_0_95 : spec_float := div (of_int 95) (of_int 100).

(** [int(x)]: truncation toward zero; [None] for [nan] and [inf], where
    Python raises. *)
Definition to_int (x : spec_float) : option Z :=
  match x with
  | S754_zero _ => Some 0
  | S754_finite s m e =>
      let magnitude := if 0 <=? e then Zpos m * 2 ^ e else Zpos m / 2 ^ (- e) in
      Some (if s then - magnitude else magnitude)
  | S754_infinity _ | S754_nan => None
  end.

Definition target_bitrate (size_mb : Z) (duration_seconds : spec_float) : option Z :=
  to_int (div (mul (mul (of_int (size_mb * 1024 * 1024)) lit_0_95) (of_int 8))
              duration_seconds).

(** The float of [PyNum] that a [spec_float] denotes. *)
Definition to_float (x : spec_float) : float :=
  match x with
  | S754_zero _ => Finite 0
  | S754_finite s m e =>
      Finite (Qred (inject_Z (if s then Zneg m else Zpos m) * pow2 e))
  | S754_infinity s => Infinity s
  | S754_nan => NaN
  end.

End Binary64.

(** ** A simulated operating system

    A file system as a finite map from paths to sizes in bytes, and child
    processes that behave as a [scenario] says.  It instantiates [OS] so
    that the methods can be run on concrete inputs. *)

Module Sim.

Record scenario : Type := Scenario {
  sc_tempdir : string;
  sc_pid : Z;
  sc_home : string;
  (* ffmpeg -c copy: its outcome, and the size of the file it writes on exit 0 *)
  sc_trim : result CompletedProcess;
  sc_trim_size : Z;
  (* ffmpeg -c:v libx264: likewise *)
  sc_encode : result CompletedProcess;
  sc_encode_size : Z;
  (* ffprobe, and what its JSON output holds under format.duration *)
  sc_probe : result CompletedProcess;
  sc_probe_json : result (option pyval);
  (* kdialog *)
  sc_kdialog : result CompletedProcess
}.

Definition succeeded (r : result CompletedProcess) : bool :=
  match r with Return p => returncode p =? 0 | Raise _ => false end.

Definition is_str (s : string) (t : token) : bool :=
  match t with Str s' => String.eqb s s' | _ => false end.

(** The output file of an ffmpeg command line: its last argument. *)
Definition output_arg (cmd : list token) : option string :=
  match List.last cmd NoneArg with Str p => Some p | _ => None end.

Definition write (p : option string) (size : Z) (fs : gmap string Z) : gmap string Z :=
  match p with Some path => <[path := size]> fs | None => fs end.

Definition sim_run (sc : scenario) (cmd : list token) (fs : gmap string Z)
  : result CompletedProcess * gmap string Z :=
  match cmd with
  | Str prog :: _ =>
      if String.eqb prog "ffmpeg" then
        if existsb (is_str "copy") cmd then
          (sc_trim sc, if succeeded (sc_trim sc) then write (output_arg cmd) (sc_trim_size sc) fs else fs)
        else
          (sc_encode sc, if succeeded (sc_encode sc) then write (output_arg cmd) (sc_encode_size sc) fs else fs)
      else if String.eqb prog "ffprobe" then (sc_probe sc, fs)
      else if String.eqb prog "kdialog" then (sc_kdialog sc, fs)
      else (Return (Completed 0 "" ""), fs)
  | _ => (Raise (Exception "expected str, bytes or os.PathLike object"), fs)
  end.

Definition sim_exists (fs : gmap string Z) (p : string) : bool :=
  match fs !! p with Some _ => true | None => false end.

Definition sim_getsize (fs : gmap string Z) (p : string) : result Z :=
  match fs !! p with
  | Some n => Return n
  | None => Raise (Exception ("[Errno 2] No such file or directory: " ++ p))
  end.

Definition sim_copy2 (src dst : string) (fs : gmap string Z) : result unit * gmap string Z :=
  match fs !! src with
  | Some n => (Return tt, <[dst := n]> fs)
  | None => (Raise (Exception ("[Errno 2] No such file or directory: " ++ src)), fs)
  end.

(** [float(s)] on the few duration strings the scenarios use: the double
    nearest to the decimal. *)
Definition sim_float (s : string) : result Q :=
  if String.eqb s "30.000000" then Return (nearest_double (30 # 1))
  else if String.eqb s "60.800000" then Return (nearest_double (608 # 10))
  else if String.eqb s "1.001000" then Return (nearest_double (1001 # 1000))
  else if String.eqb s "0.000000" then Return (nearest_double 0)
  else Raise (Exception ("could not convert string to float: '" ++ s ++ "'")).

Fixpoint sim_basename_from (acc s : string) : string :=
  match s with
  | EmptyString => acc
  | String c rest =>
      if Ascii.eqb c "/"%char then sim_basename_from rest rest
      else sim_basename_from acc rest
  end.

Definition sim_basename (s : string) : string := sim_basename_from s s.

(** The extension of a base name: from its last dot, unless that dot leads
    the name. *)
Fixpoint sim_ext_from (seen_name : bool) (acc s : string) : string :=
  match s with
  | EmptyString => acc
  | String c rest =>
      if Ascii.eqb c "."%char then
        sim_ext_from seen_name (if seen_name then s else acc) rest
      else sim_ext_from true acc rest
  end.

Definition sim_ext (s : string) : string := sim_ext_from false "" s.

Definition is_space (c : ascii) : bool :=
  let n := N_of_ascii c in ((9 <=? n) && (n <=? 13) || (n =? 32))%N.

Fixpoint lstrip (l : list ascii) : list ascii :=
  match l with
  | c :: rest => if is_space c then lstrip rest else l
  | [] => []
  end.

Definition sim_strip (s : string) : string :=
  string_of_list_ascii (rev (lstrip (rev (lstrip (list_ascii_of_string s))))).

#[local] Instance sim_os (sc : scenario) : OS (gmap string Z) := {|
  os_path_exists := sim_exists;
  os_path_getsize := sim_getsize;
  subprocess_run := sim_run sc;
  tempfile_gettempdir := sc_tempdir sc;
  os_getpid := sc_pid sc;
  home := sc_home sc;
  json_format_duration := fun _ => sc_probe_json sc;
  float_of_str := sim_float;
  shutil_which := fun _ _ => true;
  shutil_copy2 := sim_copy2;
  os_path_basename := sim_basename;
  splitext_ext := sim_ext;
  strip := sim_strip
|}.

(** A loaded 120 s video with the range [10000, 40000) selected. *)
Definition loaded : VideoTrimmer :=
  {| _start_time := 10000; _end_time := 40000; _duration := 120000;
     _video_path := "/home/user/clip.mp4"; _trim_completed := false;
     _temp_output := None; _compressed_output := None; _max_size_mb := 50 |}.

Definition disk : gmap string Z := {[ "/home/user/clip.mp4" := 400 * 1024 * 1024 ]}.

Definition ok : result CompletedProcess := Return (Completed 0 "" "").
Definition failed (err : string) : result CompletedProcess := Return (Completed 1 "" err).

(** Everything works; the trim is 80 MB, 30 s long. *)
Definition sc_80MB : scenario :=
  {| sc_tempdir := "/tmp"; sc_pid := 4242; sc_home := "/home/user";
     sc_trim := ok; sc_trim_size := 80 * 1024 * 1024;
     sc_encode := ok; sc_encode_size := 48 * 1024 * 1024;
     sc_probe := ok; sc_probe_json := Return (Some (PyStr "30.000000"));
     sc_kdialog := Return (Completed 0 "/home/user/out.mp4" "") |}.

(** The trim is 10 MB. *)
Definition sc_10MB : scenario :=
  {| sc_tempdir := "/tmp"; sc_pid := 4242; sc_home := "/home/user";
     sc_trim := ok; sc_trim_size := 10 * 1024 * 1024;
     sc_encode := ok; sc_encode_size := 0;
     sc_probe := ok; sc_probe_json := Return (Some (PyStr "30.000000"));
     sc_kdialog := Return (Completed 0 "/home/user/out.mp4" "") |}.

(** The trim is 80 MB and 60.8 s long. *)
Definition sc_60_8s : scenario :=
  {| sc_tempdir := "/tmp"; sc_pid := 4242; sc_home := "/home/user";
     sc_trim := ok; sc_trim_size := 80 * 1024 * 1024;
     sc_encode := ok; sc_encode_size := 3 * 1024 * 1024;
     sc_probe := ok; sc_probe_json := Return (Some (PyStr "60.800000"));
     sc_kdialog := Return (Completed 0 "/home/user/out.mp4" "") |}.

(** The trim is 80 MB and ffprobe reports no duration for it. *)
Definition sc_no_duration : scenario :=
  {| sc_tempdir := "/tmp"; sc_pid := 4242; sc_home := "/home/user";
     sc_trim := ok; sc_trim_size := 80 * 1024 * 1024;
     sc_encode := ok; sc_encode_size := 48 * 1024 * 1024;
     sc_probe := ok; sc_probe_json := Return None;
     sc_kdialog := Return (Completed 0 "/home/user/out.mp4" "") |}.

(** The trim is 80 MB and the re-encode exits with status 1. *)
Definition sc_encode_fails : scenario :=
  {| sc_tempdir := "/tmp"; sc_pid := 4242; sc_home := "/home/user";
     sc_trim := ok; sc_trim_size := 80 * 1024 * 1024;
     sc_encode := failed "Unknown encoder 'libx264'"; sc_encode_size := 0;
     sc_probe := ok; sc_probe_json := Return (Some (PyStr "30.000000"));
     sc_kdialog := Return (Completed 0 "/home/user/out.mp4" "") |}.

(** The stream copy exits with status 1. *)
Definition sc_trim_fails : scenario :=
  {| sc_tempdir := "/tmp"; sc_pid := 4242; sc_home := "/home/user";
     sc_trim := failed "clip.mp4: Invalid data found when processing input";
     sc_trim_size := 0;
     sc_encode := ok; sc_encode_size := 0;
     sc_probe := ok; sc_probe_json := Return (Some (PyStr "30.000000"));
     sc_kdialog := Return (Completed 0 "/home/user/out.mp4" "") |}.

(** The object and the disk after a successful [createTrim] on [loaded]
    and [disk], for a trim of [size] bytes. *)
Definition trimmed : VideoTrimmer :=
  {| _start_time := 10000; _end_time := 40000; _duration := 120000;
     _video_path := "/home/user/clip.mp4"; _trim_completed := true;
     _temp_output := Some "/tmp/trimmed_video_4242.mp4";
     _compressed_output := None; _max_size_mb := 50 |}.

Definition disk_with_trim (size : Z) : gmap string Z :=
  <[ "/tmp/trimmed_video_4242.mp4" := size ]> disk.

End Sim.

(** * The rest of [VideoTrimmer] and the gallery *)

(** What these need from the system beyond [OS]. *)
Class Desktop (World : Type) : Type := {
  (* os.path.abspath and os.getcwd(): both raise when the working
     directory cannot be read *)
  os_path_abspath : World -> string -> result string;
  os_getcwd : World -> result string;
  (* print(s), which setVideoFile calls outside its try: the write to
     sys.stdout can raise *)
  print_stdout : World -> string -> result unit;
  (* os.makedirs(p, exist_ok=True) *)
  os_makedirs : string -> World -> result unit * World;
  (* int(os.path.getmtime(p)) *)
  os_path_getmtime : World -> string -> result Z;
  (* glob.glob *)
  glob_glob : World -> string -> list string;
  (* hashlib.md5(s.encode()).hexdigest(): s.encode() raises
     UnicodeEncodeError on a name that is not valid UTF-8 *)
  md5_hexdigest : string -> result string;
  (* QUrl.fromLocalFile(p).toString() *)
  qurl_from_local_file : string -> string
}.

Definition with_video_path (v : string) (o : VideoTrimmer) : VideoTrimmer :=
  mkVideoTrimmer (_start_time o) (_end_time o) (_duration o) v
    (_trim_completed o) (_temp_output o) (_compressed_output o) (_max_size_mb o).

Definition with_duration (v : Z) (o : VideoTrimmer) : VideoTrimmer :=
  mkVideoTrimmer (_start_time o) (_end_time o) v (_video_path o)
    (_trim_completed o) (_temp_output o) (_compressed_output o) (_max_size_mb o).

(** [s.replace(old, '')] for a non-empty [old]: every occurrence found by a
    scan from the left is dropped; [skip] counts the characters of the
    occurrence being dropped. *)
Fixpoint remove_from (old : string) (skip : nat) (s : string) : string :=
  match s with
  | EmptyString => EmptyString
  | String c rest =>
      match skip with
      | S k => remove_from old k rest
      | O =>
          if String.prefix old s then remove_from old (String.length old - 1) rest
          else String c (remove_from old 0 rest)
      end
  end.

Definition str_remove (old s : string) : string := remove_from old 0 s.

(** [old in s]. *)
Fixpoint contains (old s : string) : bool :=
  match s with
  | EmptyString => String.prefix old s
  | String _ rest => String.prefix old s || contains old rest
  end.

(** [os.path.isabs] of [posixpath]. *)
Definition os_path_isabs (s : string) : bool := startswith_sep s.

Section Loading.
Context {World : Type} {os : OS World} {desktop : Desktop World}.

Notation "x <- m ;; k" := (bind m (fun x => k))
  (at level 100, m at next level, right associativity).
Notation "m ;; k" := (bind m (fun _ => k))
  (at level 100, right associativity).

(** [os.path.abspath(p)] and [print(s)] inside a method. *)
Definition abspath (p : string) : Py string :=
  fun self w => Out (os_path_abspath w p) self w [].

Definition print_ (s : string) : Py unit :=
  fun self w => Out (print_stdout w s) self w [].

(** *** [setVideoFile] *)

Definition setVideoFile_cmd (video_path : string) : list token :=
  [ Str "ffprobe";
    Str "-v"; Str "error";
    Str "-show_entries"; Str "format=duration";
    Str "-of"; Str "default=noprint_wrappers=1:nokey=1";
    Str video_path ].

Definition setVideoFile (file_path : string) : Py unit :=
  (if String.prefix "file://" file_path then
     update (with_video_path (str_remove "file://" file_path))
   else update (with_video_path file_path)) ;;
  self <- get_self ;;
  (if negb (os_path_isabs (_video_path self)) then
     absolute <- abspath (_video_path self) ;;
     update (with_video_path absolute)
   else ret tt) ;;
  self <- get_self ;;
  print_ ("Setting video file: " ++ _video_path self) ;;
  try_except
    (self <- get_self ;;
     found <- exists_ (Some (_video_path self)) ;;
     if negb found then
       emit (errorOccurred [Str "File not found: "; Str (_video_path self)])
     else
       let cmd := setVideoFile_cmd (_video_path self) in
       result <- run cmd ;;
       if returncode result =? 0 then
         seconds <- float_ (PyStr (strip (stdout result))) ;;
         milliseconds <-
           of_result (py_int (fmul (Finite seconds) (Finite (float_of_int 1000)))) ;;
         update (with_duration milliseconds) ;;
         self <- get_self ;;
         update (with_end_time (_duration self)) ;;
         emit durationChanged
       else
         emit (errorOccurred [Str "Error getting video duration: "; Str (stderr result)]))
    (fun e => emit (errorOccurred [Str "Error processing video: "; Str (str_e e)])).

(** The argument of [setVideoFile] without its [file://], and the path
    the method stores for it when it can be made absolute. *)
Definition stripped_path (file_path : string) : string :=
  if String.prefix "file://" file_path then str_remove "file://" file_path
  else file_path.

Definition resolved_path (w : World) (file_path : string) : result string :=
  let stripped := stripped_path file_path in
  if os_path_isabs stripped then Return stripped else os_path_abspath w stripped.

End Loading.

(** ** The gallery: [VideoInfo] and [VideoGalleryModel] *)

Record VideoInfo : Type := mkVideoInfo {
  _filepath : string;
  _filename : string;
  _filesize : Z;
  _last_modified : Z;          (* QDateTime, as seconds since the epoch *)
  _thumbnail_path : string
}.

(** [x < y] on floats. *)
Definition flt (x y : Q) : bool := negb (Qle_bool y x).

(** The loop of [fileSizeFormatted] over the units still to try; the
    line after the loop is the empty case.  [size /= 1024.0] is the
    quotient rounded: a file size, which [os.path.getsize] returned, and its
    quotients are far below the overflow threshold, and [1024.0] is not
    zero. *)
Fixpoint scale_size (size : Q) (units : list string) : list token :=
  match units with
  | [] => [Fmt1f size; Str " PB"]
  | unit :: rest =>
      if flt size (float_of_int 1024) then [Fmt1f size; Str " "; Str unit]
      else scale_size (nearest_double (size / float_of_int 1024)) rest
  end.

Definition size_units : list string := ["B"; "KB"; "MB"; "GB"; "TB"].

Definition fileSizeFormatted (video : VideoInfo) : list token :=
  scale_size (float_of_int (_filesize video)) size_units.

Inductive QVariant : Type :=
| QVariant_invalid                       (* QVariant() *)
| QVariant_str (s : string)
| QVariant_int (n : Z)
| QVariant_datetime (secs : Z)
| QVariant_text (t : list token).

(** A [QModelIndex]: invalid, or valid with a row (never negative). *)
Inductive QModelIndex : Type :=
| InvalidIndex
| Index (row : nat).

Definition UserRole : Z := 256.
Definition FilepathRole : Z := UserRole + 1.
Definition FilenameRole : Z := UserRole + 2.
Definition FilesizeRole : Z := UserRole + 3.
Definition LastModifiedRole : Z := UserRole + 4.
Definition FilesizeFormattedRole : Z := UserRole + 5.
Definition ThumbnailPathRole : Z := UserRole + 6.

(** [VideoGalleryModel.data]. *)
Definition data (_videos : list VideoInfo) (index : QModelIndex) (role : Z) : QVariant :=
  match index with
  | InvalidIndex => QVariant_invalid
  | Index row =>
      if (length _videos <=? row)%nat then QVariant_invalid
      else
        match _videos !! row with
        | None => QVariant_invalid
        | Some video =>
            if role =? FilepathRole then QVariant_str (_filepath video)
            else if role =? FilenameRole then QVariant_str (_filename video)
            else if role =? FilesizeRole then QVariant_int (_filesize video)
            else if role =? LastModifiedRole then QVariant_datetime (_last_modified video)
            else if role =? FilesizeFormattedRole then QVariant_text (fileSizeFormatted video)
            else if role =? ThumbnailPathRole then QVariant_str (_thumbnail_path video)
            else QVariant_invalid
        end
  end.

(** [VideoGalleryModel.roleNames]. *)
Definition roleNames : gmap Z string :=
  {[ FilepathRole := "filepath";
     FilenameRole := "filename";
     FilesizeRole := "filesize";
     LastModifiedRole := "lastModified";
     FilesizeFormattedRole := "fileSizeFormatted";
     ThumbnailPathRole := "thumbnailPath" ]}.

Definition video_extensions : list string :=
  [".mp4"; ".avi"; ".mkv"; ".mov"; ".wmv"; ".flv"; ".webm"; ".m4v"; ".3gp"; ".mpg"; ".mpeg"].

Definition standard_icon_paths : list string :=
  [ "/usr/share/icons/breeze/mimetypes/64/video-x-generic.svg";
    "/usr/share/icons/hicolor/64x64/mimetypes/video-x-generic.png";
    "/usr/share/icons/hicolor/scalable/mimetypes/video-x-generic.svg";
    "/usr/share/icons/Adwaita/64x64/mimetypes/video-x-generic.png" ].

(** What the gallery model does that a view can observe. *)
Inductive model_event : Type :=
| beginResetModel
| endResetModel
| Spawned (cmd : list token).            (* subprocess.run(cmd, ...) *)

Section Gallery.
Context {World : Type} {os : OS World} {desktop : Desktop World}.

(** A method of the gallery model: from [_videos] and the world to a
    result, the new [_videos], the new world and the events.  The [print]
    calls of the source are left out. *)
Record gout (A : Type) : Type := GOut {
  gvalue : result A;
  gvideos : list VideoInfo;
  gworld : World;
  gevents : list model_event
}.
Arguments GOut {A} _ _ _ _.
Arguments gvalue {A} _.
Arguments gvideos {A} _.
Arguments gworld {A} _.
Arguments gevents {A} _.

Definition G (A : Type) : Type := list VideoInfo -> World -> gout A.

Definition gret {A : Type} (a : A) : G A :=
  fun vs w => GOut (Return a) vs w [].

Definition gbind {A B : Type} (m : G A) (k : A -> G B) : G B :=
  fun vs w =>
    match m vs w with
    | GOut (Return a) vs1 w1 ev1 =>
        match k a vs1 w1 with
        | GOut r vs2 w2 ev2 => GOut r vs2 w2 (ev1 ++ ev2)
        end
    | GOut (Raise e) vs1 w1 ev1 => GOut (Raise e) vs1 w1 ev1
    end.

Definition gtry {A : Type} (body : G A) (handler : exn -> G A) : G A :=
  fun vs w =>
    match body vs w with
    | GOut (Return a) vs1 w1 ev1 => GOut (Return a) vs1 w1 ev1
    | GOut (Raise e) vs1 w1 ev1 =>
        match handler e vs1 w1 with
        | GOut r vs2 w2 ev2 => GOut r vs2 w2 (ev1 ++ ev2)
        end
    end.

Definition gsignal (e : model_event) : G unit :=
  fun vs w => GOut (Return tt) vs w [e].

Definition grun (cmd : list token) : G CompletedProcess :=
  fun vs w => let (r, w1) := subprocess_run cmd w in GOut r vs w1 [Spawned cmd].

Definition gexists (p : string) : G bool :=
  fun vs w => GOut (Return (os_path_exists w p)) vs w [].

Definition gwhich (name : string) : G bool :=
  fun vs w => GOut (Return (shutil_which w name)) vs w [].

Definition ggetsize (p : string) : G Z :=
  fun vs w => GOut (os_path_getsize w p) vs w [].

Definition ggetmtime (p : string) : G Z :=
  fun vs w => GOut (os_path_getmtime w p) vs w [].

Definition gmakedirs (p : string) : G unit :=
  fun vs w => let (r, w1) := os_makedirs p w in GOut r vs w1 [].

Definition gglob (pattern : string) : G (list string) :=
  fun vs w => GOut (Return (glob_glob w pattern)) vs w [].

Definition gmd5 (s : string) : G string :=
  fun vs w => GOut (md5_hexdigest s) vs w [].

Definition ggetcwd : G string :=
  fun vs w => GOut (os_getcwd w) vs w [].

Definition get_videos : G (list VideoInfo) :=
  fun vs w => GOut (Return vs) vs w [].

Definition set_videos (vs' : list VideoInfo) : G unit :=
  fun _ w => GOut (Return tt) vs' w [].

Notation "x <- m ;; k" := (gbind m (fun x => k))
  (at level 100, m at next level, right associativity).
Notation "m ;; k" := (gbind m (fun _ => k))
  (at level 100, right associativity).

(** *** [VideoInfo._generate_thumbnail] *)

Definition thumbnail_path_of (hash_name : string) : string :=
  os_path_join (os_path_join tempfile_gettempdir "otrimmer_thumbnails")
    (hash_name ++ ".jpg").

Definition thumbnail_cmd (filepath thumbnail_path : string) : list token :=
  [ Str "ffmpeg";
    Str "-y";
    Str "-i"; Str filepath;
    Str "-ss"; Str "00:00:01";
    Str "-vframes"; Str "1";
    Str "-vf"; Str "scale=320:-1";
    Str thumbnail_path ].

(** The loop over [standard_icon_paths] and the line after it. *)
Fixpoint first_icon (icon_paths : list string) : G string :=
  match icon_paths with
  | [] => gret ""
  | icon_path :: rest =>
      found <- gexists icon_path ;;
      if found then gret (qurl_from_local_file icon_path) else first_icon rest
  end.

Definition _generate_thumbnail (filepath : string) : G string :=
  gtry
    (let thumbnail_dir := os_path_join tempfile_gettempdir "otrimmer_thumbnails" in
     gmakedirs thumbnail_dir ;;
     hash_name <- gmd5 filepath ;;
     let thumbnail_path := os_path_join thumbnail_dir (hash_name ++ ".jpg") in
     cached <- gexists thumbnail_path ;;
     if cached then gret (qurl_from_local_file thumbnail_path)
     else
       has_ffmpeg <- gwhich "ffmpeg" ;;
       made <-
         (if has_ffmpeg then
            gtry
              (grun (thumbnail_cmd filepath thumbnail_path) ;;
               found <- gexists thumbnail_path ;;
               gret found)
              (fun _ => gret false)
          else gret false) ;;
       if made then gret (qurl_from_local_file thumbnail_path)
       else first_icon standard_icon_paths)
    (fun _ => gret "").

(** What the loop over [standard_icon_paths] returns in a world. *)
Definition fallback_icon (w : World) : string :=
  match List.find (os_path_exists w) standard_icon_paths with
  | Some icon_path => qurl_from_local_file icon_path
  | None => ""
  end.

(** *** [VideoInfo.__init__] *)

Definition VideoInfo__init__ (filepath : string) : G VideoInfo :=
  let filename := os_path_basename filepath in
  filesize <- ggetsize filepath ;;
  last_modified <- ggetmtime filepath ;;
  thumbnail_path <- _generate_thumbnail filepath ;;
  gret (mkVideoInfo filepath filename filesize last_modified thumbnail_path).

(** *** [VideoGalleryModel.loadVideosFromDirectory] *)

(** [for filepath in glob.glob(pattern): self._videos.append(VideoInfo(filepath))] *)
Fixpoint append_videos (filepaths : list string) : G unit :=
  match filepaths with
  | [] => gret tt
  | filepath :: rest =>
      video <- VideoInfo__init__ filepath ;;
      _videos <- get_videos ;;
      set_videos (_videos ++ [video]) ;;
      append_videos rest
  end.

(** [for ext in video_extensions: ...] *)
Fixpoint load_extensions (directory : string) (extensions : list string) : G unit :=
  match extensions with
  | [] => gret tt
  | ext :: rest =>
      let pattern := os_path_join directory ("*" ++ ext) in
      filepaths <- gglob pattern ;;
      append_videos filepaths ;;
      load_extensions directory rest
  end.

(** The directory that is listed: the argument, or [os.getcwd()] when it
    is None. *)
Definition directory_or_cwd (directory : option string) (w : World) : result string :=
  match directory with None => os_getcwd w | Some d => Return d end.

Definition loadVideosFromDirectory (directory : option string) : G bool :=
  directory <- match directory with None => ggetcwd | Some d => gret d end ;;
  gsignal beginResetModel ;;
  set_videos [] ;;
  load_extensions directory video_extensions ;;
  gsignal endResetModel ;;
  _videos <- get_videos ;;
  gret (0 <? length _videos)%nat.

End Gallery.

Arguments GOut {World A} _ _ _ _.
Arguments gvalue {World A} _.
Arguments gvideos {World A} _.
Arguments gworld {World A} _.
Arguments gevents {World A} _.

(** ** The simulated system, continued *)

Module SimDesktop.
Import Sim.

Record desktop_scenario : Type := DesktopScenario {
  ds_cwd : result string;                 (* os.getcwd() *)
  ds_stdout : result unit;                (* what a print comes to *)
  ds_listing : string -> list string;     (* what glob.glob returns for a pattern *)
  ds_makedirs : result unit;
  ds_mtime : Z
}.

(** A stand-in for the MD5 digest: any fixed function of the path serves. *)
Definition sim_digest (s : string) : result string :=
  Return (str_of_int (Z.of_nat (String.length s))).

Definition sim_abspath (ds : desktop_scenario) (p : string) : result string :=
  match ds_cwd ds with
  | Return cwd => Return (os_path_join cwd p)
  | Raise e => Raise e
  end.

Definition sim_getmtime (ds : desktop_scenario) (fs : gmap string Z) (p : string)
  : result Z :=
  match fs !! p with
  | Some _ => Return (ds_mtime ds)
  | None => Raise (Exception ("[Errno 2] No such file or directory: " ++ p))
  end.

#[local] Instance sim_desktop (ds : desktop_scenario) : Desktop (gmap string Z) := {|
  os_path_abspath := fun _ p => sim_abspath ds p;
  os_getcwd := fun _ => ds_cwd ds;
  print_stdout := fun _ _ => ds_stdout ds;
  os_makedirs := fun _ fs => (ds_makedirs ds, fs);
  os_path_getmtime := sim_getmtime ds;
  glob_glob := fun _ pattern => ds_listing ds pattern;
  md5_hexdigest := sim_digest;
  qurl_from_local_file := fun p => "file://" ++ p
|}.

(** An empty directory. *)
Definition ds_empty : desktop_scenario :=
  {| ds_cwd := Return "/home/user"; ds_stdout := Return tt;
     ds_listing := fun _ => [];
     ds_makedirs := Return tt; ds_mtime := 1700000000 |}.

(** A directory whose listing still names a file that is gone. *)
Definition ds_dangling : desktop_scenario :=
  {| ds_cwd := Return "/videos"; ds_stdout := Return tt;
     ds_listing := fun pattern =>
       if String.eqb pattern "/videos/*.mp4" then ["/videos/gone.mp4"] else [];
     ds_makedirs := Return tt; ds_mtime := 1700000000 |}.

(** The re-encode succeeds but its output, 60 MB, is still over the ceiling. *)
Definition sc_overshoot : scenario :=
  {| sc_tempdir := "/tmp"; sc_pid := 4242; sc_home := "/home/user";
     sc_trim := ok; sc_trim_size := 80 * 1024 * 1024;
     sc_encode := ok; sc_encode_size := 60 * 1024 * 1024;
     sc_probe := ok; sc_probe_json := Return (Some (PyStr "30.000000"));
     sc_kdialog := Return (Completed 0 "/home/user/out.mp4" "") |}.

(** The user closes the save dialog. *)
Definition sc_cancel : scenario :=
  {| sc_tempdir := "/tmp"; sc_pid := 4242; sc_home := "/home/user";
     sc_trim := ok; sc_trim_size := 80 * 1024 * 1024;
     sc_encode := ok; sc_encode_size := 48 * 1024 * 1024;
     sc_probe := ok; sc_probe_json := Return (Some (PyStr "30.000000"));
     sc_kdialog := Return (Completed 1 "" "") |}.

(** The prober prints the duration on a line of its own. *)
Definition sc_loadable : scenario :=
  {| sc_tempdir := "/tmp"; sc_pid := 4242; sc_home := "/home/user";
     sc_trim := ok; sc_trim_size := 80 * 1024 * 1024;
     sc_encode := ok; sc_encode_size := 48 * 1024 * 1024;
     sc_probe := Return (Completed 0 " 30.000000 " "");
     sc_probe_json := Return (Some (PyStr "30.000000"));
     sc_kdialog := Return (Completed 0 "/home/user/out.mp4" "") |}.

(** The prober reports 1.001 s. *)
Definition sc_1001ms : scenario :=
  {| sc_tempdir := "/tmp"; sc_pid := 4242; sc_home := "/home/user";
     sc_trim := ok; sc_trim_size := 80 * 1024 * 1024;
     sc_encode := ok; sc_encode_size := 48 * 1024 * 1024;
     sc_probe := Return (Completed 0 " 1.001000 " "");
     sc_probe_json := Return (Some (PyStr "1.001000"));
     sc_kdialog := Return (Completed 0 "/home/user/out.mp4" "") |}.

(** A file of 1048575 bytes, one byte short of a MiB. *)
Definition almost_1MiB : VideoInfo :=
  {| _filepath := "/home/user/short.mp4"; _filename := "short.mp4";
     _filesize := 1024 * 1024 - 1; _last_modified := 1700000000;
     _thumbnail_path := "" |}.

(** The object once an earlier request has left a compressed file. *)
Definition compressed_before : VideoTrimmer :=
  with_compressed_output (Some "/tmp/compressed_video_4242.mp4") trimmed.

Definition a_video : VideoInfo :=
  {| _filepath := "/home/user/clip.mp4"; _filename := "clip.mp4";
     _filesize := 400 * 1024 * 1024; _last_modified := 1700000000;
     _thumbnail_path := "" |}.

End SimDesktop.

(** * Properties *)

(** ** Rounding to the nearest double *)

Section Rounding.
Local Open Scope Q_scope.

Lemma pow2_pos (e : Z) : 0 < pow2 e.
Proof. apply Qpower_0_lt. reflexivity. Qed.

Lemma pow2_le (a b : Z) : (a <= b)%Z -> pow2 a <= pow2 b.
Proof. intros H. apply Qpower_le_compat_l; [exact H|]. unfold Qle; simpl; lia. Qed.

Lemma pow2_lt_inv (a b : Z) : pow2 a < pow2 b -> (a < b)%Z.
Proof. intros H. apply (Qpower_lt_compat_l_inv 2); [exact H|reflexivity]. Qed.

Lemma pow2_add (a b : Z) : pow2 (a + b) == pow2 a * pow2 b.
Proof. apply Qpower_plus. intros H. discriminate H. Qed.

Lemma pow2_Z (e : Z) : (0 <= e)%Z -> pow2 e == inject_Z (2 ^ e).
Proof. intros H. unfold pow2. rewrite (Zpower_Qpower 2 e H). reflexivity. Qed.

Lemma Qdiv_Z_lt (a b c e : Z) :
  (0 < b)%Z -> (0 < e)%Z -> (a * e < c * b)%Z ->
  inject_Z a / inject_Z b < inject_Z c / inject_Z e.
Proof.
  intros Hb He H.
  destruct b as [|pb|pb]; try lia. destruct e as [|pe|pe]; try lia.
  unfold Qlt, Qdiv, Qmult, Qinv, inject_Z. simpl.
  rewrite !Z.mul_1_r. exact H.
Qed.

(** [ilog2 x] is the exponent of the power of two at or below [x]. *)
Lemma ilog2_spec (x : Q) : 0 < x -> pow2 (ilog2 x) <= x /\ x < pow2 (ilog2 x + 1).
Proof.
  intros Hx.
  assert (Habs : Qabs x == x) by (apply Qabs_pos, Qlt_le_weak, Hx).
  destruct x as [n d]. unfold ilog2. cbn [Qnum Qden].
  assert (Hn : (0 < n)%Z) by (unfold Qlt in Hx; simpl in Hx; lia).
  rewrite (Z.abs_eq n) by lia.
  set (ln := Z.log2 n). set (ld := Z.log2 (Zpos d)).
  assert (Hln : (0 <= ln)%Z) by apply Z.log2_nonneg.
  assert (Hld : (0 <= ld)%Z) by apply Z.log2_nonneg.
  destruct (Z.log2_spec n Hn) as [Hn1 Hn2]. fold ln in Hn1, Hn2.
  destruct (Z.log2_spec (Zpos d) (Pos2Z.is_pos d)) as [Hd1 Hd2]. fold ld in Hd1, Hd2.
  assert (P1 : (0 < 2 ^ ln)%Z) by (apply Z.pow_pos_nonneg; lia).
  assert (P2 : (0 < 2 ^ ld)%Z) by (apply Z.pow_pos_nonneg; lia).
  assert (Hq : n # d == inject_Z n / inject_Z (Zpos d)) by apply Qmake_Qdiv.
  assert (Hlow : pow2 (ln - ld - 1) < n # d).
  { replace (ln - ld - 1)%Z with (ln - Z.succ ld)%Z by lia.
    unfold pow2. rewrite Qpower_minus by (intros H; discriminate H).
    fold (pow2 ln). fold (pow2 (Z.succ ld)).
    rewrite (pow2_Z ln), (pow2_Z (Z.succ ld)), Hq by lia.
    apply Qdiv_Z_lt; try lia.
    rewrite Z.pow_succ_r in * by lia. nia. }
  assert (Hhigh : n # d < pow2 (ln - ld + 1)).
  { replace (ln - ld + 1)%Z with (Z.succ ln - ld)%Z by lia.
    unfold pow2. rewrite Qpower_minus by (intros H; discriminate H).
    fold (pow2 ld). fold (pow2 (Z.succ ln)).
    rewrite (pow2_Z ld), (pow2_Z (Z.succ ln)), Hq by lia.
    apply Qdiv_Z_lt; try lia.
    rewrite Z.pow_succ_r in * by lia. nia. }
  destruct (Qle_bool (pow2 (ln - ld)) (Qabs (n # d))) eqn:E.
  - apply Qle_bool_iff in E. rewrite Habs in E. split; assumption.
  - assert (Hlt : n # d < pow2 (ln - ld)).
    { apply Qnot_le_lt. intros H. rewrite <- Habs in H. apply Qle_bool_iff in H.
      congruence. }
    split.
    + apply Qlt_le_weak. exact Hlow.
    + replace (ln - ld - 1 + 1)%Z with (ln - ld)%Z by lia. exact Hlt.
Qed.

Lemma ilog2_mono (x y : Q) : 0 < x -> x <= y -> (ilog2 x <= ilog2 y)%Z.
Proof.
  intros Hx Hxy.
  assert (Hy : 0 < y) by (eapply Qlt_le_trans; eassumption).
  destruct (ilog2_spec x Hx) as [Hx1 _]. destruct (ilog2_spec y Hy) as [_ Hy2].
  destruct (Z_le_gt_dec (ilog2 x) (ilog2 y)) as [H|H]; [exact H|exfalso].
  assert (Hp : pow2 (ilog2 y + 1) <= pow2 (ilog2 x)) by (apply pow2_le; lia).
  lra.
Qed.

Lemma ilog2_lt (x : Q) (k : Z) : 0 < x -> x < pow2 k -> (ilog2 x < k)%Z.
Proof.
  intros Hx Hk. destruct (ilog2_spec x Hx) as [H1 _].
  apply pow2_lt_inv. lra.
Qed.

Lemma rne_bounds (x : Q) : (Qfloor x <= rne x <= Qfloor x + 1)%Z.
Proof.
  unfold rne. destruct (x - inject_Z (Qfloor x) ?= 1 # 2); [destruct (Z.even _)| |]; lia.
Qed.

Lemma rne_mono (x y : Q) : x <= y -> (rne x <= rne y)%Z.
Proof.
  intros Hxy.
  pose proof (Qfloor_resp_le x y Hxy) as Hf.
  pose proof (rne_bounds x) as Bx. pose proof (rne_bounds y) as By.
  destruct (Z.eq_dec (Qfloor x) (Qfloor y)) as [E|E]; [|lia].
  unfold rne in *. rewrite <- E in *.
  destruct (Qcompare_spec (x - inject_Z (Qfloor x)) (1 # 2)) as [Hx|Hx|Hx];
    destruct (Qcompare_spec (y - inject_Z (Qfloor x)) (1 # 2)) as [Hy|Hy|Hy];
    try destruct (Z.even (Qfloor x)); try lia; exfalso; lra.
Qed.

Lemma rne_Z (k : Z) : rne (inject_Z k) = k.
Proof.
  unfold rne. rewrite Qfloor_Z.
  destruct (Qcompare_spec (inject_Z k - inject_Z k) (1 # 2)) as [H|H|H];
    try reflexivity; exfalso; lra.
Qed.

Lemma rne_comp (x y : Q) : x == y -> rne x = rne y.
Proof.
  intros H. apply Z.le_antisymm; apply rne_mono; rewrite H; apply Qle_refl.
Qed.

Lemma inject_Z_le (a b : Z) : (a <= b)%Z -> inject_Z a <= inject_Z b.
Proof. intros H. rewrite <- Zle_Qle. exact H. Qed.

Lemma Qdiv_le_mono (x y u : Q) : 0 < u -> x <= y -> x / u <= y / u.
Proof.
  intros Hu H. unfold Qdiv. apply Qmult_le_compat_r; [exact H|].
  apply Qlt_le_weak, Qinv_lt_0_compat, Hu.
Qed.

Lemma round_pos_nonneg (x : Q) : 0 <= x -> 0 <= round_pos x.
Proof.
  intros Hx. unfold round_pos, ulp.
  apply Qmult_le_0_compat; [|apply Qlt_le_weak, pow2_pos].
  change 0 with (inject_Z 0). apply inject_Z_le.
  rewrite <- (rne_Z 0). apply rne_mono.
  apply Qle_shift_div_l; [apply pow2_pos|].
  change (inject_Z 0) with 0. rewrite Qmult_0_l. exact Hx.
Qed.

(** Rounding keeps the order: within one binade the significands are
    rounded in order, and across binades the power of two between the two
    numbers separates the results. *)
Lemma round_pos_mono (x y : Q) : 0 < x -> x <= y -> round_pos x <= round_pos y.
Proof.
  intros Hx Hxy.
  assert (Hy : 0 < y) by (eapply Qlt_le_trans; eassumption).
  pose proof (ilog2_mono x y Hx Hxy) as Hlog.
  unfold round_pos, ulp.
  set (ex := Z.max (ilog2 x - 52) (-1074)). set (ey := Z.max (ilog2 y - 52) (-1074)).
  assert (Hex : (ex <= ey)%Z) by (unfold ex, ey; lia).
  destruct (Z.eq_dec ex ey) as [E|E].
  - rewrite <- E. apply Qmult_le_compat_r; [|apply Qlt_le_weak, pow2_pos].
    apply inject_Z_le, rne_mono, Qdiv_le_mono; [apply pow2_pos|exact Hxy].
  - assert (Hey : ey = (ilog2 y - 52)%Z) by (unfold ex, ey in *; lia).
    destruct (ilog2_spec x Hx) as [_ Hx2]. destruct (ilog2_spec y Hy) as [Hy1 _].
    apply Qle_trans with (pow2 (ex + 53)).
    + rewrite pow2_add, (Qmult_comm (pow2 ex)).
      apply Qmult_le_compat_r; [|apply Qlt_le_weak, pow2_pos].
      rewrite (pow2_Z 53) by lia. apply inject_Z_le.
      rewrite <- (rne_Z (2 ^ 53)). apply rne_mono.
      rewrite <- (pow2_Z 53) by lia.
      apply Qle_shift_div_r; [apply pow2_pos|].
      rewrite <- pow2_add. apply Qlt_le_weak.
      eapply Qlt_le_trans; [exact Hx2|]. apply pow2_le. unfold ex. lia.
    + apply Qle_trans with (pow2 (ey + 52)); [apply pow2_le; lia|].
      rewrite pow2_add, (Qmult_comm (pow2 ey)).
      apply Qmult_le_compat_r; [|apply Qlt_le_weak, pow2_pos].
      rewrite (pow2_Z 52) by lia. apply inject_Z_le.
      rewrite <- (rne_Z (2 ^ 52)) at 1. apply rne_mono.
      rewrite <- (pow2_Z 52) by lia.
      apply Qle_shift_div_l; [apply pow2_pos|].
      rewrite <- pow2_add. eapply Qle_trans; [|exact Hy1].
      apply pow2_le. lia.
Qed.

Lemma nearest_double_nonneg (x : Q) : 0 <= x -> 0 <= nearest_double x.
Proof.
  intros Hx. unfold nearest_double.
  destruct (Qcompare_spec x 0) as [H|H|H].
  - apply Qle_refl.
  - exfalso. lra.
  - rewrite Qred_correct. apply round_pos_nonneg, Hx.
Qed.

Lemma nearest_double_nonpos (x : Q) : x <= 0 -> nearest_double x <= 0.
Proof.
  intros Hx. unfold nearest_double.
  destruct (Qcompare_spec x 0) as [H|H|H].
  - apply Qle_refl.
  - rewrite Qred_correct.
    assert (0 <= round_pos (- x)) by (apply round_pos_nonneg; lra). lra.
  - exfalso. lra.
Qed.

Lemma nearest_double_mono (x y : Q) : x <= y -> nearest_double x <= nearest_double y.
Proof.
  intros Hxy.
  destruct (Qlt_le_dec x 0) as [Hx|Hx]; destruct (Qlt_le_dec 0 y) as [Hy|Hy].
  - apply Qle_trans with 0; [apply nearest_double_nonpos|apply nearest_double_nonneg]; lra.
  - destruct (Qlt_le_dec y 0) as [Hy'|Hy'].
    + unfold nearest_double.
      destruct (Qcompare_spec x 0) as [H|H|H]; try (exfalso; lra).
      destruct (Qcompare_spec y 0) as [H'|H'|H']; try (exfalso; lra).
      rewrite !Qred_correct.
      assert (round_pos (- y) <= round_pos (- x)) by (apply round_pos_mono; lra).
      lra.
    + apply Qle_trans with 0; [apply nearest_double_nonpos|apply nearest_double_nonneg]; lra.
  - destruct (Qlt_le_dec 0 x) as [Hx'|Hx'].
    + unfold nearest_double.
      destruct (Qcompare_spec x 0) as [H|H|H]; try (exfalso; lra).
      destruct (Qcompare_spec y 0) as [H'|H'|H']; try (exfalso; lra).
      rewrite !Qred_correct. apply round_pos_mono; assumption.
    + apply Qle_trans with 0; [apply nearest_double_nonpos|apply nearest_double_nonneg]; lra.
  - apply Qle_trans with 0; [apply nearest_double_nonpos|apply nearest_double_nonneg]; lra.
Qed.

Lemma nearest_double_comp (x y : Q) : x == y -> nearest_double x == nearest_double y.
Proof.
  intros H. apply Qle_antisym; apply nearest_double_mono; rewrite H; apply Qle_refl.
Qed.

(** A number with a 53-bit significand at an exponent in range is a
    double: rounding leaves it as it is. *)
Lemma round_pos_exact (m e : Z) :
  (0 < m < 2 ^ 53)%Z -> (-1074 <= e)%Z ->
  round_pos (inject_Z m * pow2 e) == inject_Z m * pow2 e.
Proof.
  intros Hm He.
  set (x := inject_Z m * pow2 e).
  assert (Hx : 0 < x).
  { unfold x. apply Qmult_lt_0_compat; [|apply pow2_pos].
    change 0 with (inject_Z 0). rewrite <- Zlt_Qlt. lia. }
  assert (Hlog : (ilog2 x < e + 53)%Z).
  { apply ilog2_lt; [exact Hx|]. unfold x.
    rewrite pow2_add, (Qmult_comm (pow2 e)).
    apply Qmult_lt_compat_r; [apply pow2_pos|].
    rewrite (pow2_Z 53) by lia. rewrite <- Zlt_Qlt. lia. }
  unfold round_pos, ulp.
  set (g := Z.max (ilog2 x - 52) (-1074)).
  assert (Hg : (g <= e)%Z) by (unfold g; lia).
  assert (Hdiv : x / pow2 g == inject_Z (m * 2 ^ (e - g))).
  { unfold x. rewrite inject_Z_mult, <- (pow2_Z (e - g)) by lia.
    replace (e - g)%Z with (e + - g)%Z by lia.
    rewrite pow2_add. unfold pow2 at 4. rewrite Qpower_opp. fold (pow2 g).
    field. intros H. pose proof (pow2_pos g). lra. }
  rewrite (rne_comp _ _ Hdiv), rne_Z.
  rewrite inject_Z_mult, <- (pow2_Z (e - g)) by lia.
  unfold x. rewrite <- Qmult_assoc, <- pow2_add.
  replace (e - g + g)%Z with e by lia. reflexivity.
Qed.

Lemma nearest_double_exact (m e : Z) :
  (0 <= m < 2 ^ 53)%Z -> (-1074 <= e)%Z ->
  nearest_double (inject_Z m * pow2 e) == inject_Z m * pow2 e.
Proof.
  intros Hm He. unfold nearest_double.
  destruct (Qcompare_spec (inject_Z m * pow2 e) 0) as [H|H|H].
  - symmetry. exact H.
  - exfalso. assert (0 <= inject_Z m * pow2 e); [|lra].
    apply Qmult_le_0_compat; [|apply Qlt_le_weak, pow2_pos].
    change 0 with (inject_Z 0). apply inject_Z_le. lia.
  - rewrite Qred_correct. apply round_pos_exact; [|exact He].
    split; [|lia]. destruct (Z.eq_dec m 0%Z) as [->|Hne]; [|lia].
    exfalso. rewrite Qmult_0_l in H. lra.
Qed.

Lemma is_finite_iff (x : Q) : is_finite x = true <-> Qabs x < pow2 1024.
Proof.
  unfold is_finite. destruct (Qle_bool (pow2 1024) (Qabs x)) eqn:E; cbn [negb].
  - apply Qle_bool_iff in E. split; [discriminate|].
    intros H. exfalso. exact (Qlt_not_le _ _ H E).
  - split; [intros _|reflexivity].
    apply Qnot_le_lt. intros H. apply Qle_bool_iff in H. congruence.
Qed.

Lemma is_finite_below (x y : Q) : 0 <= x -> x <= y -> is_finite y = true -> is_finite x = true.
Proof.
  intros Hx Hxy Hy. apply is_finite_iff in Hy. apply is_finite_iff.
  revert Hy. generalize (pow2 1024). intros bound Hy.
  rewrite Qabs_pos in * by lra. lra.
Qed.

End Rounding.

(** ** Arithmetic of the bitrate *)

Section Arithmetic.
Local Open Scope Q_scope.

Lemma div_cross_le (a b c d : Z) :
  (0 < b)%Z -> (0 < d)%Z -> (a * d <= c * b)%Z -> (a / b <= c / d)%Z.
Proof.
  intros Hb Hd H.
  apply Z.div_le_lower_bound; [assumption|].
  pose proof (Z.mul_div_le a b Hb) as Hq.
  assert (Hle : (b * (d * (a / b)) <= b * c)%Z) by nia.
  apply Z.mul_le_mono_pos_l in Hle; assumption.
Qed.

(** [int] is monotone. *)
Lemma int_of_float_mono (x y : Q) : x <= y -> (int_of_float x <= int_of_float y)%Z.
Proof.
  destruct x as [nx dx], y as [ny dy]. unfold Qle, int_of_float. simpl.
  intros H.
  destruct (Z_lt_le_dec nx 0) as [Hx|Hx], (Z_lt_le_dec ny 0) as [Hy|Hy].
  - assert (Ex : nx = (- Z.abs nx)%Z) by lia. assert (Ey : ny = (- Z.abs ny)%Z) by lia.
    rewrite Ex, Ey in *. generalize dependent (Z.abs ny). generalize dependent (Z.abs nx).
    intros a Ha _ b Hb H _.
    rewrite (Z.quot_opp_l a), (Z.quot_opp_l b) by lia.
    rewrite (Z.quot_div_nonneg a), (Z.quot_div_nonneg b) by lia.
    apply Z.opp_le_mono. rewrite !Z.opp_involutive.
    apply div_cross_le; lia.
  - assert (Ex : nx = (- Z.abs nx)%Z) by lia.
    rewrite Ex, (Z.quot_opp_l (Z.abs nx)) by lia.
    pose proof (Z.quot_pos (Z.abs nx) (Zpos dx)).
    pose proof (Z.quot_pos ny (Zpos dy)). lia.
  - exfalso. nia.
  - rewrite !Z.quot_div_nonneg by lia. apply div_cross_le; lia.
Qed.

Lemma Qinv_le_antitone (x y : Q) : 0 < x -> x <= y -> / y <= / x.
Proof.
  destruct x as [[|nx|nx] dx], y as [[|ny|ny] dy]; unfold Qlt, Qle, Qinv; simpl;
    intros Hx Hxy; try lia.
Qed.

Lemma lit_0_95_finite : lit_0_95 = Finite (nearest_double (95 # 100)).
Proof.
  assert (H : is_finite (nearest_double (95 # 100)) = true) by (vm_compute; reflexivity).
  unfold lit_0_95, rounded. rewrite H. reflexivity.
Qed.

Lemma lit_0_95_nonneg : 0 <= nearest_double (95 # 100).
Proof. apply nearest_double_nonneg. unfold Qle; simpl; lia. Qed.

(** What [target_bitrate] computes when it returns: the four roundings of
    the source expression, none of which may overflow, and a divisor other
    than zero. *)
Lemma target_bitrate_returns (size_mb : Z) (d : Q) (b : Z) :
  target_bitrate size_mb d = Return b <->
  let n := nearest_double (inject_Z (size_mb * 1024 * 1024)) in
  let t := nearest_double (n * nearest_double (95 # 100)) in
  let x := nearest_double (t * inject_Z 8) in
  let q := nearest_double (x / d) in
  is_finite n = true /\ is_finite t = true /\ is_finite x = true
  /\ ~ d == 0 /\ is_finite q = true /\ b = int_of_float q.
Proof.
  unfold target_bitrate, target_size_bytes, float_of_long. rewrite lit_0_95_finite.
  cbv zeta.
  set (n := nearest_double (inject_Z (size_mb * 1024 * 1024))).
  set (t := nearest_double (n * nearest_double (95 # 100))).
  set (x := nearest_double (t * inject_Z 8)).
  set (q := nearest_double (x / d)).
  assert (H8 : Qeq_bool (float_of_int 8) 0 = false) by reflexivity.
  destruct (is_finite n) eqn:Hn;
    [|split; [intros H; discriminate H | intros (H & _); discriminate H]].
  unfold fmul at 2, rounded. fold t.
  destruct (is_finite t) eqn:Ht.
  - unfold fmul, rounded, float_of_int. fold x.
    destruct (is_finite x) eqn:Hx.
    + unfold fdiv, is_zero.
      destruct (Qeq_bool d 0) eqn:Hd.
      * apply Qeq_bool_iff in Hd.
        split; [intros H; discriminate H | intros (_ & _ & _ & H & _); contradiction].
      * unfold rounded. fold q.
        destruct (is_finite q) eqn:Hq; simpl.
        -- split.
           ++ intros H. injection H as <-. repeat split.
              intros H. apply Qeq_bool_iff in H. congruence.
           ++ intros (_ & _ & _ & _ & _ & ->). reflexivity.
        -- split; [intros H; discriminate H
                  | intros (_ & _ & _ & _ & H & _); discriminate H].
    + unfold fdiv, is_zero. destruct (Qeq_bool d 0); simpl;
        (split; [intros H; discriminate H | intros (_ & _ & H & _); discriminate H]).
  - unfold fmul, is_zero. rewrite H8. simpl.
    unfold fdiv, is_zero. destruct (Qeq_bool d 0); simpl;
      (split; [intros H; discriminate H | intros (_ & H & _); discriminate H]).
Qed.

(** C7 as the specification states it fails for a negative ceiling, which
    [compressToSize] accepts: with [size_mb = -1] the bitrate is
    [-7969177] for one second and [-3984588] for two, so it grows with the
    duration. *)
Lemma bitrate_grows_with_duration_below_zero :
  target_bitrate (-1) (1 # 1) = Return (-7969177)%Z
  /\ target_bitrate (-1) (2 # 1) = Return (-3984588)%Z
  /\ ~ (forall (size_mb : Z) (d1 d2 : Q) (b1 b2 : Z),
          0 < d1 -> d1 <= d2 ->
          target_bitrate size_mb d1 = Return b1 ->
          target_bitrate size_mb d2 = Return b2 ->
          (b2 <= b1)%Z).
Proof.
  assert (H1 : target_bitrate (-1) (1 # 1) = Return (-7969177)%Z) by (vm_compute; reflexivity).
  assert (H2 : target_bitrate (-1) (2 # 1) = Return (-3984588)%Z) by (vm_compute; reflexivity).
  split; [exact H1|]. split; [exact H2|].
  intros H.
  assert (Hle : (-3984588 <= -7969177)%Z).
  { apply (H (-1)%Z (1 # 1) (2 # 1)); [reflexivity | unfold Qle; simpl; lia | exact H1 | exact H2]. }
  lia.
Qed.

(** C7, amended. For a ceiling that is not negative the target bitrate
    does not increase when the (positive) duration grows, and it is
    computed for the longer duration whenever it is for the shorter one.
    For a fixed positive duration it does not decrease when the ceiling
    grows, whatever the sign of the ceiling, and between two ceilings that
    are not negative it is computed for the smaller one whenever it is for
    the larger one. *)
Theorem target_bitrate_monotone :
  (forall (size_mb : Z) (d1 d2 : Q) (b1 : Z),
      (0 <= size_mb)%Z -> 0 < d1 -> d1 <= d2 ->
      target_bitrate size_mb d1 = Return b1 ->
      exists b2 : Z, target_bitrate size_mb d2 = Return b2 /\ (b2 <= b1)%Z)
  /\ (forall (size_mb1 size_mb2 : Z) (d : Q) (b1 b2 : Z),
        0 < d -> (size_mb1 <= size_mb2)%Z ->
        target_bitrate size_mb1 d = Return b1 ->
        target_bitrate size_mb2 d = Return b2 ->
        (b1 <= b2)%Z)
  /\ (forall (size_mb1 size_mb2 : Z) (d : Q) (b2 : Z),
        0 < d -> (0 <= size_mb1 <= size_mb2)%Z ->
        target_bitrate size_mb2 d = Return b2 ->
        exists b1 : Z, target_bitrate size_mb1 d = Return b1 /\ (b1 <= b2)%Z).
Proof.
  pose proof lit_0_95_nonneg as Hc.
  assert (Hsize : forall s1 s2 : Z, (s1 <= s2)%Z ->
            inject_Z (s1 * 1024 * 1024) <= inject_Z (s2 * 1024 * 1024)).
  { intros s1 s2 H. apply inject_Z_le. lia. }
  assert (Hchain : forall (s1 s2 : Z) (d : Q), 0 < d -> (s1 <= s2)%Z ->
            let n1 := nearest_double (inject_Z (s1 * 1024 * 1024)) in
            let n2 := nearest_double (inject_Z (s2 * 1024 * 1024)) in
            let t1 := nearest_double (n1 * nearest_double (95 # 100)) in
            let t2 := nearest_double (n2 * nearest_double (95 # 100)) in
            let x1 := nearest_double (t1 * inject_Z 8) in
            let x2 := nearest_double (t2 * inject_Z 8) in
            n1 <= n2 /\ t1 <= t2 /\ x1 <= x2
            /\ nearest_double (x1 / d) <= nearest_double (x2 / d)).
  { intros s1 s2 d Hd Hs. cbv zeta.
    assert (Hn : nearest_double (inject_Z (s1 * 1024 * 1024))
                 <= nearest_double (inject_Z (s2 * 1024 * 1024)))
      by (apply nearest_double_mono, Hsize, Hs).
    assert (Ht : nearest_double (nearest_double (inject_Z (s1 * 1024 * 1024))
                                 * nearest_double (95 # 100))
                 <= nearest_double (nearest_double (inject_Z (s2 * 1024 * 1024))
                                    * nearest_double (95 # 100)))
      by (apply nearest_double_mono, Qmult_le_compat_r; assumption).
    split; [exact Hn|]. split; [exact Ht|].
    assert (Hx : nearest_double
                   (nearest_double (nearest_double (inject_Z (s1 * 1024 * 1024))
                                    * nearest_double (95 # 100)) * inject_Z 8)
                 <= nearest_double
                      (nearest_double (nearest_double (inject_Z (s2 * 1024 * 1024))
                                       * nearest_double (95 # 100)) * inject_Z 8)).
    { apply nearest_double_mono, Qmult_le_compat_r; [exact Ht|].
      unfold Qle; simpl; lia. }
    split; [exact Hx|].
    apply nearest_double_mono, Qdiv_le_mono; assumption. }
  assert (Hzero : nearest_double (inject_Z (0 * 1024 * 1024)) == 0) by reflexivity.
  assert (Hnonneg : forall s : Z, (0 <= s)%Z ->
            let n := nearest_double (inject_Z (s * 1024 * 1024)) in
            let t := nearest_double (n * nearest_double (95 # 100)) in
            let x := nearest_double (t * inject_Z 8) in
            0 <= n /\ 0 <= t /\ 0 <= x).
  { intros s Hs. cbv zeta.
    assert (Hn : 0 <= nearest_double (inject_Z (s * 1024 * 1024))).
    { apply nearest_double_nonneg. change 0 with (inject_Z 0). apply inject_Z_le. lia. }
    assert (Ht : 0 <= nearest_double (nearest_double (inject_Z (s * 1024 * 1024))
                                      * nearest_double (95 # 100)))
      by (apply nearest_double_nonneg, Qmult_le_0_compat; assumption).
    split; [exact Hn|]. split; [exact Ht|].
    apply nearest_double_nonneg, Qmult_le_0_compat; [exact Ht|].
    unfold Qle; simpl; lia. }
  split; [|split].
  - intros size_mb d1 d2 b1 Hs Hd1 Hd H1.
    assert (Hd2 : 0 < d2) by (eapply Qlt_le_trans; eassumption).
    apply target_bitrate_returns in H1. cbv zeta in H1.
    destruct H1 as (Fn & Ft & Fx & _ & Fq & ->).
    destruct (Hnonneg size_mb Hs) as (_ & _ & Hx). cbv zeta in Hx.
    set (x := nearest_double
                (nearest_double (nearest_double (inject_Z (size_mb * 1024 * 1024))
                                 * nearest_double (95 # 100)) * inject_Z 8)) in *.
    assert (Hq : nearest_double (x / d2) <= nearest_double (x / d1)).
    { apply nearest_double_mono. unfold Qdiv.
      rewrite (Qmult_comm x (/ d2)), (Qmult_comm x (/ d1)).
      apply Qmult_le_compat_r; [apply Qinv_le_antitone; assumption|exact Hx]. }
    assert (Hq0 : 0 <= nearest_double (x / d2)).
    { apply nearest_double_nonneg. unfold Qdiv. apply Qmult_le_0_compat; [exact Hx|].
      apply Qlt_le_weak, Qinv_lt_0_compat, Hd2. }
    exists (int_of_float (nearest_double (x / d2))). split.
    + apply target_bitrate_returns. cbv zeta. fold x.
      split; [exact Fn|]. split; [exact Ft|]. split; [exact Fx|]. split.
      * intros H. rewrite H in Hd2. discriminate Hd2.
      * split; [|reflexivity]. exact (is_finite_below _ _ Hq0 Hq Fq).
    + apply int_of_float_mono, Hq.
  - intros s1 s2 d b1 b2 Hd Hs H1 H2.
    apply target_bitrate_returns in H1. apply target_bitrate_returns in H2.
    cbv zeta in H1, H2.
    destruct H1 as (_ & _ & _ & _ & _ & ->). destruct H2 as (_ & _ & _ & _ & _ & ->).
    apply int_of_float_mono. apply (Hchain s1 s2 d Hd Hs).
  - intros s1 s2 d b2 Hd [Hs1 Hs] H2.
    apply target_bitrate_returns in H2. cbv zeta in H2.
    destruct H2 as (Fn & Ft & Fx & Hne & Fq & ->).
    destruct (Hchain s1 s2 d Hd Hs) as (Hn & Ht & Hx & Hq). 
    destruct (Hnonneg s1 Hs1) as (Hn0 & Ht0 & Hx0). cbv zeta in Hn0, Ht0, Hx0.
    exists (int_of_float
              (nearest_double
                 (nearest_double
                    (nearest_double (nearest_double (inject_Z (s1 * 1024 * 1024))
                                     * nearest_double (95 # 100)) * inject_Z 8) / d))).
    split.
    + apply target_bitrate_returns. cbv zeta.
      split; [exact (is_finite_below _ _ Hn0 Hn Fn)|].
      split; [exact (is_finite_below _ _ Ht0 Ht Ft)|].
      split; [exact (is_finite_below _ _ Hx0 Hx Fx)|].
      split; [exact Hne|]. split; [|reflexivity].
      refine (is_finite_below _ _ _ Hq Fq).
      apply nearest_double_nonneg. unfold Qdiv. apply Qmult_le_0_compat; [exact Hx0|].
      apply Qlt_le_weak, Qinv_lt_0_compat, Hd.
    + apply int_of_float_mono, Hq.
Qed.

Lemma target_bitrate_monotone_witness :
  (exists b2 : Z, target_bitrate 50 (60 # 1) = Return b2 /\ (b2 <= 13281962)%Z)
  /\ (6640981 <= 13281962)%Z
  /\ (exists b1 : Z, target_bitrate 25 (30 # 1) = Return b1 /\ (b1 <= 13281962)%Z).
Proof.
  split; [|split].
  - apply (proj1 target_bitrate_monotone 50%Z (30 # 1) (60 # 1) 13281962%Z).
    + lia.
    + reflexivity.
    + unfold Qle; simpl; lia.
    + vm_compute; reflexivity.
  - apply (proj1 (proj2 target_bitrate_monotone) 25%Z 50%Z (30 # 1)).
    + reflexivity.
    + lia.
    + vm_compute; reflexivity.
    + vm_compute; reflexivity.
  - apply (proj2 (proj2 target_bitrate_monotone) 25%Z 50%Z (30 # 1) 13281962%Z).
    + reflexivity.
    + lia.
    + vm_compute; reflexivity.
Defined.

(** C8 as the specification states it fails: for a 50 MB ceiling and 30 s
    the value is not 13264877. *)
Lemma bitrate_50MB_30s_is_not_13264877 :
  ~ (target_bitrate 50 (30 # 1) = Return (plan_bitrate (50 * 1024 * 1024) (30 # 1))
     /\ plan_bitrate (50 * 1024 * 1024) (30 # 1) = 13264877%Z).
Proof.
  intros [_ H]. vm_compute in H. discriminate H.
Qed.

(** C8, amended. For a 50 MB ceiling and 30 s the target bitrate is
    [floor (50*1024*1024*0.95*8/30) = 13281962] bits per second; the
    evaluation of the source expression with the Standard Library's
    binary64 gives the same. *)
Theorem bitrate_50MB_30s :
  target_bitrate 50 (30 # 1) = Return (plan_bitrate (50 * 1024 * 1024) (30 # 1))
  /\ plan_bitrate (50 * 1024 * 1024) (30 # 1) = 13281962%Z
  /\ Binary64.target_bitrate 50 (Binary64.of_int 30) = Some 13281962%Z.
Proof.
  repeat split; vm_compute; reflexivity.
Qed.

(** [PyNum] and [SpecFloat] agree on the literal, on durations that are
    not doubles as decimals, and on the bitrates computed from them. *)
Example binary64_agrees :
  Binary64.to_float Binary64.lit_0_95 = lit_0_95
  /\ Binary64.to_float (Binary64.div (Binary64.of_int 608) (Binary64.of_int 10))
     = Finite (nearest_double (608 # 10))
  /\ Binary64.to_float (Binary64.mul (Binary64.div (Binary64.of_int 1001) (Binary64.of_int 1000))
                       (Binary64.of_int 1000))
     = fmul (Finite (nearest_double (1001 # 1000))) (Finite (float_of_int 1000))
  /\ Binary64.target_bitrate 3 (Binary64.div (Binary64.of_int 608) (Binary64.of_int 10))
     = Some 393215%Z
  /\ target_bitrate 3 (nearest_double (608 # 10)) = Return 393215%Z
  /\ Binary64.target_bitrate (-1) (Binary64.of_int 2) = Some (-3984588)%Z
  /\ Binary64.to_float (Binary64.mul (Binary64.of_int (2 ^ 1000)) (Binary64.of_int (2 ^ 24)))
     = fmul (Finite (inject_Z (2 ^ 1000))) (Finite (inject_Z (2 ^ 24))).
Proof.
  repeat split; vm_compute; reflexivity.
Qed.

End Arithmetic.

(** ** The methods *)

Lemma truthy_true (s : string) : truthy s = true <-> s <> "".
Proof. destruct s; simpl; split; intros H; congruence. Qed.

Lemma truthy_false (s : string) : truthy s = false <-> s = "".
Proof. destruct s; simpl; split; intros H; congruence. Qed.

Lemma truediv_exact (a b : Z) : (truediv a b == inject_Z a / inject_Z b)%Q.
Proof. unfold truediv. apply Qred_correct. Qed.

Ltac py_unfold :=
  cbv [bind ret raise try_except get_self update emit singleShot of_result run
       exists_ getsize copy2 which float_].

Section Pipeline.
Context {World : Type} {os : OS World}.

(** *** [createTrim], case by case *)

Lemma createTrim_unloaded (self : VideoTrimmer) (w : World) :
  truthy (_video_path self) = false ->
  createTrim self w
  = Out (Return false) self w [Emit (errorOccurred [Str "No video loaded"])].
Proof.
  intros H. unfold createTrim. py_unfold. rewrite H. reflexivity.
Qed.

Lemma createTrim_loaded (self : VideoTrimmer) (w : World) :
  truthy (_video_path self) = true ->
  createTrim self w =
    let self1 := with_temp_output (Some trimmed_video_path) self in
    match subprocess_run (createTrim_cmd self) w with
    | (Return result, w1) =>
        if returncode result =? 0 then
          Out (Return true) (with_trim_completed true self1) w1
            [Run (createTrim_cmd self);
             SingleShot 100 cb_check_and_compress;
             Emit (trimCompleteChanged [Str "Trim created and ready to save or copy"])]
        else
          Out (Return false) self1 w1
            [Run (createTrim_cmd self);
             Emit (errorOccurred [Str "Error trimming video: "; Str (stderr result)])]
    | (Raise e, w1) =>
        Out (Return false) self1 w1
          [Run (createTrim_cmd self);
           Emit (errorOccurred [Str "Error during trimming: "; Str (str_e e)])]
    end.
Proof.
  intros H. unfold createTrim. py_unfold. rewrite H. simpl.
  unfold createTrim_cmd.
  destruct (subprocess_run _ w) as [[result|e] w1]; simpl.
  - destruct (returncode result =? 0); reflexivity.
  - reflexivity.
Qed.

(** C5. [createTrim] returns False with the encoder's stderr in the error
    exactly when the encoder was run and exited with a nonzero status; when
    it exits with status zero [createTrim] returns True, the temp path is
    recorded in [_temp_output] and the trim is marked complete. *)
Theorem createTrim_exit_status (self : VideoTrimmer) (w : World) :
  let o := createTrim self w in
  (forall err : string,
      (value o = Return false
       /\ In (Emit (errorOccurred [Str "Error trimming video: "; Str err])) (events o))
      <->
      (_video_path self <> ""
       /\ exists result : CompletedProcess,
           fst (subprocess_run (createTrim_cmd self) w) = Return result
           /\ returncode result <> 0
           /\ stderr result = err))
  /\ (forall result : CompletedProcess,
        _video_path self <> "" ->
        fst (subprocess_run (createTrim_cmd self) w) = Return result ->
        returncode result = 0 ->
        value o = Return true
        /\ _temp_output (self_of o) = Some trimmed_video_path
        /\ _trim_completed (self_of o) = true).
Proof.
  cbv zeta. destruct (truthy (_video_path self)) eqn:Hv.
  - rewrite (createTrim_loaded self w Hv). cbv zeta.
    apply truthy_true in Hv.
    destruct (subprocess_run (createTrim_cmd self) w) as [[result|e] w1]; simpl.
    + destruct (returncode result =? 0) eqn:Hrc; simpl.
      * apply Z.eqb_eq in Hrc. split.
        -- intros err. split.
           ++ intros [Hf _]. discriminate Hf.
           ++ intros (_ & r & Hr & Hne & _). injection Hr as <-. contradiction.
        -- intros r _ Hr _. injection Hr as <-. auto.
      * apply Z.eqb_neq in Hrc. split.
        -- intros err. split.
           ++ intros [_ [Hin | [Hin | []]]]; [discriminate Hin|].
              injection Hin as <-. split; [assumption|]. exists result. auto.
           ++ intros (_ & r & Hr & _ & <-). injection Hr as <-. auto.
        -- intros r _ Hr H0. injection Hr as <-. contradiction.
    + split.
      * intros err. split.
        -- intros [_ [Hin | [Hin | []]]]; discriminate Hin.
        -- intros (_ & r & Hr & _). discriminate Hr.
      * intros r _ Hr. discriminate Hr.
  - rewrite (createTrim_unloaded self w Hv). simpl.
    apply truthy_false in Hv. split.
    + intros err. split.
      * intros [_ [Hin | []]]. discriminate Hin.
      * intros [Hne _]. contradiction.
    + intros r Hne. contradiction.
Qed.



Lemma dict_get_singleton (v dflt : pyval) :
  dict_get ({[ "duration" := v ]} : gmap string pyval) "duration" dflt = v.
Proof. unfold dict_get. rewrite lookup_singleton_eq. reflexivity. Qed.

Lemma dict_get_empty (dflt : pyval) :
  dict_get (∅ : gmap string pyval) "duration" dflt = dflt.
Proof. unfold dict_get. rewrite lookup_empty. reflexivity. Qed.

Lemma get_video_info_run (p : option string) (self : VideoTrimmer) (w : World) :
  _get_video_info p self w =
    let (r, w1) := subprocess_run (ffprobe_cmd p) w in
    Out (Return
           match r with
           | Return result =>
               if returncode result =? 0 then
                 match json_format_duration (stdout result) with
                 | Return found => {[ "duration" := default (PyInt 0) found ]}
                 | Raise _ => ∅
                 end
               else ∅
           | Raise _ => ∅
           end) self w1 [Run (ffprobe_cmd p)].
Proof.
  unfold _get_video_info. py_unfold.
  destruct (subprocess_run (ffprobe_cmd p) w) as [[result|e] w1]; simpl; [|reflexivity].
  destruct (returncode result =? 0); [|reflexivity].
  destruct (json_format_duration (stdout result)); reflexivity.
Qed.

Lemma probe_frame (p : option string) (self self0 : VideoTrimmer) (w : World) :
  probe_duration_seconds p self w
  = Out (value (probe_duration_seconds p self0 w)) self
        (snd (subprocess_run (ffprobe_cmd p) w)) [Run (ffprobe_cmd p)].
Proof.
  unfold probe_duration_seconds, bind. rewrite !get_video_info_run.
  destruct (subprocess_run (ffprobe_cmd p) w) as [r w1]. simpl.
  unfold float_, of_result.
  destruct (py_float _); reflexivity.
Qed.

Lemma fits_iff (n size_mb : Z) :
  fle (file_size_mb n) (float_of_int size_mb) = true <-> n <= size_mb * 1024 * 1024.
Proof.
  unfold fle, file_size_mb, float_of_int. rewrite Qle_bool_iff, truediv_exact.
  unfold Qle, Qdiv, Qmult, Qinv, inject_Z. simpl. lia.
Qed.

Lemma check_and_compress_fits (self : VideoTrimmer) (w : World) (p : string) (n : Z) :
  _temp_output self = Some p ->
  os_path_exists w p = true ->
  os_path_getsize w p = Return n ->
  n <= _max_size_mb self * 1024 * 1024 ->
  _check_and_compress self w
  = Out (Return tt) (with_compressed_output (Some p) self) w
      [Emit (trimCompleteChanged
               [Str "Trim ready (Size: "; Fmt1f (file_size_mb n); Str "MB)"])].
Proof.
  intros Ht He Hs Hn. apply fits_iff in Hn.
  unfold _check_and_compress. py_unfold. rewrite Ht, He. simpl. rewrite Hs, Hn. simpl.
  reflexivity.
Qed.

Lemma not_fits_iff (n size_mb : Z) :
  fle (file_size_mb n) (float_of_int size_mb) = false <-> size_mb * 1024 * 1024 < n.
Proof.
  pose proof (fits_iff n size_mb) as H.
  destruct (fle (file_size_mb n) (float_of_int size_mb)); split; intros H0;
    try reflexivity; try discriminate H0.
  - assert (n <= size_mb * 1024 * 1024) by (apply H; reflexivity). lia.
  - destruct (Z_le_gt_dec n (size_mb * 1024 * 1024)) as [Hle|Hgt]; [|lia].
    apply H in Hle. discriminate Hle.
Qed.

Lemma check_and_compress_oversized (self : VideoTrimmer) (w : World) (p : string) (n : Z) :
  _temp_output self = Some p ->
  os_path_exists w p = true ->
  os_path_getsize w p = Return n ->
  _max_size_mb self * 1024 * 1024 < n ->
  _check_and_compress self w =
    let compressing := with_compressed_output (Some compressed_video_path) self in
    let fallback := with_compressed_output (Some p) self in
    let w1 := snd (subprocess_run (ffprobe_cmd (Some p)) w) in
    let started :=
      [Emit (trimCompleteChanged
               [Str "Compressing video ("; Fmt1f (file_size_mb n); Str "MB → ";
                StrOfInt (_max_size_mb self); Str "MB max)..."]);
       Run (ffprobe_cmd (Some p))] in
    match value (probe_duration_seconds (Some p) self w) with
    | Raise e =>
        Out (Return tt) fallback w1
          (started ++ [Emit (errorOccurred [Str "Error during compression: "; Str (str_e e)])])
    | Return d =>
        if fle d (float_of_int 0) then
          Out (Return tt) compressing w1
            (started ++ [Emit (errorOccurred
                                 [Str "Could not determine video duration for compression"])])
        else
          match target_bitrate (_max_size_mb self) d with
          | Raise e =>
              Out (Return tt) fallback w1
                (started ++ [Emit (errorOccurred
                                     [Str "Error during compression: "; Str (str_e e)])])
          | Return b =>
              let cmd := compress_cmd (Some p) b (Some compressed_video_path) in
              match subprocess_run cmd w1 with
              | (Raise e, w2) =>
                  Out (Return tt) fallback w2
                    (started ++ [Run cmd;
                                 Emit (errorOccurred
                                         [Str "Error during compression: "; Str (str_e e)])])
              | (Return result, w2) =>
                  if returncode result =? 0 then
                    match os_path_getsize w2 compressed_video_path with
                    | Return m =>
                        Out (Return tt) compressing w2
                          (started ++ [Run cmd;
                                       Emit (trimCompleteChanged
                                               [Str "Compressed video (";
                                                Fmt1f (file_size_mb n);
                                                Str "MB → "; Fmt1f (truediv m (1024 * 1024));
                                                Str "MB)"])])
                    | Raise e =>
                        Out (Return tt) fallback w2
                          (started ++ [Run cmd;
                                       Emit (errorOccurred
                                               [Str "Error during compression: ";
                                                Str (str_e e)])])
                    end
                  else
                    Out (Return tt) fallback w2
                      (started ++ [Run cmd;
                                   Emit (errorOccurred
                                           [Str "Error compressing video: ";
                                            Str (stderr result)])])
              end
          end
    end.
Proof.
  intros Ht He Hs Hn. apply not_fits_iff in Hn.
  unfold _check_and_compress. py_unfold. rewrite Ht, He. simpl. rewrite Hs, Hn. simpl.
  rewrite (probe_frame (Some p) _ self w).
  destruct (value (probe_duration_seconds (Some p) self w)) as [d|e]; simpl;
    [|rewrite Ht; reflexivity].
  destruct (fle d (float_of_int 0)); simpl; [reflexivity|].
  destruct (target_bitrate (_max_size_mb self) d) as [b|e]; simpl;
    [|rewrite Ht; reflexivity].
  rewrite Ht. unfold compress_cmd, path_arg.
  destruct (subprocess_run _ (snd _)) as [[result|e] w2]; simpl;
    [|rewrite ?Ht; reflexivity].
  destruct (returncode result =? 0); simpl; [|rewrite ?Ht; reflexivity].
  destruct (os_path_getsize w2 compressed_video_path); simpl; rewrite ?Ht; reflexivity.
Qed.

Lemma compressToSize_fits (size_mb : Z) (self : VideoTrimmer) (w : World) (p : string) (n : Z) :
  _trim_completed self = true ->
  _temp_output self = Some p ->
  os_path_exists w p = true ->
  os_path_getsize w p = Return n ->
  n <= size_mb * 1024 * 1024 ->
  compressToSize size_mb self w
  = Out (Return true) (with_compressed_output (Some p) self) w
      [Emit (trimCompleteChanged
               [Str "Video already fits size requirement ("; Fmt1f (file_size_mb n);
                Str "MB)"])].
Proof.
  intros Hc Ht He Hs Hn. apply fits_iff in Hn.
  unfold compressToSize. py_unfold. rewrite Hc. simpl. rewrite Ht, He. simpl.
  rewrite Hs, Hn. simpl.
  reflexivity.
Qed.

Lemma compressToSize_oversized (size_mb : Z) (self : VideoTrimmer) (w : World)
    (p : string) (n : Z) :
  _trim_completed self = true ->
  _temp_output self = Some p ->
  os_path_exists w p = true ->
  os_path_getsize w p = Return n ->
  size_mb * 1024 * 1024 < n ->
  compressToSize size_mb self w =
    let compressing := with_compressed_output (Some compressed_video_path) self in
    let fallback := with_compressed_output (Some p) self in
    let w1 := snd (subprocess_run (ffprobe_cmd (Some p)) w) in
    let started :=
      [Emit compressionStarted;
       Emit (trimCompleteChanged
               [Str "Compressing video ("; Fmt1f (file_size_mb n); Str "MB → ";
                StrOfInt size_mb; Str "MB)..."]);
       Run (ffprobe_cmd (Some p))] in
    match value (probe_duration_seconds (Some p) self w) with
    | Raise e =>
        Out (Return false) fallback w1
          (started ++ [Emit (errorOccurred [Str "Error during compression: "; Str (str_e e)]);
                       Emit compressionFinished])
    | Return d =>
        if fle d (float_of_int 0) then
          Out (Return false) compressing w1
            (started ++ [Emit (errorOccurred
                                 [Str "Could not determine video duration for compression"])])
        else
          match target_bitrate size_mb d with
          | Raise e =>
              Out (Return false) fallback w1
                (started ++ [Emit (errorOccurred
                                     [Str "Error during compression: "; Str (str_e e)]);
                             Emit compressionFinished])
          | Return b =>
              let cmd := compress_cmd (Some p) b (Some compressed_video_path) in
              match subprocess_run cmd w1 with
              | (Raise e, w2) =>
                  Out (Return false) fallback w2
                    (started ++ [Run cmd;
                                 Emit (errorOccurred
                                         [Str "Error during compression: "; Str (str_e e)]);
                                 Emit compressionFinished])
              | (Return result, w2) =>
                  if returncode result =? 0 then
                    match os_path_getsize w2 compressed_video_path with
                    | Return m =>
                        Out (Return true) compressing w2
                          (started ++ [Run cmd;
                                       Emit (trimCompleteChanged
                                               [Str "Compressed video (";
                                                Fmt1f (file_size_mb n);
                                                Str "MB → "; Fmt1f (truediv m (1024 * 1024));
                                                Str "MB)"]);
                                       Emit compressionFinished])
                    | Raise e =>
                        Out (Return false) fallback w2
                          (started ++ [Run cmd;
                                       Emit (errorOccurred
                                               [Str "Error during compression: ";
                                                Str (str_e e)]);
                                       Emit compressionFinished])
                    end
                  else
                    Out (Return false) fallback w2
                      (started ++ [Run cmd;
                                   Emit (errorOccurred
                                           [Str "Error compressing video: ";
                                            Str (stderr result)]);
                                   Emit compressionFinished])
              end
          end
    end.
Proof.
  intros Hc Ht He Hs Hn. apply not_fits_iff in Hn.
  unfold compressToSize. py_unfold. rewrite Hc. simpl. rewrite Ht, He. simpl.
  rewrite Hs, Hn. simpl.
  rewrite (probe_frame (Some p) _ self w).
  destruct (value (probe_duration_seconds (Some p) self w)) as [d|e]; simpl;
    [|reflexivity].
  destruct (fle d (float_of_int 0)); simpl; [reflexivity|].
  destruct (target_bitrate size_mb d) as [b|e]; simpl; [|reflexivity].
  unfold compress_cmd, path_arg.
  destruct (subprocess_run _ (snd _)) as [[result|e] w2]; simpl; [|reflexivity].
  destruct (returncode result =? 0); simpl; [|reflexivity].
  destruct (os_path_getsize w2 compressed_video_path); reflexivity.
Qed.

Lemma fle_positive (d : Q) : (0 < d)%Q -> fle d (float_of_int 0) = false.
Proof.
  intros Hd. unfold fle, float_of_int.
  destruct (Qle_bool d (inject_Z 0)) eqn:E; [|reflexivity].
  apply Qle_bool_iff in E. exfalso. apply (Qlt_not_le _ _ Hd E).
Qed.

Lemma fle_nonpositive (d : Q) : (d <= 0)%Q -> fle d (float_of_int 0) = true.
Proof. intros Hd. apply Qle_bool_iff, Hd. Qed.

(** A prober that yields nothing makes the source read the duration as 0. *)
Lemma probe_unavailable (p : option string) (self : VideoTrimmer) (w : World) :
  value (_get_video_info p self w) = Return ∅ ->
  value (probe_duration_seconds p self w) = Return (float_of_int 0).
Proof.
  unfold probe_duration_seconds, bind.
  destruct (_get_video_info p self w) as [[info|e] self1 w1 ev1]; simpl;
    intros H; [|discriminate H].
  injection H as ->. rewrite dict_get_empty. reflexivity.
Qed.

Lemma target_bitrate_value (size_mb : Z) (d : Q) (b : Z) :
  target_bitrate size_mb d = Return b ->
  b = int_of_float
        (nearest_double
           (nearest_double
              (nearest_double (nearest_double (inject_Z (size_mb * 1024 * 1024))
                               * nearest_double (95 # 100)) * inject_Z 8) / d)).
Proof.
  intros H. apply target_bitrate_returns in H. cbv zeta in H.
  destruct H as (_ & _ & _ & _ & _ & H). exact H.
Qed.

(** C2. A trimmed file whose size is at most the ceiling is kept as it is:
    [_compressed_output] becomes the input path itself, the file system is
    untouched and no process at all is run.  This holds for the automatic
    step [_check_and_compress] (ceiling [_max_size_mb]) and for
    [compressToSize] (ceiling [size_mb]), which then returns True. *)
Theorem size_fit_within_ceiling (self : VideoTrimmer) (w : World) (p : string) (n : Z) :
  _temp_output self = Some p ->
  os_path_exists w p = true ->
  os_path_getsize w p = Return n ->
  (n <= _max_size_mb self * 1024 * 1024 ->
     let o := _check_and_compress self w in
     _compressed_output (self_of o) = Some p
     /\ _temp_output (self_of o) = Some p
     /\ world_of o = w
     /\ encoder_runs (events o) = []
     /\ (forall cmd : list token, ~ In (Run cmd) (events o)))
  /\ (forall size_mb : Z,
        _trim_completed self = true ->
        n <= size_mb * 1024 * 1024 ->
        let o := compressToSize size_mb self w in
        value o = Return true
        /\ _compressed_output (self_of o) = Some p
        /\ _temp_output (self_of o) = Some p
        /\ world_of o = w
        /\ encoder_runs (events o) = []
        /\ (forall cmd : list token, ~ In (Run cmd) (events o))).
Proof.
  intros Ht He Hs. split.
  - intros Hn. cbv zeta. rewrite (check_and_compress_fits self w p n Ht He Hs Hn). simpl.
    repeat split; try assumption.
    intros cmd [H|[]]. discriminate H.
  - intros size_mb Hc Hn. cbv zeta.
    rewrite (compressToSize_fits size_mb self w p n Hc Ht He Hs Hn). simpl.
    repeat split; try assumption.
    intros cmd [H|[]]. discriminate H.
Qed.

(** C3, amended. When the trimmed file is larger than the ceiling and the
    prober gives a positive duration [d], the size-fit step runs the
    encoder once, with [-b:v] the integer part of the source expression
    [(size_mb * 1024 * 1024 * 0.95 * 8) / d] evaluated in double
    precision, each product and the quotient rounded to the nearest
    double; when that evaluation overflows, the encoder is not run.  The
    value can be one less than [floor (S * 0.95 * 8 / d)]. *)
Theorem encoder_bitrate_is_double_arithmetic (self : VideoTrimmer) (w : World)
    (p : string) (n : Z) (d : Q) :
  _temp_output self = Some p ->
  os_path_exists w p = true ->
  os_path_getsize w p = Return n ->
  value (probe_duration_seconds (Some p) self w) = Return d ->
  (0 < d)%Q ->
  (_max_size_mb self * 1024 * 1024 < n ->
     (forall b : Z,
         target_bitrate (_max_size_mb self) d = Return b ->
         b = int_of_float
               (nearest_double
                  (nearest_double
                     (nearest_double
                        (nearest_double (inject_Z (_max_size_mb self * 1024 * 1024))
                         * nearest_double (95 # 100)) * inject_Z 8) / d))
         /\ encoder_runs (events (_check_and_compress self w))
            = [[ Str "ffmpeg"; Str "-y";
                 Str "-i"; Str p;
                 Str "-c:v"; Str "libx264";
                 Str "-b:v"; StrOfInt b;
                 Str "-preset"; Str "medium";
                 Str "-c:a"; Str "aac";
                 Str "-b:a"; Str "128k";
                 Str compressed_video_path ]])
     /\ (forall e : exn,
           target_bitrate (_max_size_mb self) d = Raise e ->
           encoder_runs (events (_check_and_compress self w)) = []))
  /\ (forall size_mb : Z,
        _trim_completed self = true ->
        size_mb * 1024 * 1024 < n ->
        (forall b : Z,
            target_bitrate size_mb d = Return b ->
            b = int_of_float
                  (nearest_double
                     (nearest_double
                        (nearest_double
                           (nearest_double (inject_Z (size_mb * 1024 * 1024))
                            * nearest_double (95 # 100)) * inject_Z 8) / d))
            /\ encoder_runs (events (compressToSize size_mb self w))
               = [[ Str "ffmpeg"; Str "-y";
                    Str "-i"; Str p;
                    Str "-c:v"; Str "libx264";
                    Str "-b:v"; StrOfInt b;
                    Str "-preset"; Str "medium";
                    Str "-c:a"; Str "aac";
                    Str "-b:a"; Str "128k";
                    Str compressed_video_path ]])
        /\ (forall e : exn,
              target_bitrate size_mb d = Raise e ->
              encoder_runs (events (compressToSize size_mb self w)) = [])).
Proof.
  intros Ht He Hs Hd Hpos. split.
  - intros Hn.
    rewrite (check_and_compress_oversized self w p n Ht He Hs Hn). cbv zeta.
    rewrite Hd, (fle_positive d Hpos). split.
    + intros b Hb. split; [exact (target_bitrate_value _ d b Hb)|].
      rewrite Hb. unfold compress_cmd, path_arg.
      destruct (subprocess_run _ _) as [[result|e] w2];
        [destruct (returncode result =? 0);
         [destruct (os_path_getsize w2 compressed_video_path)|]|]; reflexivity.
    + intros e Hb. rewrite Hb. reflexivity.
  - intros size_mb Hc Hn.
    rewrite (compressToSize_oversized size_mb self w p n Hc Ht He Hs Hn). cbv zeta.
    rewrite Hd, (fle_positive d Hpos). split.
    + intros b Hb. split; [exact (target_bitrate_value _ d b Hb)|].
      rewrite Hb. unfold compress_cmd, path_arg.
      destruct (subprocess_run _ _) as [[result|e] w2];
        [destruct (returncode result =? 0);
         [destruct (os_path_getsize w2 compressed_video_path)|]|]; reflexivity.
    + intros e Hb. rewrite Hb. reflexivity.
Qed.

(** C4. When the trimmed file is larger than the ceiling and the prober
    yields no duration (read as 0 by the source) or a duration that is not
    positive, the size-fit step reports that the duration could not be
    determined and runs no encoder; [compressToSize] returns False. *)
Theorem duration_unknown_no_encoder (self : VideoTrimmer) (w : World) (p : string) (n : Z) :
  _temp_output self = Some p ->
  os_path_exists w p = true ->
  os_path_getsize w p = Return n ->
  (value (_get_video_info (Some p) self w) = Return ∅
   \/ exists d : Q,
        value (probe_duration_seconds (Some p) self w) = Return d /\ (d <= 0)%Q) ->
  (_max_size_mb self * 1024 * 1024 < n ->
     let o := _check_and_compress self w in
     In (Emit (errorOccurred [Str "Could not determine video duration for compression"]))
        (events o)
     /\ encoder_runs (events o) = [])
  /\ (forall size_mb : Z,
        _trim_completed self = true ->
        size_mb * 1024 * 1024 < n ->
        let o := compressToSize size_mb self w in
        value o = Return false
        /\ In (Emit (errorOccurred [Str "Could not determine video duration for compression"]))
              (events o)
        /\ encoder_runs (events o) = []).
Proof.
  intros Ht He Hs Hprobe.
  assert (exists d : Q,
             value (probe_duration_seconds (Some p) self w) = Return d /\ (d <= 0)%Q)
    as (d & Hd & Hle).
  { destruct Hprobe as [Hnone|Hd]; [|exact Hd].
    exists (float_of_int 0). split; [apply probe_unavailable, Hnone|apply Qle_refl]. }
  split.
  - intros Hn. cbv zeta.
    rewrite (check_and_compress_oversized self w p n Ht He Hs Hn). cbv zeta.
    rewrite Hd, (fle_nonpositive d Hle). simpl. split; [|reflexivity].
    right. right. left. reflexivity.
  - intros size_mb Hc Hn. cbv zeta.
    rewrite (compressToSize_oversized size_mb self w p n Hc Ht He Hs Hn). cbv zeta.
    rewrite Hd, (fle_nonpositive d Hle). simpl. split; [reflexivity|]. split; [|reflexivity].
    right. right. right. left. reflexivity.
Qed.

(** *** Claiming *)

Lemma truthy_append (a b : string) : truthy b = true -> truthy (a ++ b) = true.
Proof. destruct a; simpl; auto. Qed.

Lemma truthy_join (a b : string) : truthy b = true -> truthy (os_path_join a b) = true.
Proof.
  intros H. unfold os_path_join.
  destruct (startswith_sep b); [assumption|].
  destruct (negb (truthy a) || endswith_sep a).
  - apply truthy_append, H.
  - apply truthy_append. reflexivity.
Qed.

Lemma truthy_compressed_video_path : truthy compressed_video_path = true.
Proof. apply truthy_join. reflexivity. Qed.

Lemma append_inj_l (a b c : string) : a ++ b = a ++ c -> b = c.
Proof.
  induction a as [|ch a IH]; simpl; intros H; [assumption|].
  injection H as H. apply IH, H.
Qed.

(** The trim and the compressed file never share a path. *)
Lemma trimmed_is_not_compressed : trimmed_video_path <> compressed_video_path.
Proof.
  unfold trimmed_video_path, compressed_video_path, os_path_join. simpl.
  destruct (negb (truthy tempfile_gettempdir) || endswith_sep tempfile_gettempdir);
    intros H; apply append_inj_l in H; discriminate H.
Qed.

Lemma claim_rejected_without_trim (self : VideoTrimmer) (w : World) :
  _trim_completed self = false ->
  copyTrimToClipboard self w
  = Out (Return false) self w [Emit (errorOccurred [Str "No trimmed video available"])]
  /\ saveTrimmingDialog self w
     = Out (Return false) self w [Emit (errorOccurred [Str "No trimmed video available"])].
Proof.
  intros H. unfold copyTrimToClipboard, saveTrimmingDialog. py_unfold.
  rewrite H. split; reflexivity.
Qed.

Lemma claim_of_missing_file (self : VideoTrimmer) (w : World) (p : string) :
  _trim_completed self = true ->
  file_to_claim self = Some p ->
  os_path_exists w p = false ->
  copyTrimToClipboard self w
  = Out (Return false) self w [Emit (errorOccurred [Str "Trimmed video file not found"])]
  /\ saveTrimmingDialog self w
     = Out (Return false) self w [Emit (errorOccurred [Str "Trimmed video file not found"])].
Proof.
  intros Hc Hf He. unfold copyTrimToClipboard, saveTrimmingDialog. py_unfold.
  rewrite Hc. simpl. rewrite Hf, He. split; reflexivity.
Qed.

(** The sibling paths of [_check_and_compress]: when the encoder exits with
    a nonzero status, or something raises, the method falls back to the
    trim. *)
Lemma check_and_compress_falls_back (self : VideoTrimmer) (w : World) (p : string)
    (n : Z) (d : Q) (b : Z) :
  _temp_output self = Some p ->
  os_path_exists w p = true ->
  os_path_getsize w p = Return n ->
  _max_size_mb self * 1024 * 1024 < n ->
  value (probe_duration_seconds (Some p) self w) = Return d ->
  (0 < d)%Q ->
  target_bitrate (_max_size_mb self) d = Return b ->
  let w1 := snd (subprocess_run (ffprobe_cmd (Some p)) w) in
  let cmd := compress_cmd (Some p) b (Some compressed_video_path) in
  (forall result : CompletedProcess,
      fst (subprocess_run cmd w1) = Return result -> returncode result <> 0 ->
      _compressed_output (self_of (_check_and_compress self w)) = Some p)
  /\ (forall e : exn,
        fst (subprocess_run cmd w1) = Raise e ->
        _compressed_output (self_of (_check_and_compress self w)) = Some p).
Proof.
  intros Ht He Hs Hn Hd Hpos Hb. cbv zeta.
  rewrite (check_and_compress_oversized self w p n Ht He Hs Hn). cbv zeta.
  rewrite Hd, (fle_positive d Hpos), Hb.
  destruct (subprocess_run (compress_cmd _ _ _) _) as [[result|e] w2]; simpl; split.
  - intros r Hr Hrc. injection Hr as <-. apply Z.eqb_neq in Hrc. rewrite Hrc. reflexivity.
  - intros e Hr. discriminate Hr.
  - intros r Hr. discriminate Hr.
  - intros e' _. reflexivity.
Qed.

(** C1 fails on the path where the duration is unknown.  With a valid,
    oversized trim and a prober that gives no positive duration,
    [_check_and_compress] returns with [_compressed_output] still naming
    the compressed file, which was never written; the file designated for
    claiming is therefore not the trim, and both claim operations fail
    with "Trimmed video file not found". *)
Theorem duration_unknown_loses_the_trim (self : VideoTrimmer) (w : World) (p : string)
    (n : Z) (d : Q) :
  _trim_completed self = true ->
  _temp_output self = Some p ->
  os_path_exists w p = true ->
  os_path_getsize w p = Return n ->
  _max_size_mb self * 1024 * 1024 < n ->
  value (probe_duration_seconds (Some p) self w) = Return d ->
  (d <= 0)%Q ->
  os_path_exists (snd (subprocess_run (ffprobe_cmd (Some p)) w)) compressed_video_path
  = false ->
  let o := _check_and_compress self w in
  _temp_output (self_of o) = Some p
  /\ file_to_claim (self_of o) = Some compressed_video_path
  /\ (p = trimmed_video_path -> file_to_claim (self_of o) <> _temp_output (self_of o))
  /\ os_path_exists (world_of o) compressed_video_path = false
  /\ value (copyTrimToClipboard (self_of o) (world_of o)) = Return false
  /\ events (copyTrimToClipboard (self_of o) (world_of o))
     = [Emit (errorOccurred [Str "Trimmed video file not found"])]
  /\ value (saveTrimmingDialog (self_of o) (world_of o)) = Return false
  /\ events (saveTrimmingDialog (self_of o) (world_of o))
     = [Emit (errorOccurred [Str "Trimmed video file not found"])].
Proof.
  intros Hc Ht He Hs Hn Hd Hle Hmissing. cbv zeta.
  rewrite (check_and_compress_oversized self w p n Ht He Hs Hn). cbv zeta.
  rewrite Hd, (fle_nonpositive d Hle). simpl.
  assert (Hclaim : file_to_claim (with_compressed_output (Some compressed_video_path) self)
                   = Some compressed_video_path).
  { unfold file_to_claim. simpl. rewrite truthy_compressed_video_path. reflexivity. }
  destruct (claim_of_missing_file
              (with_compressed_output (Some compressed_video_path) self)
              (snd (subprocess_run (ffprobe_cmd (Some p)) w))
              compressed_video_path Hc Hclaim Hmissing) as [Hcopy Hsave].
  rewrite Hcopy, Hsave. simpl. rewrite Ht, Hclaim.
  repeat split; try assumption.
  intros -> H. injection H as H. symmetry in H. exact (trimmed_is_not_compressed H).
Qed.

(** C10. Setting the start or the end offset to a new value clears
    [_trim_completed], after which both claim operations refuse with "No
    trimmed video available"; setting an offset to the value it already has
    changes nothing and emits nothing. *)
Theorem offset_setters (self : VideoTrimmer) (w : World) (value : Z) :
  (value <> _start_time self ->
     let o := set_startTime value self w in
     _start_time (self_of o) = value
     /\ _trim_completed (self_of o) = false
     /\ events o = [Emit startTimeChanged]
     /\ copyTrimToClipboard (self_of o) (world_of o)
        = Out (Return false) (self_of o) (world_of o)
            [Emit (errorOccurred [Str "No trimmed video available"])]
     /\ saveTrimmingDialog (self_of o) (world_of o)
        = Out (Return false) (self_of o) (world_of o)
            [Emit (errorOccurred [Str "No trimmed video available"])])
  /\ (value <> _end_time self ->
       let o := set_endTime value self w in
       _end_time (self_of o) = value
       /\ _trim_completed (self_of o) = false
       /\ events o = [Emit endTimeChanged]
       /\ copyTrimToClipboard (self_of o) (world_of o)
          = Out (Return false) (self_of o) (world_of o)
              [Emit (errorOccurred [Str "No trimmed video available"])]
       /\ saveTrimmingDialog (self_of o) (world_of o)
          = Out (Return false) (self_of o) (world_of o)
              [Emit (errorOccurred [Str "No trimmed video available"])])
  /\ (value = _start_time self -> set_startTime value self w = Out (Return tt) self w [])
  /\ (value = _end_time self -> set_endTime value self w = Out (Return tt) self w []).
Proof.
  split; [|split; [|split]].
  - intros H. apply Z.eqb_neq in H. rewrite Z.eqb_sym in H.
    unfold set_startTime. py_unfold. rewrite H. simpl.
    repeat split; try reflexivity; apply claim_rejected_without_trim; reflexivity.
  - intros H. apply Z.eqb_neq in H. rewrite Z.eqb_sym in H.
    unfold set_endTime. py_unfold. rewrite H. simpl.
    repeat split; try reflexivity; apply claim_rejected_without_trim; reflexivity.
  - intros ->. unfold set_startTime. py_unfold. rewrite Z.eqb_refl. reflexivity.
  - intros ->. unfold set_endTime. py_unfold. rewrite Z.eqb_refl. reflexivity.
Qed.
End Pipeline.

(** ** The theorems at work on the simulated system *)

Import Sim.

(** [createTrim] on the loaded video produces the trimmed object and disk
    used below. *)
Example createTrim_80MB :
  let o := createTrim (os := sim_os sc_80MB) loaded disk in
  value o = Return true
  /\ self_of o = trimmed
  /\ world_of o = disk_with_trim (80 * 1024 * 1024).
Proof. cbv zeta. split; [|split]; vm_compute; reflexivity. Qed.

(** The whole request on the simulated system: the trim succeeds, the
    prober reports no duration, and neither claim operation finds a file. *)
Example request_with_unknown_duration :
  let os := sim_os sc_no_duration in
  let trim := createTrim (os := os) loaded disk in
  let fit := _check_and_compress (os := os) (self_of trim) (world_of trim) in
  let copy := copyTrimToClipboard (os := os) (self_of fit) (world_of fit) in
  value trim = Return true
  /\ os_path_exists (OS := os) (world_of fit) "/tmp/trimmed_video_4242.mp4" = true
  /\ _compressed_output (self_of fit) = Some "/tmp/compressed_video_4242.mp4"
  /\ os_path_exists (OS := os) (world_of fit) "/tmp/compressed_video_4242.mp4" = false
  /\ value copy = Return false
  /\ events copy = [Emit (errorOccurred [Str "Trimmed video file not found"])].
Proof. vm_compute. auto 10. Qed.

(** The same request when instead the encoder exits with status 1: the
    sibling path falls back to the trim, which is then copied. *)
Example request_with_failing_encoder :
  let os := sim_os sc_encode_fails in
  let trim := createTrim (os := os) loaded disk in
  let fit := _check_and_compress (os := os) (self_of trim) (world_of trim) in
  let copy := copyTrimToClipboard (os := os) (self_of fit) (world_of fit) in
  _compressed_output (self_of fit) = Some "/tmp/trimmed_video_4242.mp4"
  /\ value copy = Return true
  /\ In (SingleShot 100 (cb_copy_file_path_to_clipboard (Some "/tmp/trimmed_video_4242.mp4")))
        (events copy).
Proof. vm_compute. auto 10. Qed.

Lemma duration_unknown_loses_the_trim_witness :
  let os := sim_os sc_no_duration in
  let o := _check_and_compress (os := os) trimmed (disk_with_trim (80 * 1024 * 1024)) in
  _temp_output (self_of o) = Some "/tmp/trimmed_video_4242.mp4"
  /\ file_to_claim (self_of o) = Some (compressed_video_path (os := os))
  /\ ("/tmp/trimmed_video_4242.mp4" = trimmed_video_path (os := os) ->
      file_to_claim (self_of o) <> _temp_output (self_of o))
  /\ os_path_exists (OS := os) (world_of o) (compressed_video_path (os := os)) = false
  /\ value (copyTrimToClipboard (os := os) (self_of o) (world_of o)) = Return false
  /\ events (copyTrimToClipboard (os := os) (self_of o) (world_of o))
     = [Emit (errorOccurred [Str "Trimmed video file not found"])]
  /\ value (saveTrimmingDialog (os := os) (self_of o) (world_of o)) = Return false
  /\ events (saveTrimmingDialog (os := os) (self_of o) (world_of o))
     = [Emit (errorOccurred [Str "Trimmed video file not found"])].
Proof.
  apply (duration_unknown_loses_the_trim (os := sim_os sc_no_duration) trimmed
           (disk_with_trim (80 * 1024 * 1024)) "/tmp/trimmed_video_4242.mp4"
           (80 * 1024 * 1024) (0 # 1)).
  - reflexivity.
  - reflexivity.
  - vm_compute; reflexivity.
  - vm_compute; reflexivity.
  - vm_compute; reflexivity.
  - vm_compute; reflexivity.
  - unfold Qle; simpl; lia.
  - vm_compute; reflexivity.
Defined.

Lemma size_fit_within_ceiling_witness :
  let o := _check_and_compress (os := sim_os sc_10MB) trimmed
             (disk_with_trim (10 * 1024 * 1024)) in
  _compressed_output (self_of o) = Some "/tmp/trimmed_video_4242.mp4"
  /\ _temp_output (self_of o) = Some "/tmp/trimmed_video_4242.mp4"
  /\ world_of o = disk_with_trim (10 * 1024 * 1024)
  /\ encoder_runs (events o) = []
  /\ (forall cmd : list token, ~ In (Run cmd) (events o)).
Proof.
  apply (proj1 (size_fit_within_ceiling (os := sim_os sc_10MB) trimmed
                  (disk_with_trim (10 * 1024 * 1024)) "/tmp/trimmed_video_4242.mp4"
                  (10 * 1024 * 1024) eq_refl eq_refl eq_refl)).
  simpl; lia.
Defined.

(** C3 as the specification states it fails.  [compressToSize(3)] on a
    trim of 60.8 s passes [-b:v 393215], while
    [floor (3*1024*1024 * 0.95 * 8 / 60.8)] is 393216, whether 60.8 is
    read as the decimal or as the double nearest to it: the double for
    [0.95] lies below 0.95 and the rounded product stays below the exact
    one.  The Standard Library's binary64 gives 393215 as well. *)
Lemma encoder_bitrate_is_not_the_floor :
  encoder_runs (events (compressToSize (os := sim_os sc_60_8s) 3 trimmed
                          (disk_with_trim (80 * 1024 * 1024))))
  = [[ Str "ffmpeg"; Str "-y";
       Str "-i"; Str "/tmp/trimmed_video_4242.mp4";
       Str "-c:v"; Str "libx264";
       Str "-b:v"; StrOfInt 393215;
       Str "-preset"; Str "medium";
       Str "-c:a"; Str "aac";
       Str "-b:a"; Str "128k";
       Str "/tmp/compressed_video_4242.mp4" ]]
  /\ plan_bitrate (3 * 1024 * 1024) (608 # 10) = 393216
  /\ plan_bitrate (3 * 1024 * 1024) (nearest_double (608 # 10)) = 393216
  /\ Binary64.target_bitrate 3 (Binary64.div (Binary64.of_int 608) (Binary64.of_int 10))
     = Some 393215.
Proof.
  split; [|split; [|split]]; vm_compute; reflexivity.
Qed.

Lemma encoder_bitrate_is_double_arithmetic_witness :
  encoder_runs (events (_check_and_compress (os := sim_os sc_80MB) trimmed
                          (disk_with_trim (80 * 1024 * 1024))))
  = [[ Str "ffmpeg"; Str "-y";
       Str "-i"; Str "/tmp/trimmed_video_4242.mp4";
       Str "-c:v"; Str "libx264";
       Str "-b:v"; StrOfInt 13281962;
       Str "-preset"; Str "medium";
       Str "-c:a"; Str "aac";
       Str "-b:a"; Str "128k";
       Str (compressed_video_path (os := sim_os sc_80MB)) ]].
Proof.
  refine (proj2 (proj1 (proj1 (encoder_bitrate_is_double_arithmetic (os := sim_os sc_80MB)
                                 trimmed (disk_with_trim (80 * 1024 * 1024))
                                 "/tmp/trimmed_video_4242.mp4"
                                 (80 * 1024 * 1024) (30 # 1) eq_refl _ _ _ _) _)
                  13281962 _)).
  - vm_compute; reflexivity.
  - vm_compute; reflexivity.
  - vm_compute; reflexivity.
  - reflexivity.
  - simpl; lia.
  - vm_compute; reflexivity.
Defined.

Lemma duration_unknown_no_encoder_witness :
  let o := _check_and_compress (os := sim_os sc_no_duration) trimmed
             (disk_with_trim (80 * 1024 * 1024)) in
  In (Emit (errorOccurred [Str "Could not determine video duration for compression"]))
     (events o)
  /\ encoder_runs (events o) = [].
Proof.
  apply (proj1 (duration_unknown_no_encoder (os := sim_os sc_no_duration) trimmed
                  (disk_with_trim (80 * 1024 * 1024)) "/tmp/trimmed_video_4242.mp4"
                  (80 * 1024 * 1024) eq_refl eq_refl eq_refl
                  (or_intror (ex_intro _ (0 # 1) (conj eq_refl (Qle_refl (0 # 1))))))).
  simpl; lia.
Defined.

Lemma createTrim_exit_status_witness :
  (value (createTrim (os := sim_os sc_trim_fails) loaded disk) = Return false
   /\ In (Emit (errorOccurred [Str "Error trimming video: ";
                               Str "clip.mp4: Invalid data found when processing input"]))
         (events (createTrim (os := sim_os sc_trim_fails) loaded disk)))
  /\ (value (createTrim (os := sim_os sc_80MB) loaded disk) = Return true
      /\ _temp_output (self_of (createTrim (os := sim_os sc_80MB) loaded disk))
         = Some (trimmed_video_path (os := sim_os sc_80MB))
      /\ _trim_completed (self_of (createTrim (os := sim_os sc_80MB) loaded disk)) = true).
Proof.
  split.
  - apply (proj1 (createTrim_exit_status (os := sim_os sc_trim_fails) loaded disk)).
    split; [discriminate|].
    exists (Completed 1 "" "clip.mp4: Invalid data found when processing input").
    split; [vm_compute; reflexivity | split; [simpl; lia | reflexivity]].
  - apply (proj2 (createTrim_exit_status (os := sim_os sc_80MB) loaded disk)
             (Completed 0 "" "")).
    + discriminate.
    + vm_compute; reflexivity.
    + reflexivity.
Defined.



Lemma offset_setters_witness :
  let o := set_startTime (World := gmap string Z) 12000 trimmed
             (disk_with_trim (80 * 1024 * 1024)) in
  (_start_time (self_of o) = 12000
   /\ _trim_completed (self_of o) = false
   /\ events o = [Emit startTimeChanged]
   /\ copyTrimToClipboard (os := sim_os sc_80MB) (self_of o) (world_of o)
      = Out (Return false) (self_of o) (world_of o)
          [Emit (errorOccurred [Str "No trimmed video available"])]
   /\ saveTrimmingDialog (os := sim_os sc_80MB) (self_of o) (world_of o)
      = Out (Return false) (self_of o) (world_of o)
          [Emit (errorOccurred [Str "No trimmed video available"])])
  /\ set_endTime (World := gmap string Z) 40000 trimmed (disk_with_trim (80 * 1024 * 1024))
     = Out (Return tt) trimmed (disk_with_trim (80 * 1024 * 1024)) [].
Proof.
  split.
  - apply (proj1 (offset_setters (os := sim_os sc_80MB) trimmed
                    (disk_with_trim (80 * 1024 * 1024)) 12000)).
    simpl; lia.
  - apply (proj2 (proj2 (proj2 (offset_setters (os := sim_os sc_80MB) trimmed
                                  (disk_with_trim (80 * 1024 * 1024)) 40000)))).
    reflexivity.
Defined.

(** * Further properties of the methods *)

Section Frames.
Context {World : Type} {os : OS World}.

(** ** [createTrim] *)

(** X1. [createTrim] never raises and writes only [_temp_output] and
    [_trim_completed]: it sets the flag when it returns True and leaves it
    as it was when it returns False, so it never clears it; the offsets,
    the path, the duration and [_compressed_output] are untouched. *)
Theorem createTrim_frame (self : VideoTrimmer) (w : World) :
  let o := createTrim self w in
  (exists b : bool,
      value o = Return b
      /\ _trim_completed (self_of o) = (b || _trim_completed self)%bool)
  /\ _compressed_output (self_of o) = _compressed_output self
  /\ _start_time (self_of o) = _start_time self
  /\ _end_time (self_of o) = _end_time self
  /\ _duration (self_of o) = _duration self
  /\ _video_path (self_of o) = _video_path self
  /\ _max_size_mb (self_of o) = _max_size_mb self
  /\ (_temp_output (self_of o) = _temp_output self
      \/ _temp_output (self_of o) = Some trimmed_video_path).
Proof.
  cbv zeta. destruct (truthy (_video_path self)) eqn:Hv.
  - rewrite (createTrim_loaded self w Hv). cbv zeta.
    destruct (subprocess_run (createTrim_cmd self) w) as [[result|e] w1];
      [destruct (returncode result =? 0)|]; simpl;
      (split; [eexists; split; reflexivity | auto 10]).
  - rewrite (createTrim_unloaded self w Hv). simpl.
    split; [exists false; split; reflexivity | auto 10].
Qed.

(** X2. [createTrim] arms the deferred size-fit step exactly when it
    returns True. *)
Theorem createTrim_arms_size_fit (self : VideoTrimmer) (w : World) :
  let o := createTrim self w in
  In (SingleShot 100 cb_check_and_compress) (events o) <-> value o = Return true.
Proof.
  cbv zeta. destruct (truthy (_video_path self)) eqn:Hv.
  - rewrite (createTrim_loaded self w Hv). cbv zeta.
    destruct (subprocess_run (createTrim_cmd self) w) as [[result|e] w1];
      [destruct (returncode result =? 0)|]; simpl;
      (split; [intros H; repeat (destruct H as [H|H]; try discriminate H);
                 try reflexivity; try contradiction
              | intros H; try discriminate H; auto]).
  - rewrite (createTrim_unloaded self w Hv). simpl.
    split; [intros [H|[]]; discriminate H | intros H; discriminate H].
Qed.

Lemma createTrim_compressed_output (self : VideoTrimmer) (w : World) :
  _compressed_output (self_of (createTrim self w)) = _compressed_output self.
Proof.
  destruct (truthy (_video_path self)) eqn:Hv.
  - rewrite (createTrim_loaded self w Hv). cbv zeta.
    destruct (subprocess_run (createTrim_cmd self) w) as [[result|e] w1];
      [destruct (returncode result =? 0)|]; reflexivity.
  - rewrite (createTrim_unloaded self w Hv). reflexivity.
Qed.

(** X3. Until the deferred step runs, the file designated for claiming is
    still the one of the previous request: a non-empty
    [_compressed_output] survives [createTrim], whatever its outcome. *)
Theorem createTrim_keeps_previous_claim (self : VideoTrimmer) (w : World) (q : string) :
  _compressed_output self = Some q ->
  q <> "" ->
  file_to_claim (self_of (createTrim self w)) = Some q.
Proof.
  intros Hq Hne. apply truthy_true in Hne.
  unfold file_to_claim. rewrite createTrim_compressed_output, Hq. simpl.
  rewrite Hne. reflexivity.
Qed.


(** ** [_check_and_compress] *)

(** X4. Without a trimmed file on disk [_check_and_compress] does nothing
    at all. *)
Theorem check_and_compress_without_file (self : VideoTrimmer) (w : World) (p : string) :
  _temp_output self = Some p ->
  os_path_exists w p = false ->
  _check_and_compress self w = Out (Return tt) self w [].
Proof.
  intros Ht He. unfold _check_and_compress. py_unfold. rewrite Ht, He. reflexivity.
Qed.

(** X5. [_check_and_compress] never raises and writes only
    [_compressed_output], which afterwards is what it was, the trim, or the
    compressed file path. *)
Theorem check_and_compress_frame (self : VideoTrimmer) (w : World) :
  let o := _check_and_compress self w in
  value o = Return tt
  /\ _temp_output (self_of o) = _temp_output self
  /\ _trim_completed (self_of o) = _trim_completed self
  /\ _start_time (self_of o) = _start_time self
  /\ _end_time (self_of o) = _end_time self
  /\ _duration (self_of o) = _duration self
  /\ _video_path (self_of o) = _video_path self
  /\ _max_size_mb (self_of o) = _max_size_mb self
  /\ (_compressed_output (self_of o) = _compressed_output self
      \/ _compressed_output (self_of o) = _temp_output self
      \/ _compressed_output (self_of o) = Some compressed_video_path).
Proof.
  cbv zeta. unfold _check_and_compress. py_unfold.
  destruct (_temp_output self) as [p|] eqn:Ht; simpl; [|rewrite Ht; auto 12].
  destruct (os_path_exists w p); simpl; [|rewrite ?Ht; auto 12].
  destruct (os_path_getsize w p) as [n|e]; simpl; [|rewrite ?Ht; auto 12].
  destruct (fle (file_size_mb n) (float_of_int (_max_size_mb self))); simpl;
    [rewrite ?Ht; auto 12|].
  rewrite (probe_frame (Some p) _ self w).
  destruct (value (probe_duration_seconds (Some p) self w)) as [d|e]; simpl;
    [|rewrite ?Ht; auto 12].
  destruct (fle d (float_of_int 0)); simpl; [rewrite ?Ht; auto 12|].
  destruct (target_bitrate (_max_size_mb self) d) as [b|e]; simpl;
    [|rewrite ?Ht; auto 12].
  destruct (subprocess_run _ (snd _)) as [[result|e] w2]; simpl;
    [|rewrite ?Ht; auto 12].
  destruct (returncode result =? 0); simpl; [|rewrite ?Ht; auto 12].
  destruct (os_path_getsize w2 compressed_video_path); simpl; rewrite ?Ht; auto 12.
Qed.

(** X6. When the encoder exits with status 0 the compressed file is kept as
    the result whatever its size [m]: the source reads the size only for
    the message and never compares it with the ceiling. *)
Theorem check_and_compress_keeps_any_size (self : VideoTrimmer) (w : World)
    (p : string) (n m : Z) (d : Q) (b : Z) (result : CompletedProcess) :
  _temp_output self = Some p ->
  os_path_exists w p = true ->
  os_path_getsize w p = Return n ->
  _max_size_mb self * 1024 * 1024 < n ->
  value (probe_duration_seconds (Some p) self w) = Return d ->
  (0 < d)%Q ->
  target_bitrate (_max_size_mb self) d = Return b ->
  let w1 := snd (subprocess_run (ffprobe_cmd (Some p)) w) in
  let cmd := compress_cmd (Some p) b (Some compressed_video_path) in
  fst (subprocess_run cmd w1) = Return result ->
  returncode result = 0 ->
  os_path_getsize (snd (subprocess_run cmd w1)) compressed_video_path = Return m ->
  let o := _check_and_compress self w in
  file_to_claim (self_of o) = Some compressed_video_path
  /\ In (Emit (trimCompleteChanged
                 [Str "Compressed video ("; Fmt1f (file_size_mb n); Str "MB → ";
                  Fmt1f (truediv m (1024 * 1024)); Str "MB)"])) (events o)
  /\ forall s : signal, In (Emit s) (events o) -> forall msg, s <> errorOccurred msg.
Proof.
  intros Ht He Hs Hn Hd Hpos Hb. cbv zeta. intros Hr Hrc Hm.
  rewrite (check_and_compress_oversized self w p n Ht He Hs Hn). cbv zeta.
  rewrite Hd, (fle_positive d Hpos), Hb.
  destruct (subprocess_run (compress_cmd _ _ _) _) as [r w2]. simpl in Hr, Hm.
  subst r. rewrite Hrc, Hm. simpl. split; [|split].
  - unfold file_to_claim. simpl. rewrite truthy_compressed_video_path. reflexivity.
  - auto 10.
  - intros s H msg. repeat (destruct H as [H|H]; try discriminate H); try contradiction;
      injection H as <-; discriminate.
Qed.

(** ** [compressToSize] *)

(** X7. [compressToSize] refuses before touching anything when no trim is
    complete or the trimmed file is gone. *)
Theorem compressToSize_refuses (size_mb : Z) (self : VideoTrimmer) (w : World) :
  (_trim_completed self = false ->
     compressToSize size_mb self w
     = Out (Return false) self w [Emit (errorOccurred [Str "No trimmed video available"])])
  /\ (forall p : string,
        _trim_completed self = true ->
        _temp_output self = Some p ->
        os_path_exists w p = false ->
        compressToSize size_mb self w
        = Out (Return false) self w
            [Emit (errorOccurred [Str "Trimmed video file not found"])]).
Proof.
  split.
  - intros Hc. unfold compressToSize. py_unfold. rewrite Hc. reflexivity.
  - intros p Hc Ht He. unfold compressToSize. py_unfold. rewrite Hc. simpl.
    rewrite Ht, He. reflexivity.
Qed.

(** X8. On an oversized trim, [compressToSize] returns True exactly when the
    encoder ran, exited with status 0 and the compressed file could be
    sized; in every other case that reaches the encoder, and when the probe
    raises, it returns False with [_compressed_output] set back to the
    trim. *)
Theorem compressToSize_outcome (size_mb : Z) (self : VideoTrimmer) (w : World)
    (p : string) (n : Z) :
  _trim_completed self = true ->
  _temp_output self = Some p ->
  os_path_exists w p = true ->
  os_path_getsize w p = Return n ->
  size_mb * 1024 * 1024 < n ->
  let o := compressToSize size_mb self w in
  (value o = Return true /\ _compressed_output (self_of o) = Some compressed_video_path
   /\ exists cmd, encoder_runs (events o) = [cmd])
  \/ (value o = Return false /\ _compressed_output (self_of o) = Some p)
  \/ (value o = Return false /\ _compressed_output (self_of o) = Some compressed_video_path
      /\ encoder_runs (events o) = []
      /\ In (Emit (errorOccurred [Str "Could not determine video duration for compression"]))
            (events o)).
Proof.
  intros Hc Ht He Hs Hn. cbv zeta.
  rewrite (compressToSize_oversized size_mb self w p n Hc Ht He Hs Hn). cbv zeta.
  destruct (value (probe_duration_seconds (Some p) self w)) as [d|e]; simpl; [|auto].
  destruct (fle d (float_of_int 0)); simpl; [right; right; auto 10|].
  destruct (target_bitrate size_mb d) as [b|e]; simpl; [|auto].
  destruct (subprocess_run (compress_cmd _ _ _) _) as [[result|e] w2]; simpl; [|auto].
  destruct (returncode result =? 0); simpl; [|auto].
  destruct (os_path_getsize w2 compressed_video_path); simpl; [|auto].
  left. repeat split. eexists. reflexivity.
Qed.

(** X9. On an oversized trim [compressToSize] always announces
    [compressionStarted]; [compressionFinished] follows on every path but
    one: when the duration is unknown the method returns without it. *)
Theorem compressToSize_started_finished (size_mb : Z) (self : VideoTrimmer) (w : World)
    (p : string) (n : Z) :
  _trim_completed self = true ->
  _temp_output self = Some p ->
  os_path_exists w p = true ->
  os_path_getsize w p = Return n ->
  size_mb * 1024 * 1024 < n ->
  let o := compressToSize size_mb self w in
  In (Emit compressionStarted) (events o)
  /\ (In (Emit compressionFinished) (events o)
      <-> ~ exists d : Q,
            value (probe_duration_seconds (Some p) self w) = Return d /\ (d <= 0)%Q).
Proof.
  intros Hc Ht He Hs Hn. cbv zeta.
  rewrite (compressToSize_oversized size_mb self w p n Hc Ht He Hs Hn). cbv zeta.
  destruct (value (probe_duration_seconds (Some p) self w)) as [d|e]; simpl.
  - destruct (fle d (float_of_int 0)) eqn:Hd; simpl.
    + split; [auto|]. split.
      * intros H. repeat (destruct H as [H|H]; try discriminate H). contradiction.
      * intros H. exfalso. apply H. exists d. split; [reflexivity|].
        apply Qle_bool_iff, Hd.
    + assert (Hnot : ~ exists d0 : Q, Return d = Return d0 /\ (d0 <= 0)%Q).
      { intros (d0 & E & Hle). injection E as <-.
        rewrite (fle_nonpositive d Hle) in Hd. discriminate Hd. }
      destruct (target_bitrate size_mb d) as [b|e]; simpl;
        [destruct (subprocess_run (compress_cmd _ _ _) _) as [[result|e] w2]; simpl;
         [destruct (returncode result =? 0); simpl;
          [destruct (os_path_getsize w2 compressed_video_path); simpl|]|]|];
        (split; [auto|]; split; [intros _; exact Hnot | intros _; auto 10]).
  - split; [auto|]. split; [|intros _; auto 10].
    intros _ (d0 & E & _). discriminate E.
Qed.

(** ** Claiming: clipboard and save dialog *)

(** X10. [copyTrimToClipboard] is read-only: it never raises, never changes
    the object or the world and never runs a process itself. *)
Theorem copyTrimToClipboard_frame (self : VideoTrimmer) (w : World) :
  let o := copyTrimToClipboard self w in
  (exists b : bool, value o = Return b)
  /\ self_of o = self
  /\ world_of o = w
  /\ (forall cmd : list token, ~ In (Run cmd) (events o)).
Proof.
  cbv zeta. unfold copyTrimToClipboard. py_unfold.
  destruct (_trim_completed self); simpl.
  - destruct (file_to_claim self) as [p|]; simpl.
    + destruct (os_path_exists w p); simpl.
      * destruct (os_path_getsize w p); simpl;
          (repeat split; [eexists; reflexivity|];
           intros cmd H; repeat (destruct H as [H|H]; try discriminate H); contradiction).
      * repeat split; [eexists; reflexivity|].
        intros cmd [H|[]]; discriminate H.
    + repeat split; [eexists; reflexivity|].
      intros cmd [H|[]]; discriminate H.
  - repeat split; [eexists; reflexivity|].
    intros cmd [H|[]]; discriminate H.
Qed.

Lemma copyTrimToClipboard_run (self : VideoTrimmer) (w : World) (p : string) (n : Z) :
  _trim_completed self = true ->
  file_to_claim self = Some p ->
  os_path_exists w p = true ->
  os_path_getsize w p = Return n ->
  copyTrimToClipboard self w
  = Out (Return true) self w
      [SingleShot 100 (cb_copy_file_path_to_clipboard (Some p));
       Emit (trimCompleteChanged
               [Str "Video copied to clipboard ("; Fmt1f (file_size_mb n); Str "MB)"])].
Proof.
  intros Hc Hf He Hs.
  unfold copyTrimToClipboard. py_unfold. rewrite Hc. simpl. rewrite Hf, He. simpl.
  rewrite Hs. reflexivity.
Qed.

(** X11. With a completed trim, [copyTrimToClipboard] hands the clipboard
    helper the compressed output when that attribute is a non-empty path,
    and the trim otherwise; the size it reports is the size of that file. *)
Theorem copyTrimToClipboard_target (self : VideoTrimmer) (w : World) (p : string) (n : Z) :
  _trim_completed self = true ->
  (_compressed_output self = Some p /\ p <> ""
   \/ truthy_opt (_compressed_output self) = false /\ _temp_output self = Some p) ->
  os_path_exists w p = true ->
  os_path_getsize w p = Return n ->
  copyTrimToClipboard self w
  = Out (Return true) self w
      [SingleShot 100 (cb_copy_file_path_to_clipboard (Some p));
       Emit (trimCompleteChanged
               [Str "Video copied to clipboard ("; Fmt1f (file_size_mb n); Str "MB)"])].
Proof.
  intros Hc Hsel He Hs.
  assert (Hf : file_to_claim self = Some p).
  { unfold file_to_claim. destruct Hsel as [[Hp Hne]|[Hno Ht]].
    - rewrite Hp. simpl. apply truthy_true in Hne. rewrite Hne. reflexivity.
    - rewrite Hno. exact Ht. }
  exact (copyTrimToClipboard_run self w p n Hc Hf He Hs).
Qed.

(** The command line of the save dialog. *)
Lemma saveTrimmingDialog_run (self : VideoTrimmer) (w : World) (p : string) :
  _trim_completed self = true ->
  file_to_claim self = Some p ->
  os_path_exists w p = true ->
  saveTrimmingDialog self w =
    let original_filename := os_path_basename (_video_path self) in
    let cmd :=
      [ Str "kdialog"; Str "--getsavefilename";
        Str (os_path_join home ("trimmed_" ++ original_filename));
        Str ("Video files (*" ++ splitext_ext original_filename ++ ")") ] in
    match subprocess_run cmd w with
    | (Raise e, w1) =>
        Out (Return false) self w1
          [Run cmd; Emit (errorOccurred [Str "Error saving file: "; Str (str_e e)])]
    | (Return result, w1) =>
        if (returncode result =? 0) && truthy (strip (stdout result)) then
          match shutil_copy2 p (strip (stdout result)) w1 with
          | (Raise e, w2) =>
              Out (Return false) self w2
                [Run cmd; Emit (errorOccurred [Str "Error saving file: "; Str (str_e e)])]
          | (Return _, w2) =>
              match os_path_getsize w2 p with
              | Return n =>
                  Out (Return true) self w2
                    [Run cmd;
                     Emit (trimCompleteChanged
                             [Str "Saved to: "; Str (strip (stdout result)); Str " (";
                              Fmt1f (file_size_mb n); Str "MB)"])]
              | Raise e =>
                  Out (Return false) self w2
                    [Run cmd;
                     Emit (errorOccurred [Str "Error saving file: "; Str (str_e e)])]
              end
          end
        else Out (Return false) self w1 [Run cmd]
    end.
Proof.
  intros Hc Hf He. unfold saveTrimmingDialog. py_unfold. rewrite Hc. simpl.
  rewrite Hf, He. simpl.
  destruct (subprocess_run _ w) as [[result|e] w1]; simpl; [|reflexivity].
  destruct ((returncode result =? 0) && truthy (strip (stdout result))); simpl;
    [|reflexivity].
  destruct (shutil_copy2 p (strip (stdout result)) w1) as [[[]|e] w2]; simpl;
    [|reflexivity].
  destruct (os_path_getsize w2 p); reflexivity.
Qed.

(** X12. When the save dialog is cancelled (nonzero status, or nothing but
    white space on its output) [saveTrimmingDialog] returns False silently:
    no error signal, no copy, the object unchanged. *)
Theorem saveTrimmingDialog_cancelled (self : VideoTrimmer) (w : World) (p : string)
    (result : CompletedProcess) :
  _trim_completed self = true ->
  file_to_claim self = Some p ->
  os_path_exists w p = true ->
  let cmd :=
    [ Str "kdialog"; Str "--getsavefilename";
      Str (os_path_join home ("trimmed_" ++ os_path_basename (_video_path self)));
      Str ("Video files (*" ++ splitext_ext (os_path_basename (_video_path self)) ++ ")") ] in
  fst (subprocess_run cmd w) = Return result ->
  returncode result <> 0 \/ strip (stdout result) = "" ->
  saveTrimmingDialog self w
  = Out (Return false) self (snd (subprocess_run cmd w)) [Run cmd].
Proof.
  intros Hc Hf He. cbv zeta. intros Hr Hcancel.
  rewrite (saveTrimmingDialog_run self w p Hc Hf He). cbv zeta.
  destruct (subprocess_run _ w) as [r w1]. simpl in Hr. subst r. simpl.
  assert (E : (returncode result =? 0) && truthy (strip (stdout result)) = false).
  { destruct Hcancel as [Hrc|Hout].
    - apply Z.eqb_neq in Hrc. rewrite Hrc. reflexivity.
    - rewrite Hout. apply andb_false_r. }
  rewrite E. reflexivity.
Qed.

(** X13. When the dialog returns a destination, [saveTrimmingDialog] copies
    the designated file there; it returns True with the size of the source
    file in the message, and when the copy raises it returns False with the
    exception text. *)
Theorem saveTrimmingDialog_copies (self : VideoTrimmer) (w : World) (p : string)
    (result : CompletedProcess) :
  _trim_completed self = true ->
  file_to_claim self = Some p ->
  os_path_exists w p = true ->
  let cmd :=
    [ Str "kdialog"; Str "--getsavefilename";
      Str (os_path_join home ("trimmed_" ++ os_path_basename (_video_path self)));
      Str ("Video files (*" ++ splitext_ext (os_path_basename (_video_path self)) ++ ")") ] in
  let w1 := snd (subprocess_run cmd w) in
  let destination := strip (stdout result) in
  fst (subprocess_run cmd w) = Return result ->
  returncode result = 0 ->
  destination <> "" ->
  let o := saveTrimmingDialog self w in
  world_of o = snd (shutil_copy2 p destination w1)
  /\ self_of o = self
  /\ (forall n : Z,
        fst (shutil_copy2 p destination w1) = Return tt ->
        os_path_getsize (world_of o) p = Return n ->
        value o = Return true
        /\ events o = [Run cmd;
                       Emit (trimCompleteChanged
                               [Str "Saved to: "; Str destination; Str " (";
                                Fmt1f (file_size_mb n); Str "MB)"])])
  /\ (forall e : exn,
        fst (shutil_copy2 p destination w1) = Raise e ->
        value o = Return false
        /\ events o = [Run cmd;
                       Emit (errorOccurred [Str "Error saving file: "; Str (str_e e)])]).
Proof.
  intros Hc Hf He. cbv zeta. intros Hr Hrc Hdst.
  rewrite (saveTrimmingDialog_run self w p Hc Hf He). cbv zeta.
  destruct (subprocess_run _ w) as [r w1]. simpl in Hr. subst r. simpl.
  apply truthy_true in Hdst. rewrite Hrc, Hdst. simpl.
  destruct (shutil_copy2 p (strip (stdout result)) w1) as [[[]|e] w2]; simpl.
  - destruct (os_path_getsize w2 p) as [n|e] eqn:Hn; simpl;
      (split; [reflexivity|]; split; [reflexivity|]; split;
       [intros n0 _ Hn0; rewrite Hn in Hn0;
        first [discriminate Hn0 | injection Hn0 as <-; auto]
       | intros e0 He0; discriminate He0]).
  - split; [reflexivity|]. split; [reflexivity|]. split.
    + intros n0 Hcp. discriminate Hcp.
    + intros e0 He0. injection He0 as <-. auto.
Qed.

(** X14. [_copy_file_path_to_clipboard] never raises.  Without [wl-copy] it
    only reports that; with it, it publishes the file URI and then the
    plain path, ignoring the exit status of both, and a first call that
    raises prevents the second. *)
Theorem copy_file_path_to_clipboard_runs (file_path : option string)
    (self : VideoTrimmer) (w : World) :
  let uri := [Str "wl-copy"; Str "-t"; Str "text/uri-list";
              Str ("file://" ++ format_opt file_path)] in
  let primary := [Str "wl-copy"; Str "-p"; path_arg file_path] in
  let o := _copy_file_path_to_clipboard file_path self w in
  value o = Return tt
  /\ self_of o = self
  /\ (shutil_which w "wl-copy" = false ->
        world_of o = w
        /\ events o
           = [Emit (errorOccurred
                      [Str "wl-clipboard not installed. Install with: sudo pacman -S wl-clipboard"])])
  /\ (shutil_which w "wl-copy" = true ->
        match subprocess_run uri w with
        | (Raise e, _) =>
            events o = [Run uri;
                        Emit (errorOccurred [Str "Clipboard operation error: "; Str (str_e e)])]
        | (Return _, w1) =>
            match subprocess_run primary w1 with
            | (Raise e, _) =>
                events o = [Run uri; Run primary;
                            Emit (errorOccurred
                                    [Str "Clipboard operation error: "; Str (str_e e)])]
            | (Return _, _) => events o = [Run uri; Run primary]
            end
        end).
Proof.
  cbv zeta. unfold _copy_file_path_to_clipboard. py_unfold.
  destruct (shutil_which w "wl-copy"); simpl.
  - destruct (subprocess_run _ w) as [[r1|e1] w1]; simpl.
    + destruct (subprocess_run _ w1) as [[r2|e2] w2]; simpl;
        (split; [reflexivity|]; split; [reflexivity|]; split;
         [intros H; discriminate H | intros _; reflexivity]).
    + split; [reflexivity|]. split; [reflexivity|]. split;
        [intros H; discriminate H | intros _; reflexivity].
  - split; [reflexivity|]. split; [reflexivity|]. split;
      [intros _; split; reflexivity | intros H; discriminate H].
Qed.

(** ** Composition *)

Lemma truthy_trimmed_video_path : truthy trimmed_video_path = true.
Proof. apply truthy_join. reflexivity. Qed.

(** X15. Moving an offset away and back restores the offset but not the
    claim: [_trim_completed] stays cleared, and both moves are notified. *)
Theorem offset_moved_and_restored (self : VideoTrimmer) (w : World) (value : Z) :
  (value <> _start_time self ->
     let o1 := set_startTime value self w in
     let o2 := set_startTime (_start_time self) (self_of o1) (world_of o1) in
     _start_time (self_of o2) = _start_time self
     /\ _trim_completed (self_of o2) = false
     /\ (events o1 ++ events o2)%list = [Emit startTimeChanged; Emit startTimeChanged])
  /\ (value <> _end_time self ->
       let o1 := set_endTime value self w in
       let o2 := set_endTime (_end_time self) (self_of o1) (world_of o1) in
       _end_time (self_of o2) = _end_time self
       /\ _trim_completed (self_of o2) = false
       /\ (events o1 ++ events o2)%list = [Emit endTimeChanged; Emit endTimeChanged]).
Proof.
  split; intros H; cbv zeta.
  - assert (E1 : (_start_time self =? value) = false) by (apply Z.eqb_neq; congruence).
    assert (E2 : (value =? _start_time self) = false) by (apply Z.eqb_neq; congruence).
    unfold set_startTime. py_unfold. rewrite E1. simpl. rewrite E2. simpl. auto.
  - assert (E1 : (_end_time self =? value) = false) by (apply Z.eqb_neq; congruence).
    assert (E2 : (value =? _end_time self) = false) by (apply Z.eqb_neq; congruence).
    unfold set_endTime. py_unfold. rewrite E1. simpl. rewrite E2. simpl. auto.
Qed.

(** X16. A whole request whose trim fits the ceiling: [createTrim] succeeds,
    the deferred step accepts the file, and the clipboard receives the trim
    itself; the stream copy is the only encoder run of the three calls. *)
Theorem small_trim_end_to_end (self : VideoTrimmer) (w : World)
    (result : CompletedProcess) (n : Z) :
  _video_path self <> "" ->
  let ran := subprocess_run (createTrim_cmd self) w in
  fst ran = Return result ->
  returncode result = 0 ->
  os_path_exists (snd ran) trimmed_video_path = true ->
  os_path_getsize (snd ran) trimmed_video_path = Return n ->
  n <= _max_size_mb self * 1024 * 1024 ->
  let trim := createTrim self w in
  let fit := _check_and_compress (self_of trim) (world_of trim) in
  let copy := copyTrimToClipboard (self_of fit) (world_of fit) in
  value trim = Return true
  /\ world_of copy = snd ran
  /\ encoder_runs (events trim ++ events fit ++ events copy)%list = [createTrim_cmd self]
  /\ value copy = Return true
  /\ In (SingleShot 100 (cb_copy_file_path_to_clipboard (Some trimmed_video_path)))
        (events copy).
Proof.
  intros Hv. apply truthy_true in Hv. cbv zeta. intros Hr Hrc He Hs Hn.
  rewrite (createTrim_loaded self w Hv). cbv zeta.
  destruct (subprocess_run (createTrim_cmd self) w) as [r w1]. simpl in Hr, He, Hs.
  subst r. rewrite Hrc. simpl.
  set (self1 := with_trim_completed true (with_temp_output (Some trimmed_video_path) self)).
  rewrite (check_and_compress_fits self1 w1 trimmed_video_path n eq_refl He Hs Hn). simpl.
  rewrite (copyTrimToClipboard_run (with_compressed_output (Some trimmed_video_path) self1)
             w1 trimmed_video_path n eq_refl).
  - simpl. auto 10.
  - unfold file_to_claim. simpl. rewrite truthy_trimmed_video_path. reflexivity.
  - exact He.
  - exact Hs.
Qed.

(** X17. A whole request whose trim is too large and whose re-encode
    succeeds: the clipboard receives the compressed file, and the encoder
    ran twice, first the stream copy and then the re-encode at the bitrate
    computed from the ceiling and the probed duration. *)
Theorem large_trim_end_to_end (self : VideoTrimmer) (w : World)
    (result encoded : CompletedProcess) (n m : Z) (d : Q) (b : Z) :
  _video_path self <> "" ->
  let ran := subprocess_run (createTrim_cmd self) w in
  let self1 := with_trim_completed true (with_temp_output (Some trimmed_video_path) self) in
  let probed := snd (subprocess_run (ffprobe_cmd (Some trimmed_video_path)) (snd ran)) in
  let cmd := [ Str "ffmpeg"; Str "-y";
               Str "-i"; Str trimmed_video_path;
               Str "-c:v"; Str "libx264";
               Str "-b:v"; StrOfInt b;
               Str "-preset"; Str "medium";
               Str "-c:a"; Str "aac";
               Str "-b:a"; Str "128k";
               Str compressed_video_path ] in
  fst ran = Return result ->
  returncode result = 0 ->
  os_path_exists (snd ran) trimmed_video_path = true ->
  os_path_getsize (snd ran) trimmed_video_path = Return n ->
  _max_size_mb self * 1024 * 1024 < n ->
  value (probe_duration_seconds (Some trimmed_video_path) self1 (snd ran)) = Return d ->
  (0 < d)%Q ->
  target_bitrate (_max_size_mb self) d = Return b ->
  fst (subprocess_run cmd probed) = Return encoded ->
  returncode encoded = 0 ->
  os_path_exists (snd (subprocess_run cmd probed)) compressed_video_path = true ->
  os_path_getsize (snd (subprocess_run cmd probed)) compressed_video_path = Return m ->
  let trim := createTrim self w in
  let fit := _check_and_compress (self_of trim) (world_of trim) in
  let copy := copyTrimToClipboard (self_of fit) (world_of fit) in
  encoder_runs (events trim ++ events fit ++ events copy)%list
  = [ [ Str "ffmpeg"; Str "-y";
        Str "-i"; Str (_video_path self);
        Str "-ss"; StrOfFloat (truediv (_start_time self) 1000);
        Str "-t"; StrOfFloat (truediv (_end_time self - _start_time self) 1000);
        Str "-c"; Str "copy";
        Str trimmed_video_path ];
      cmd ]
  /\ b = int_of_float
           (nearest_double
              (nearest_double
                 (nearest_double
                    (nearest_double (inject_Z (_max_size_mb self * 1024 * 1024))
                     * nearest_double (95 # 100)) * inject_Z 8) / d))
  /\ value copy = Return true
  /\ In (SingleShot 100 (cb_copy_file_path_to_clipboard (Some compressed_video_path)))
        (events copy).
Proof.
  intros Hv. apply truthy_true in Hv. cbv zeta.
  intros Hr Hrc He Hs Hn Hd Hpos Hb Hr2 Hrc2 He2 Hs2.
  rewrite (createTrim_loaded self w Hv). cbv zeta.
  change (createTrim_cmd self)
    with [ Str "ffmpeg"; Str "-y";
           Str "-i"; Str (_video_path self);
           Str "-ss"; StrOfFloat (truediv (_start_time self) 1000);
           Str "-t"; StrOfFloat (truediv (_end_time self - _start_time self) 1000);
           Str "-c"; Str "copy";
           Str trimmed_video_path ] in *.
  destruct (subprocess_run _ w) as [r w1].
  simpl in Hr, He, Hs, Hd, Hr2, He2, Hs2. subst r. rewrite Hrc. simpl.
  set (self1 := with_trim_completed true (with_temp_output (Some trimmed_video_path) self))
    in *.
  rewrite (check_and_compress_oversized self1 w1 trimmed_video_path n eq_refl He Hs Hn).
  cbv zeta. rewrite Hd, (fle_positive d Hpos).
  change (_max_size_mb self1) with (_max_size_mb self). rewrite Hb.
  unfold compress_cmd, path_arg.
  destruct (subprocess_run _ (snd _)) as [r2 w2]. simpl in Hr2, He2, Hs2.
  subst r2. rewrite Hrc2, Hs2. simpl.
  rewrite (copyTrimToClipboard_run
             (with_compressed_output (Some compressed_video_path) self1)
             w2 compressed_video_path m eq_refl).
  - simpl. split; [reflexivity|]. split; [exact (target_bitrate_value _ d b Hb)|]. auto 10.
  - unfold file_to_claim. simpl. rewrite truthy_compressed_video_path. reflexivity.
  - exact He2.
  - exact Hs2.
Qed.
End Frames.

(** ** [setVideoFile] *)

Section LoadingFacts.
Context {World : Type} {os : OS World} {desktop : Desktop World}.

Lemma setVideoFile_run (file_path : string) (self : VideoTrimmer) (w : World) :
  setVideoFile file_path self w =
    match resolved_path w file_path with
    | Raise e => Out (Raise e) (with_video_path (stripped_path file_path) self) w []
    | Return path =>
        let loaded := with_video_path path self in
        let cmd := setVideoFile_cmd path in
        let failed e :=
          [Run cmd; Emit (errorOccurred [Str "Error processing video: "; Str (str_e e)])] in
        match print_stdout w ("Setting video file: " ++ path) with
        | Raise e => Out (Raise e) loaded w []
        | Return _ =>
            if os_path_exists w path then
              match subprocess_run cmd w with
              | (Raise e, w1) => Out (Return tt) loaded w1 (failed e)
              | (Return result, w1) =>
                  if returncode result =? 0 then
                    match float_of_str (strip (stdout result)) with
                    | Return seconds =>
                        match py_int (fmul (Finite seconds) (Finite (float_of_int 1000))) with
                        | Return ms =>
                            Out (Return tt) (with_end_time ms (with_duration ms loaded)) w1
                              [Run cmd; Emit durationChanged]
                        | Raise e => Out (Return tt) loaded w1 (failed e)
                        end
                    | Raise e => Out (Return tt) loaded w1 (failed e)
                    end
                  else
                    Out (Return tt) loaded w1
                      [Run cmd;
                       Emit (errorOccurred [Str "Error getting video duration: ";
                                            Str (stderr result)])]
              end
            else
              Out (Return tt) loaded w
                [Emit (errorOccurred [Str "File not found: "; Str path])]
        end
    end.
Proof.
  unfold setVideoFile, resolved_path, stripped_path, abspath, print_. py_unfold.
  destruct (String.prefix "file://" file_path); simpl;
    match goal with |- context [os_path_isabs ?s] => destruct (os_path_isabs s) end; simpl;
    try match goal with |- context [os_path_abspath w ?s] =>
          destruct (os_path_abspath w s) as [absolute|e0]; simpl; [|reflexivity] end;
    match goal with |- context [print_stdout w ?s] =>
      destruct (print_stdout w s) as [[]|e1]; simpl; [|reflexivity] end;
    match goal with |- context [os_path_exists w ?s] => destruct (os_path_exists w s) end;
    simpl; try reflexivity;
    match goal with |- context [subprocess_run ?c w] =>
      destruct (subprocess_run c w) as [[result|e] w1] end; simpl; try reflexivity;
    destruct (returncode result =? 0); simpl; try reflexivity;
    unfold py_float; simpl; destruct (float_of_str (strip (stdout result))) as [seconds|e];
    simpl; try reflexivity;
    destruct (py_int _); reflexivity.
Qed.

(** [int(seconds * 1000)]: the product rounded to the nearest double, then
    truncated; OverflowError when the product overflows. *)
Lemma milliseconds_run (seconds : Q) :
  py_int (fmul (Finite seconds) (Finite (float_of_int 1000)))
  = if is_finite (nearest_double (seconds * inject_Z 1000))
    then Return (int_of_float (nearest_double (seconds * inject_Z 1000)))
    else Raise (Exception "cannot convert float infinity to integer").
Proof.
  unfold fmul, rounded, float_of_int.
  destruct (is_finite (nearest_double (seconds * inject_Z 1000))); reflexivity.
Qed.


(** X19. When the file exists and the prober prints a number of seconds,
    the duration becomes [int(seconds * 1000)], where the product is
    rounded to the nearest double before [int] truncates it, and the end
    offset is set to it; only [durationChanged] is emitted, so the end
    offset changes without [endTimeChanged], and the start offset is not
    reset.  A product too large for a double is reported as an error and
    the duration stays as it was. *)
Theorem setVideoFile_loads (file_path : string) (self : VideoTrimmer) (w : World)
    (path : string) (result : CompletedProcess) (seconds : Q) :
  resolved_path w file_path = Return path ->
  print_stdout w ("Setting video file: " ++ path) = Return tt ->
  os_path_exists w path = true ->
  fst (subprocess_run (setVideoFile_cmd path) w) = Return result ->
  returncode result = 0 ->
  float_of_str (strip (stdout result)) = Return seconds ->
  let o := setVideoFile file_path self w in
  _start_time (self_of o) = _start_time self
  /\ _video_path (self_of o) = path
  /\ world_of o = snd (subprocess_run (setVideoFile_cmd path) w)
  /\ (is_finite (nearest_double (seconds * inject_Z 1000)) = true ->
      _duration (self_of o) = int_of_float (nearest_double (seconds * inject_Z 1000))
      /\ _end_time (self_of o) = _duration (self_of o)
      /\ events o = [Run (setVideoFile_cmd path); Emit durationChanged])
  /\ (is_finite (nearest_double (seconds * inject_Z 1000)) = false ->
      _duration (self_of o) = _duration self
      /\ _end_time (self_of o) = _end_time self
      /\ events o
         = [Run (setVideoFile_cmd path);
            Emit (errorOccurred [Str "Error processing video: ";
                                 Str "cannot convert float infinity to integer"])]).
Proof.
  intros Hp Hpr He Hr Hrc Hf. cbv zeta.
  rewrite setVideoFile_run, Hp. cbv zeta. rewrite Hpr, He.
  destruct (subprocess_run _ w) as [r w1]. simpl in Hr. subst r.
  rewrite Hrc, Z.eqb_refl, Hf, milliseconds_run.
  destruct (is_finite (nearest_double (seconds * inject_Z 1000))); simpl;
    (split; [reflexivity|]; split; [reflexivity|]; split; [reflexivity|]; split;
     intros H; first [discriminate H | auto]).
Qed.

(** X20. [setVideoFile] never touches the trim, whether it returns or
    raises: the start offset, [_trim_completed], [_temp_output] and
    [_compressed_output] are as before, so a trim made from the previous
    video stays claimable.  It raises exactly when the path cannot be made
    absolute or the [print] of the path fails, both of which come before
    the [try]; nothing has been run or emitted by then and the duration is
    untouched.  Everything after is caught. *)
Theorem setVideoFile_keeps_trim (file_path : string) (self : VideoTrimmer) (w : World) :
  let o := setVideoFile file_path self w in
  _start_time (self_of o) = _start_time self
  /\ _trim_completed (self_of o) = _trim_completed self
  /\ _temp_output (self_of o) = _temp_output self
  /\ _compressed_output (self_of o) = _compressed_output self
  /\ file_to_claim (self_of o) = file_to_claim self
  /\ (forall path : string,
        resolved_path w file_path = Return path -> _video_path (self_of o) = path)
  /\ (forall e : exn,
        value o = Raise e
        <-> resolved_path w file_path = Raise e
            \/ exists path : string,
                 resolved_path w file_path = Return path
                 /\ print_stdout w ("Setting video file: " ++ path) = Raise e)
  /\ (value o <> Return tt ->
        events o = [] /\ world_of o = w
        /\ _duration (self_of o) = _duration self
        /\ _end_time (self_of o) = _end_time self).
Proof.
  cbv zeta. rewrite setVideoFile_run.
  assert (Hraise : forall (e : exn) (s : VideoTrimmer) (w0 : World) (evs : list event),
             ~ value (Out (Return tt) s w0 evs) = Raise e)
    by (intros e s w0 evs H; discriminate H).
  destruct (resolved_path w file_path) as [path|e0].
  - cbv zeta. destruct (print_stdout w ("Setting video file: " ++ path)) as [[]|e1] eqn:Hpr.
    + assert (Hiff : forall e : exn,
                 ~ (Return path = Raise e
                    \/ exists path0 : string,
                         Return path = Return path0
                         /\ print_stdout w ("Setting video file: " ++ path0) = Raise e)).
      { intros e [H|(path0 & Hp0 & H)]; [discriminate H|].
        injection Hp0 as <-. rewrite Hpr in H. discriminate H. }
      destruct (os_path_exists w path);
        [destruct (subprocess_run _ w) as [[result|e] w1];
         [destruct (returncode result =? 0);
          [destruct (float_of_str _); [destruct (py_int _)|]|]|]|];
        simpl;
        (repeat (split; [reflexivity|]); split;
         [intros path0 H; injection H as <-; reflexivity|]; split;
         [intros e'; split; [intros H; discriminate H | intros H; destruct (Hiff e' H)]
         | intros H; contradiction]).
    + simpl. repeat (split; [reflexivity|]). split;
        [intros path0 H; injection H as <-; reflexivity|]. split.
      * intros e. split.
        -- intros H. injection H as <-. right. exists path. auto.
        -- intros [H|(path0 & Hp0 & H)]; [discriminate H|].
           injection Hp0 as <-. rewrite Hpr in H. injection H as <-. reflexivity.
      * intros _. auto.
  - simpl. repeat (split; [reflexivity|]). split; [intros path0 H; discriminate H|]. split.
    + intros e. split.
      * intros H. injection H as <-. left. reflexivity.
      * intros [H|(path0 & H & _)]; [injection H as <-; reflexivity | discriminate H].
    + intros _. auto.
Qed.

(** X21. Either the duration is read and announced, or exactly one error is
    reported and the duration and end offset of the previous video stay in
    place beside the new path, or the call raises before its [try] (the
    path could not be made absolute, or could not be printed), with
    nothing emitted and the duration and end offset untouched. *)
Theorem setVideoFile_duration_or_error (file_path : string) (self : VideoTrimmer)
    (w : World) :
  let o := setVideoFile file_path self w in
  (In (Emit durationChanged) (events o)
   /\ _end_time (self_of o) = _duration (self_of o)
   /\ forall msg, ~ In (Emit (errorOccurred msg)) (events o))
  \/ (~ In (Emit durationChanged) (events o)
      /\ _duration (self_of o) = _duration self
      /\ _end_time (self_of o) = _end_time self
      /\ exists msg, In (Emit (errorOccurred msg)) (events o))
  \/ ((exists e : exn, value o = Raise e)
      /\ events o = []
      /\ _duration (self_of o) = _duration self
      /\ _end_time (self_of o) = _end_time self).
Proof.
  cbv zeta. rewrite setVideoFile_run.
  destruct (resolved_path w file_path) as [path|e0];
    [|right; right; simpl; eauto 10].
  cbv zeta. destruct (print_stdout w ("Setting video file: " ++ path)) as [[]|e1];
    [|right; right; simpl; eauto 10].
  destruct (os_path_exists w path).
  - destruct (subprocess_run _ w) as [[result|e] w1].
    + destruct (returncode result =? 0).
      * destruct (float_of_str _) as [seconds|e]; [destruct (py_int _) as [ms|e]|]; simpl.
        -- left. split; [auto|]. split; [reflexivity|].
           intros msg [H|[H|[]]]; discriminate H.
        -- right. left. split; [|eauto 10]. intros [H|[H|[]]]; discriminate H.
        -- right. left. split; [|eauto 10]. intros [H|[H|[]]]; discriminate H.
      * simpl. right. left. split; [|eauto 10]. intros [H|[H|[]]]; discriminate H.
    + simpl. right. left. split; [|eauto 10]. intros [H|[H|[]]]; discriminate H.
  - simpl. right. left. split; [|eauto 10]. intros [H|[]]; discriminate H.
Qed.

Lemma remove_absent (old s : string) :
  contains old s = false -> remove_from old 0 s = s /\ String.prefix old s = false.
Proof.
  induction s as [|c rest IH]; intros H.
  - simpl in H. split; [reflexivity|exact H].
  - change (String.prefix old (String c rest) || contains old rest = false) in H.
    apply orb_false_iff in H. destruct H as [Hp Hc].
    split; [|exact Hp].
    change (remove_from old 0 (String c rest))
      with (if String.prefix old (String c rest)
            then remove_from old (String.length old - 1) rest
            else String c (remove_from old 0 rest)).
    rewrite Hp. f_equal. apply IH, Hc.
Qed.

(** X22. A [file://] URL is loaded exactly as the path behind it, for every
    path that does not itself contain [file://]. *)
Theorem setVideoFile_file_url (p : string) (self : VideoTrimmer) (w : World) :
  contains "file://" p = false ->
  setVideoFile ("file://" ++ p) self w = setVideoFile p self w.
Proof.
  intros H. destruct (remove_absent "file://" p H) as [Hr Hp].
  rewrite !setVideoFile_run.
  assert (E : stripped_path ("file://" ++ p) = stripped_path p).
  { assert (Hpre : String.prefix "file://" ("file://" ++ p) = true)
      by (simpl; destruct p; reflexivity).
    assert (Hrem : str_remove "file://" ("file://" ++ p) = remove_from "file://" 0 p).
    { unfold str_remove.
      change (remove_from "file://" 0 ("file://" ++ p))
        with (if String.prefix "file://" ("file://" ++ p)
              then remove_from "file://" (String.length "file://" - 1) ("ile://" ++ p)
              else String "f" (remove_from "file://" 0 ("ile://" ++ p))).
      rewrite Hpre. reflexivity. }
    unfold stripped_path. rewrite Hp, Hpre, Hrem, Hr. reflexivity. }
  unfold resolved_path. rewrite E. reflexivity.
Qed.

End LoadingFacts.

(** ** The gallery *)

Section GalleryFacts.
Context {World : Type} {os : OS World} {desktop : Desktop World}.
Local Open Scope Q_scope.

Lemma flt_true (x y : Q) : flt x y = true <-> x < y.
Proof.
  unfold flt. destruct (Qle_bool y x) eqn:E; simpl.
  - apply Qle_bool_iff in E. split; [discriminate|].
    intros H. exfalso. exact (Qlt_not_le _ _ H E).
  - split; [intros _|reflexivity].
    apply Qnot_le_lt. intros H. apply Qle_bool_iff in H. congruence.
Qed.

Lemma flt_false (x y : Q) : flt x y = false <-> y <= x.
Proof.
  unfold flt. destruct (Qle_bool y x) eqn:E; simpl.
  - apply Qle_bool_iff in E. split; [intros _; exact E|reflexivity].
  - split; [discriminate|]. intros H. apply Qle_bool_iff in H. congruence.
Qed.

Lemma pow2_1024 (j : nat) :
  pow2 (- (10 * Z.of_nat j)) == / inject_Z (1024 ^ Z.of_nat j).
Proof.
  unfold pow2. rewrite Qpower_opp. fold (pow2 (10 * Z.of_nat j)).
  rewrite pow2_Z by lia. rewrite Z.pow_mul_r by lia. reflexivity.
Qed.

Lemma inject_Z_1024_pos (j : nat) : 0 < inject_Z (1024 ^ Z.of_nat j).
Proof.
  change 0 with (inject_Z 0). rewrite <- Zlt_Qlt. apply Z.pow_pos_nonneg; lia.
Qed.

(** Dividing a size below 2^53 by 1024, a few times over, is exact. *)
Lemma divide_by_1024_exact (n : Z) (j : nat) (size : Q) :
  (0 <= n < 2 ^ 53)%Z -> (j < 100)%nat ->
  size == inject_Z n / inject_Z (1024 ^ Z.of_nat j) ->
  nearest_double (size / float_of_int 1024)
  == inject_Z n / inject_Z (1024 ^ Z.of_nat (S j)).
Proof.
  intros Hn Hj Hsize.
  assert (E : size / float_of_int 1024 == inject_Z n * pow2 (- (10 * Z.of_nat (S j)))).
  { rewrite Hsize, pow2_1024. unfold float_of_int.
    rewrite Nat2Z.inj_succ, Z.pow_succ_r by lia. rewrite inject_Z_mult.
    pose proof (inject_Z_1024_pos j) as Hpos.
    field. intros H. rewrite H in Hpos. discriminate Hpos. }
  rewrite (nearest_double_comp _ _ E).
  rewrite nearest_double_exact by lia.
  rewrite pow2_1024. reflexivity.
Qed.

Lemma scale_size_spec (units : list string) (n : Z) :
  (0 <= n < 2 ^ 53)%Z ->
  forall (j : nat) (size : Q),
    (j + length units <= 100)%nat ->
    size == inject_Z n / inject_Z (1024 ^ Z.of_nat j) ->
    exists (k : nat) (q : Q),
      (k <= length units)%nat
      /\ q == inject_Z n / inject_Z (1024 ^ Z.of_nat (j + k))
      /\ scale_size size units
         = match units !! k with
           | Some unit => [Fmt1f q; Str " "; Str unit]
           | None => [Fmt1f q; Str " PB"]
           end
      /\ ((k < length units)%nat -> q < 1024)
      /\ ((0 < k)%nat -> 1 <= q).
Proof.
  intros Hn. induction units as [|unit rest IH]; intros j size Hj Hsize.
  - exists 0%nat, size. simpl. rewrite Nat.add_0_r. repeat split; try lia. exact Hsize.
  - cbn [scale_size]. destruct (flt size (float_of_int 1024)) eqn:E.
    + exists 0%nat, size. simpl. rewrite Nat.add_0_r. repeat split; try lia.
      * exact Hsize.
      * intros _. apply flt_true in E. exact E.
    + apply flt_false in E. unfold float_of_int in E.
      assert (Hnext : nearest_double (size / float_of_int 1024)
                      == inject_Z n / inject_Z (1024 ^ Z.of_nat (S j))).
      { apply divide_by_1024_exact; [exact Hn | simpl in Hj; lia | exact Hsize]. }
      destruct (IH (S j) (nearest_double (size / float_of_int 1024)))
        as (k & q & Hk & Hq & Hs & Hlt & Hge); [simpl in Hj; lia | exact Hnext |].
      exists (S k), q. split; [simpl; lia|]. split; [|split; [exact Hs|split]].
      * replace (j + S k)%nat with (S j + k)%nat by lia. exact Hq.
      * intros H. apply Hlt. simpl in H. lia.
      * intros _. destruct k as [|k']; [|apply Hge; lia].
        rewrite Hq, Nat.add_0_r, <- Hnext.
        rewrite <- (nearest_double_exact 1 0) by lia.
        apply nearest_double_mono. unfold float_of_int.
        change (inject_Z 1 * pow2 0) with (1 * 1). rewrite Qmult_1_l.
        apply Qle_shift_div_l; [reflexivity|]. rewrite Qmult_1_l. exact E.
Qed.

(** X23. [fileSizeFormatted] divides the size by 1024 until it is below
    1024 or the units run out.  For a size below 2^53 bytes every division
    is exact: the value handed to the one-decimal format is the size over
    [1024^k], beside the [k]-th unit; before it is formatted it is below
    1024 for every unit but PB, and at least 1 for every unit but B.  (The
    format rounds to one decimal afterwards, so 1048575 bytes, which is
    1023.999 KB, is shown as 1024.0 KB.) *)
Theorem fileSizeFormatted_scaled (video : VideoInfo) :
  (0 <= _filesize video < 2 ^ 53)%Z ->
  exists (k : nat) (q : Q),
    (k <= 5)%nat
    /\ q == inject_Z (_filesize video) / inject_Z (1024 ^ Z.of_nat k)
    /\ fileSizeFormatted video
       = match size_units !! k with
         | Some unit => [Fmt1f q; Str " "; Str unit]
         | None => [Fmt1f q; Str " PB"]
         end
    /\ ((k < 5)%nat -> q < 1024)
    /\ ((0 < k)%nat -> 1 <= q).
Proof.
  intros Hn.
  destruct (scale_size_spec size_units (_filesize video) Hn 0%nat
              (float_of_int (_filesize video)))
    as (k & q & Hk & Hq & Hs & Hlt & Hge).
  - simpl. lia.
  - unfold float_of_int. simpl. unfold Qdiv. rewrite Qmult_1_r. reflexivity.
  - exists k, q. auto.
Qed.


Lemma role_declared (role : Z) :
  is_Some (roleNames !! role) <-> (257 <= role <= 262)%Z.
Proof.
  unfold roleNames, FilepathRole, FilenameRole, FilesizeRole, LastModifiedRole,
    FilesizeFormattedRole, ThumbnailPathRole, UserRole.
  rewrite !lookup_insert. rewrite lookup_singleton.
  repeat case_decide; split; intros Hrole; try lia; try (eexists; reflexivity).
  destruct Hrole as [x Hx]. discriminate Hx.
Qed.

(** X24. [data] answers exactly the roles that [roleNames] declares, and
    only for the rows of the model: an invalid index, a row past the end
    or any other role (the display role included) gives the invalid
    variant. *)
Theorem data_answers_declared_roles (_videos : list VideoInfo) (index : QModelIndex)
    (role : Z) :
  data _videos index role <> QVariant_invalid
  <-> (exists row : nat,
          index = Index row /\ (row < length _videos)%nat)
      /\ is_Some (roleNames !! role).
Proof.
  rewrite role_declared.
  unfold data, FilepathRole, FilenameRole, FilesizeRole, LastModifiedRole,
    FilesizeFormattedRole, ThumbnailPathRole, UserRole.
  destruct index as [|row].
  - split; [intros H; contradiction|]. intros [(r & Hr & _) _]. discriminate Hr.
  - destruct (length _videos <=? row)%nat eqn:Hlen.
    + apply Nat.leb_le in Hlen. split; [intros H; contradiction|].
      intros [(r & Hr & Hlt) _]. injection Hr as <-. lia.
    + apply Nat.leb_gt in Hlen.
      destruct (_videos !! row) as [video|] eqn:Hv.
      * repeat match goal with
               | |- context [(role =? ?c)%Z] => destruct (Z.eqb_spec role c)
               end;
          (split;
           [intros Hd; first [contradiction | split; [exists row; auto | lia]]
           | intros [_ Hr]; first [discriminate | lia]]).
      * apply lookup_ge_None in Hv. lia.
Qed.


(** *** Thumbnails *)

Lemma first_icon_run (icon_paths : list string) (vs : list VideoInfo) (w : World) :
  first_icon icon_paths vs w
  = GOut (Return match List.find (os_path_exists w) icon_paths with
                 | Some icon_path => qurl_from_local_file icon_path
                 | None => ""%string
                 end) vs w [].
Proof.
  induction icon_paths as [|p rest IH]; simpl; [reflexivity|].
  unfold gbind, gexists. simpl.
  destruct (os_path_exists w p); simpl; [reflexivity|].
  rewrite IH. reflexivity.
Qed.

Lemma generate_thumbnail_run (filepath : string) (vs : list VideoInfo) (w : World) :
  _generate_thumbnail filepath vs w =
    match os_makedirs (os_path_join tempfile_gettempdir "otrimmer_thumbnails") w with
    | (Raise _, w1) => GOut (Return ""%string) vs w1 []
    | (Return _, w1) =>
        match md5_hexdigest filepath with
        | Raise _ => GOut (Return ""%string) vs w1 []
        | Return hash_name =>
            let thumbnail_path := thumbnail_path_of hash_name in
            let cmd := thumbnail_cmd filepath thumbnail_path in
            if os_path_exists w1 thumbnail_path then
              GOut (Return (qurl_from_local_file thumbnail_path)) vs w1 []
            else if shutil_which w1 "ffmpeg" then
              match subprocess_run cmd w1 with
              | (Return _, w2) =>
                  if os_path_exists w2 thumbnail_path then
                    GOut (Return (qurl_from_local_file thumbnail_path)) vs w2 [Spawned cmd]
                  else GOut (Return (fallback_icon w2)) vs w2 [Spawned cmd]
              | (Raise _, w2) => GOut (Return (fallback_icon w2)) vs w2 [Spawned cmd]
              end
            else GOut (Return (fallback_icon w1)) vs w1 []
        end
    end.
Proof.
  unfold _generate_thumbnail, thumbnail_path_of, fallback_icon.
  unfold gtry, gbind, gmakedirs, gmd5, gexists, gwhich, grun, gret. cbv zeta.
  destruct (os_makedirs _ w) as [[[]|e] w1]; cbn -[first_icon]; [|reflexivity].
  destruct (md5_hexdigest filepath) as [hash_name|e]; cbn -[first_icon]; [|reflexivity].
  destruct (os_path_exists w1 _); cbn -[first_icon]; [reflexivity|].
  destruct (shutil_which w1 "ffmpeg"); cbn -[first_icon].
  - destruct (subprocess_run _ w1) as [[r|e] w2]; cbn -[first_icon].
    + destruct (os_path_exists w2 _); cbn -[first_icon]; [reflexivity|].
      rewrite first_icon_run. reflexivity.
    + rewrite first_icon_run. reflexivity.
  - rewrite first_icon_run. reflexivity.
Qed.


Lemma generate_thumbnail_returns (filepath : string) (vs : list VideoInfo) (w : World) :
  gvideos (_generate_thumbnail filepath vs w) = vs
  /\ exists r : string, gvalue (_generate_thumbnail filepath vs w) = Return r.
Proof.
  rewrite generate_thumbnail_run.
  destruct (os_makedirs _ w) as [[[]|e] w1]; simpl; [|eauto].
  destruct (md5_hexdigest filepath) as [hash_name|e]; simpl; [|eauto].
  destruct (os_path_exists w1 (thumbnail_path_of hash_name)); simpl; [eauto|].
  destruct (shutil_which w1 "ffmpeg"); simpl; [|eauto].
  destruct (subprocess_run _ w1) as [[r|e] w2]; simpl; [|eauto].
  destruct (os_path_exists w2 (thumbnail_path_of hash_name)); simpl; eauto.
Qed.



(** *** Loading a directory *)

Lemma append_videos_nil (vs : list VideoInfo) (w : World) :
  append_videos [] vs w = GOut (Return tt) vs w [].
Proof. reflexivity. Qed.

Lemma load_extensions_empty (directory : string) (extensions : list string)
    (vs : list VideoInfo) (w : World) :
  (forall ext : string,
      In ext extensions -> glob_glob w (os_path_join directory ("*" ++ ext)) = []) ->
  load_extensions directory extensions vs w = GOut (Return tt) vs w [].
Proof.
  induction extensions as [|ext rest IH]; intros Hg; [reflexivity|].
  change (load_extensions directory (ext :: rest) vs w)
    with (gbind (gglob (os_path_join directory ("*" ++ ext)))
            (fun filepaths =>
               gbind (append_videos filepaths)
                 (fun _ => load_extensions directory rest)) vs w).
  unfold gbind, gglob. rewrite (Hg ext (or_introl eq_refl)).
  cbn -[load_extensions os_path_join].
  rewrite IH; [reflexivity|]. intros ext' H. apply Hg. right. exact H.
Qed.

Lemma loadVideosFromDirectory_run (directory : option string) (vs : list VideoInfo)
    (w : World) :
  loadVideosFromDirectory directory vs w =
    match directory_or_cwd directory w with
    | Raise e => GOut (Raise e) vs w []
    | Return d =>
        match load_extensions d video_extensions [] w with
        | GOut (Return _) vs1 w1 ev1 =>
            GOut (Return (0 <? length vs1)%nat) vs1 w1
              (beginResetModel :: ev1 ++ [endResetModel])
        | GOut (Raise e) vs1 w1 ev1 => GOut (Raise e) vs1 w1 (beginResetModel :: ev1)
        end
    end.
Proof.
  unfold loadVideosFromDirectory, directory_or_cwd.
  unfold gbind at 1.
  destruct directory as [d|]; unfold ggetcwd, gret at 1;
    [|destruct (os_getcwd w) as [d|e]; [|reflexivity]];
    (unfold gbind, gsignal, set_videos, get_videos, gret;
     cbn -[load_extensions video_extensions];
     destruct (load_extensions d video_extensions [] w) as [[[]|e] vs1 w1 ev1];
     cbn; rewrite ?app_nil_r; reflexivity).
Qed.

(** X27. When none of the eleven patterns that [loadVideosFromDirectory]
    builds from the directory matches a file, it empties the model,
    whatever it held, brackets that in a model reset, runs nothing and
    returns False. *)
Theorem loadVideosFromDirectory_no_match (directory : option string) (d : string)
    (vs : list VideoInfo) (w : World) :
  directory_or_cwd directory w = Return d ->
  (forall ext : string,
      In ext [".mp4"; ".avi"; ".mkv"; ".mov"; ".wmv"; ".flv"; ".webm"; ".m4v";
              ".3gp"; ".mpg"; ".mpeg"] ->
      glob_glob w (os_path_join d ("*" ++ ext)) = []) ->
  loadVideosFromDirectory directory vs w
  = GOut (Return false) [] w [beginResetModel; endResetModel].
Proof.
  intros Hd Hg. rewrite loadVideosFromDirectory_run, Hd.
  rewrite (load_extensions_empty d video_extensions [] w Hg). reflexivity.
Qed.

Lemma load_extensions_cons (directory ext : string) (rest : list string)
    (vs : list VideoInfo) (w : World) :
  load_extensions directory (ext :: rest) vs w =
    match append_videos (glob_glob w (os_path_join directory ("*" ++ ext))) vs w with
    | GOut (Return _) vs1 w1 ev1 =>
        match load_extensions directory rest vs1 w1 with
        | GOut r vs2 w2 ev2 => GOut r vs2 w2 (ev1 ++ ev2)
        end
    | GOut (Raise e) vs1 w1 ev1 => GOut (Raise e) vs1 w1 ev1
    end.
Proof.
  change (load_extensions directory (ext :: rest) vs w)
    with (gbind (gglob (os_path_join directory ("*" ++ ext)))
            (fun filepaths =>
               gbind (append_videos filepaths)
                 (fun _ => load_extensions directory rest)) vs w).
  unfold gbind, gglob.
  cbn -[os_path_join append_videos load_extensions].
  destruct (append_videos _ vs w) as [[[]|e] vs1 w1 ev1]; [|reflexivity].
  destruct (load_extensions directory rest vs1 w1); reflexivity.
Qed.

Lemma append_videos_raise (filepath : string) (others : list string)
    (vs : list VideoInfo) (w : World) (e : exn) :
  os_path_getsize w filepath = Raise e ->
  append_videos (filepath :: others) vs w = GOut (Raise e) vs w [].
Proof.
  intros Hs.
  change (append_videos (filepath :: others) vs w)
    with (gbind (VideoInfo__init__ filepath)
            (fun video =>
               gbind get_videos
                 (fun _videos =>
                    gbind (set_videos (_videos ++ [video]))
                      (fun _ => append_videos others))) vs w).
  unfold gbind at 1. unfold VideoInfo__init__, gbind, ggetsize. rewrite Hs. reflexivity.
Qed.

(** X28. When a file that the first pattern matched cannot be sized (it
    vanished, or is a dangling link), the exception of [VideoInfo] escapes
    [loadVideosFromDirectory]: the model is left emptied inside a reset
    that is never ended. *)
Theorem loadVideosFromDirectory_escapes (directory : string) (vs : list VideoInfo)
    (w : World) (filepath : string) (others : list string) (e : exn) :
  glob_glob w (os_path_join directory "*.mp4") = filepath :: others ->
  os_path_getsize w filepath = Raise e ->
  loadVideosFromDirectory (Some directory) vs w
  = GOut (Raise e) [] w [beginResetModel].
Proof.
  intros Hg Hs.
  rewrite loadVideosFromDirectory_run. cbn [directory_or_cwd].
  unfold video_extensions. rewrite load_extensions_cons.
  change ("*" ++ ".mp4") with "*.mp4". rewrite Hg.
  rewrite (append_videos_raise filepath others [] w e Hs). reflexivity.
Qed.


Lemma VideoInfo__init__inv (filepath : string) (vs : list VideoInfo) (w : World) :
  gvideos (VideoInfo__init__ filepath vs w) = vs
  /\ forall video : VideoInfo,
       gvalue (VideoInfo__init__ filepath vs w) = Return video ->
       _filepath video = filepath /\ _filename video = os_path_basename filepath.
Proof.
  unfold VideoInfo__init__, gbind, ggetsize, ggetmtime, gret.
  destruct (os_path_getsize w filepath) as [n|e]; [|split; [reflexivity|discriminate]].
  destruct (os_path_getmtime w filepath) as [t|e]; [|split; [reflexivity|discriminate]].
  destruct (generate_thumbnail_returns filepath vs w) as (Hvs & r & Hr).
  destruct (_generate_thumbnail filepath vs w) as [res vs1 w1 ev1]. simpl in Hvs, Hr.
  subst res vs1. simpl. split; [reflexivity|].
  intros video H. injection H as <-. split; reflexivity.
Qed.

Lemma append_videos_inv (P : VideoInfo -> Prop) (filepaths : list string) :
  (forall filepath vs w video,
      gvalue (VideoInfo__init__ filepath vs w) = Return video -> P video) ->
  forall (vs : list VideoInfo) (w : World),
    Forall P vs -> Forall P (gvideos (append_videos filepaths vs w)).
Proof.
  intros HP. induction filepaths as [|filepath rest IH]; intros vs w Hvs; [exact Hvs|].
  change (append_videos (filepath :: rest) vs w)
    with (gbind (VideoInfo__init__ filepath)
            (fun video =>
               gbind get_videos
                 (fun _videos =>
                    gbind (set_videos (_videos ++ [video]))
                      (fun _ => append_videos rest))) vs w).
  unfold gbind at 1.
  pose proof (HP filepath vs w) as Hnew.
  destruct (VideoInfo__init__inv filepath vs w) as [Hsame _].
  destruct (VideoInfo__init__ filepath vs w) as [[video|e] vs1 w1 ev1];
    simpl in Hsame; subst vs1; [|exact Hvs].
  unfold gbind, get_videos, set_videos.
  specialize (IH (vs ++ [video])%list w1).
  destruct (append_videos rest (vs ++ [video])%list w1) as [r vs2 w2 ev2]. simpl in *.
  apply IH. apply Forall_app. split; [exact Hvs|]. constructor; [|constructor].
  apply Hnew. reflexivity.
Qed.

Lemma load_extensions_inv (P : VideoInfo -> Prop) (directory : string)
    (extensions : list string) :
  (forall filepath vs w video,
      gvalue (VideoInfo__init__ filepath vs w) = Return video -> P video) ->
  forall (vs : list VideoInfo) (w : World),
    Forall P vs -> Forall P (gvideos (load_extensions directory extensions vs w)).
Proof.
  intros HP. induction extensions as [|ext rest IH]; intros vs w Hvs; [exact Hvs|].
  rewrite load_extensions_cons.
  pose proof (append_videos_inv P (glob_glob w (os_path_join directory ("*" ++ ext)))
                HP vs w Hvs) as Happ.
  destruct (append_videos _ vs w) as [[[]|e] vs1 w1 ev1]; simpl in Happ; [|exact Happ].
  specialize (IH vs1 w1 Happ).
  destruct (load_extensions directory rest vs1 w1). exact IH.
Qed.

(** X29. Whatever the model held before and however the load ends, every
    entry of the model after [loadVideosFromDirectory] was built by this
    load: its file name is the base name of its path.  The one exception is
    a call without a directory when the working directory cannot be read:
    it raises before the model is touched. *)
Theorem loadVideosFromDirectory_entries (directory : option string)
    (vs : list VideoInfo) (w : World) :
  let o := loadVideosFromDirectory directory vs w in
  (forall d : string,
      directory_or_cwd directory w = Return d ->
      Forall (fun video => _filename video = os_path_basename (_filepath video))
        (gvideos o))
  /\ (forall e : exn,
        directory_or_cwd directory w = Raise e -> o = GOut (Raise e) vs w []).
Proof.
  cbv zeta. rewrite loadVideosFromDirectory_run. split.
  - intros d Hd. rewrite Hd.
    set (P := fun video : VideoInfo => _filename video = os_path_basename (_filepath video)).
    assert (HP : forall filepath vs0 w0 video,
               gvalue (VideoInfo__init__ filepath vs0 w0) = Return video -> P video).
    { intros filepath vs0 w0 video H.
      destruct (VideoInfo__init__inv filepath vs0 w0) as [_ Hv].
      destruct (Hv video H) as [Hp Hn]. unfold P. rewrite Hn, Hp. reflexivity. }
    pose proof (load_extensions_inv P d video_extensions HP [] w (List.Forall_nil P)) as H.
    destruct (load_extensions d video_extensions [] w) as [[[]|e] vs1 w1 ev1];
      simpl in *; exact H.
  - intros e He. rewrite He. reflexivity.
Qed.

End GalleryFacts.

(** ** The further properties at work on the simulated system *)

Import SimDesktop.

Lemma createTrim_keeps_previous_claim_witness :
  file_to_claim (self_of (createTrim (os := sim_os sc_80MB) compressed_before disk))
  = Some "/tmp/compressed_video_4242.mp4".
Proof.
  apply (createTrim_keeps_previous_claim (os := sim_os sc_80MB) compressed_before disk
           "/tmp/compressed_video_4242.mp4").
  - reflexivity.
  - discriminate.
Defined.

Lemma check_and_compress_without_file_witness :
  _check_and_compress (os := sim_os sc_80MB) trimmed disk = Out (Return tt) trimmed disk [].
Proof.
  apply (check_and_compress_without_file (os := sim_os sc_80MB) trimmed disk
           "/tmp/trimmed_video_4242.mp4").
  - reflexivity.
  - vm_compute; reflexivity.
Defined.

Lemma check_and_compress_keeps_any_size_witness :
  let os := sim_os sc_overshoot in
  let o := _check_and_compress (os := os) trimmed (disk_with_trim (80 * 1024 * 1024)) in
  file_to_claim (self_of o) = Some (compressed_video_path (os := os))
  /\ In (Emit (trimCompleteChanged
                 [Str "Compressed video ("; Fmt1f (file_size_mb (80 * 1024 * 1024));
                  Str "MB → "; Fmt1f (truediv (60 * 1024 * 1024) (1024 * 1024));
                  Str "MB)"])) (events o)
  /\ forall s : signal, In (Emit s) (events o) -> forall msg, s <> errorOccurred msg.
Proof.
  apply (check_and_compress_keeps_any_size (os := sim_os sc_overshoot) trimmed
           (disk_with_trim (80 * 1024 * 1024)) "/tmp/trimmed_video_4242.mp4"
           (80 * 1024 * 1024) (60 * 1024 * 1024) (30 # 1) 13281962
           (Completed 0 "" "")).
  - reflexivity.
  - vm_compute; reflexivity.
  - vm_compute; reflexivity.
  - simpl; lia.
  - vm_compute; reflexivity.
  - reflexivity.
  - vm_compute; reflexivity.
  - vm_compute; reflexivity.
  - reflexivity.
  - vm_compute; reflexivity.
Defined.

Lemma compressToSize_refuses_witness :
  compressToSize (os := sim_os sc_80MB) 50 loaded disk
  = Out (Return false) loaded disk [Emit (errorOccurred [Str "No trimmed video available"])]
  /\ compressToSize (os := sim_os sc_80MB) 50 trimmed disk
     = Out (Return false) trimmed disk
         [Emit (errorOccurred [Str "Trimmed video file not found"])].
Proof.
  split.
  - apply (proj1 (compressToSize_refuses (os := sim_os sc_80MB) 50 loaded disk)).
    reflexivity.
  - apply (proj2 (compressToSize_refuses (os := sim_os sc_80MB) 50 trimmed disk)
             "/tmp/trimmed_video_4242.mp4").
    + reflexivity.
    + reflexivity.
    + vm_compute; reflexivity.
Defined.

Lemma compressToSize_outcome_witness :
  let os := sim_os sc_no_duration in
  let o := compressToSize (os := os) 50 trimmed (disk_with_trim (80 * 1024 * 1024)) in
  (value o = Return true
   /\ _compressed_output (self_of o) = Some (compressed_video_path (os := os))
   /\ exists cmd, encoder_runs (events o) = [cmd])
  \/ (value o = Return false
      /\ _compressed_output (self_of o) = Some "/tmp/trimmed_video_4242.mp4")
  \/ (value o = Return false
      /\ _compressed_output (self_of o) = Some (compressed_video_path (os := os))
      /\ encoder_runs (events o) = []
      /\ In (Emit (errorOccurred [Str "Could not determine video duration for compression"]))
            (events o)).
Proof.
  apply (compressToSize_outcome (os := sim_os sc_no_duration) 50 trimmed
           (disk_with_trim (80 * 1024 * 1024)) "/tmp/trimmed_video_4242.mp4"
           (80 * 1024 * 1024)).
  - reflexivity.
  - reflexivity.
  - vm_compute; reflexivity.
  - vm_compute; reflexivity.
  - simpl; lia.
Defined.

Lemma compressToSize_started_finished_witness :
  let os := sim_os sc_no_duration in
  let o := compressToSize (os := os) 50 trimmed (disk_with_trim (80 * 1024 * 1024)) in
  In (Emit compressionStarted) (events o)
  /\ (In (Emit compressionFinished) (events o)
      <-> ~ exists d : Q,
            value (probe_duration_seconds (os := os) (Some "/tmp/trimmed_video_4242.mp4")
                     trimmed (disk_with_trim (80 * 1024 * 1024))) = Return d
            /\ (d <= 0)%Q).
Proof.
  apply (compressToSize_started_finished (os := sim_os sc_no_duration) 50 trimmed
           (disk_with_trim (80 * 1024 * 1024)) "/tmp/trimmed_video_4242.mp4"
           (80 * 1024 * 1024)).
  - reflexivity.
  - reflexivity.
  - vm_compute; reflexivity.
  - vm_compute; reflexivity.
  - simpl; lia.
Defined.

Lemma copyTrimToClipboard_target_witness :
  copyTrimToClipboard (os := sim_os sc_80MB) trimmed (disk_with_trim (80 * 1024 * 1024))
  = Out (Return true) trimmed (disk_with_trim (80 * 1024 * 1024))
      [SingleShot 100 (cb_copy_file_path_to_clipboard (Some "/tmp/trimmed_video_4242.mp4"));
       Emit (trimCompleteChanged
               [Str "Video copied to clipboard ("; Fmt1f (file_size_mb (80 * 1024 * 1024));
                Str "MB)"])].
Proof.
  apply (copyTrimToClipboard_target (os := sim_os sc_80MB) trimmed
           (disk_with_trim (80 * 1024 * 1024)) "/tmp/trimmed_video_4242.mp4"
           (80 * 1024 * 1024)).
  - reflexivity.
  - right. split; reflexivity.
  - vm_compute; reflexivity.
  - vm_compute; reflexivity.
Defined.

Lemma saveTrimmingDialog_cancelled_witness :
  let os := sim_os sc_cancel in
  let cmd :=
    [ Str "kdialog"; Str "--getsavefilename";
      Str "/home/user/trimmed_clip.mp4"; Str "Video files (*.mp4)" ] in
  saveTrimmingDialog (os := os) trimmed (disk_with_trim (80 * 1024 * 1024))
  = Out (Return false) trimmed (disk_with_trim (80 * 1024 * 1024)) [Run cmd].
Proof.
  apply (saveTrimmingDialog_cancelled (os := sim_os sc_cancel) trimmed
           (disk_with_trim (80 * 1024 * 1024)) "/tmp/trimmed_video_4242.mp4"
           (Completed 1 "" "")).
  - reflexivity.
  - reflexivity.
  - vm_compute; reflexivity.
  - vm_compute; reflexivity.
  - left. simpl; lia.
Defined.

Lemma saveTrimmingDialog_copies_witness :
  let os := sim_os sc_80MB in
  let o := saveTrimmingDialog (os := os) trimmed (disk_with_trim (80 * 1024 * 1024)) in
  value o = Return true
  /\ os_path_getsize (OS := os) (world_of o) "/home/user/out.mp4"
     = Return (80 * 1024 * 1024).
Proof.
  cbv zeta.
  pose proof (saveTrimmingDialog_copies (os := sim_os sc_80MB) trimmed
                (disk_with_trim (80 * 1024 * 1024)) "/tmp/trimmed_video_4242.mp4"
                (Completed 0 "/home/user/out.mp4" "")
                eq_refl eq_refl) as H.
  cbv zeta in H.
  destruct H as (Hw & _ & Hok & _).
  - vm_compute; reflexivity.
  - vm_compute; reflexivity.
  - reflexivity.
  - discriminate.
  - split.
    + apply (Hok (80 * 1024 * 1024)); vm_compute; reflexivity.
    + rewrite Hw. vm_compute; reflexivity.
Defined.

Lemma copy_file_path_to_clipboard_runs_witness :
  events (_copy_file_path_to_clipboard (os := sim_os sc_80MB)
            (Some "/tmp/trimmed_video_4242.mp4") trimmed (disk_with_trim (80 * 1024 * 1024)))
  = [Run [Str "wl-copy"; Str "-t"; Str "text/uri-list";
          Str "file:///tmp/trimmed_video_4242.mp4"];
     Run [Str "wl-copy"; Str "-p"; Str "/tmp/trimmed_video_4242.mp4"]].
Proof.
  exact (proj2 (proj2 (proj2 (copy_file_path_to_clipboard_runs (os := sim_os sc_80MB)
                                (Some "/tmp/trimmed_video_4242.mp4") trimmed
                                (disk_with_trim (80 * 1024 * 1024))))) eq_refl).
Defined.

Lemma offset_moved_and_restored_witness :
  let w := disk_with_trim (80 * 1024 * 1024) in
  let o1 := set_startTime 12000 trimmed w in
  let o2 := set_startTime 10000 (self_of o1) (world_of o1) in
  _start_time (self_of o2) = 10000
  /\ _trim_completed (self_of o2) = false
  /\ (events o1 ++ events o2)%list = [Emit startTimeChanged; Emit startTimeChanged].
Proof.
  apply (proj1 (offset_moved_and_restored trimmed (disk_with_trim (80 * 1024 * 1024)) 12000)).
  simpl; lia.
Defined.

Lemma small_trim_end_to_end_witness :
  let os := sim_os sc_10MB in
  let trim := createTrim (os := os) loaded disk in
  let fit := _check_and_compress (os := os) (self_of trim) (world_of trim) in
  let copy := copyTrimToClipboard (os := os) (self_of fit) (world_of fit) in
  value trim = Return true
  /\ world_of copy = snd (subprocess_run (OS := os) (createTrim_cmd (os := os) loaded) disk)
  /\ encoder_runs (events trim ++ events fit ++ events copy)%list
     = [createTrim_cmd (os := os) loaded]
  /\ value copy = Return true
  /\ In (SingleShot 100
           (cb_copy_file_path_to_clipboard (Some (trimmed_video_path (os := os)))))
        (events copy).
Proof.
  apply (small_trim_end_to_end (os := sim_os sc_10MB) loaded disk (Completed 0 "" "")
           (10 * 1024 * 1024)).
  - discriminate.
  - vm_compute; reflexivity.
  - reflexivity.
  - vm_compute; reflexivity.
  - vm_compute; reflexivity.
  - simpl; lia.
Defined.

Lemma large_trim_end_to_end_witness :
  let os := sim_os sc_80MB in
  let trim := createTrim (os := os) loaded disk in
  let fit := _check_and_compress (os := os) (self_of trim) (world_of trim) in
  let copy := copyTrimToClipboard (os := os) (self_of fit) (world_of fit) in
  encoder_runs (events trim ++ events fit ++ events copy)%list
  = [ [ Str "ffmpeg"; Str "-y";
        Str "-i"; Str "/home/user/clip.mp4";
        Str "-ss"; StrOfFloat (truediv 10000 1000);
        Str "-t"; StrOfFloat (truediv (40000 - 10000) 1000);
        Str "-c"; Str "copy";
        Str (trimmed_video_path (os := os)) ];
      [ Str "ffmpeg"; Str "-y";
        Str "-i"; Str (trimmed_video_path (os := os));
        Str "-c:v"; Str "libx264";
        Str "-b:v"; StrOfInt 13281962;
        Str "-preset"; Str "medium";
        Str "-c:a"; Str "aac";
        Str "-b:a"; Str "128k";
        Str (compressed_video_path (os := os)) ] ]
  /\ 13281962
     = int_of_float
         (nearest_double
            (nearest_double
               (nearest_double
                  (nearest_double (inject_Z (50 * 1024 * 1024))
                   * nearest_double (95 # 100)) * inject_Z 8) / (30 # 1)))
  /\ value copy = Return true
  /\ In (SingleShot 100
           (cb_copy_file_path_to_clipboard (Some (compressed_video_path (os := os)))))
        (events copy).
Proof.
  apply (large_trim_end_to_end (os := sim_os sc_80MB) loaded disk
           (Completed 0 "" "") (Completed 0 "" "")
           (80 * 1024 * 1024) (48 * 1024 * 1024) (30 # 1) 13281962).
  - discriminate.
  - vm_compute; reflexivity.
  - reflexivity.
  - vm_compute; reflexivity.
  - vm_compute; reflexivity.
  - simpl; lia.
  - vm_compute; reflexivity.
  - reflexivity.
  - vm_compute; reflexivity.
  - vm_compute; reflexivity.
  - reflexivity.
  - vm_compute; reflexivity.
  - vm_compute; reflexivity.
Defined.


Lemma setVideoFile_loads_witness :
  let os := sim_os sc_1001ms in
  let desktop := sim_desktop ds_empty in
  let o := setVideoFile (os := os) (desktop := desktop) "file:///home/user/clip.mp4"
             __init__ disk in
  _duration (self_of o) = 1000
  /\ _end_time (self_of o) = 1000
  /\ events o = [Run (setVideoFile_cmd "/home/user/clip.mp4"); Emit durationChanged].
Proof.
  cbv zeta.
  destruct (setVideoFile_loads (os := sim_os sc_1001ms) (desktop := sim_desktop ds_empty)
              "file:///home/user/clip.mp4" __init__ disk "/home/user/clip.mp4"
              (Completed 0 " 1.001000 " "") (nearest_double (1001 # 1000)))
    as (_ & _ & _ & Hfinite & _).
  - vm_compute; reflexivity.
  - reflexivity.
  - vm_compute; reflexivity.
  - vm_compute; reflexivity.
  - reflexivity.
  - vm_compute; reflexivity.
  - destruct Hfinite as (Hd & He & Hev); [vm_compute; reflexivity|].
    split; [|split].
    + rewrite Hd. vm_compute; reflexivity.
    + rewrite He, Hd. vm_compute; reflexivity.
    + exact Hev.
Defined.

Lemma setVideoFile_file_url_witness :
  setVideoFile (os := sim_os sc_loadable) (desktop := sim_desktop ds_empty)
    "file:///home/user/clip.mp4" __init__ disk
  = setVideoFile (os := sim_os sc_loadable) (desktop := sim_desktop ds_empty)
      "/home/user/clip.mp4" __init__ disk.
Proof.
  apply (setVideoFile_file_url (os := sim_os sc_loadable) (desktop := sim_desktop ds_empty)
           "/home/user/clip.mp4" __init__ disk).
  vm_compute; reflexivity.
Defined.


Lemma fileSizeFormatted_scaled_witness :
  exists (k : nat) (q : Q),
    (k <= 5)%nat
    /\ (q == inject_Z (1024 * 1024 - 1) / inject_Z (1024 ^ Z.of_nat k))%Q
    /\ fileSizeFormatted almost_1MiB
       = match size_units !! k with
         | Some unit => [Fmt1f q; Str " "; Str unit]
         | None => [Fmt1f q; Str " PB"]
         end
    /\ ((k < 5)%nat -> (q < 1024)%Q)
    /\ ((0 < k)%nat -> (1 <= q)%Q).
Proof.
  apply (fileSizeFormatted_scaled almost_1MiB).
  simpl; lia.
Defined.

Lemma loadVideosFromDirectory_no_match_witness :
  loadVideosFromDirectory (os := sim_os sc_80MB) (desktop := sim_desktop ds_empty)
    None [SimDesktop.a_video] disk
  = GOut (Return false) [] disk [beginResetModel; endResetModel].
Proof.
  apply (loadVideosFromDirectory_no_match (os := sim_os sc_80MB)
           (desktop := sim_desktop ds_empty) None "/home/user" [SimDesktop.a_video] disk).
  - reflexivity.
  - intros ext _. reflexivity.
Defined.

Lemma loadVideosFromDirectory_escapes_witness :
  loadVideosFromDirectory (os := sim_os sc_80MB) (desktop := sim_desktop ds_dangling)
    (Some "/videos") [SimDesktop.a_video] disk
  = GOut (Raise (Exception "[Errno 2] No such file or directory: /videos/gone.mp4"))
      [] disk [beginResetModel].
Proof.
  apply (loadVideosFromDirectory_escapes (os := sim_os sc_80MB)
           (desktop := sim_desktop ds_dangling) "/videos" [SimDesktop.a_video] disk
           "/videos/gone.mp4" []).
  - vm_compute; reflexivity.
  - vm_compute; reflexivity.
Defined.

(** The gallery on a listing of one file that exists: the model gets one
    entry, with the size on disk and a thumbnail made by the encoder. *)
Example load_one_video :
  let os := sim_os sc_80MB in
  let desktop :=
    sim_desktop {| ds_cwd := Return "/home/user"; ds_stdout := Return tt;
                   ds_listing := fun pattern =>
                     if String.eqb pattern "/home/user/*.mp4"
                     then ["/home/user/clip.mp4"] else [];
                   ds_makedirs := Return tt; ds_mtime := 1700000000 |} in
  let o := loadVideosFromDirectory (os := os) (desktop := desktop) None [] disk in
  gvalue o = Return true
  /\ gvideos o
     = [ {| _filepath := "/home/user/clip.mp4"; _filename := "clip.mp4";
            _filesize := 400 * 1024 * 1024; _last_modified := 1700000000;
            _thumbnail_path := "file:///tmp/otrimmer_thumbnails/19.jpg" |} ]
  /\ fileSizeFormatted a_video = [Fmt1f (400 # 1); Str " "; Str "MB"]
  /\ fileSizeFormatted almost_1MiB = [Fmt1f (1048575 # 1024); Str " "; Str "KB"].
Proof. cbv zeta. repeat split; vm_compute; reflexivity. Qed.

Section Fallback.
Context {World : Type} {os : OS World}.

(** X30. In [_check_and_compress], on an oversized trim with a positive
    duration, an encoder that exits with a nonzero status or cannot be run
    costs nothing but the compression: one error is emitted, with the
    encoder's stderr or the exception text, and the file designated for
    claiming is the trim. *)
Theorem check_and_compress_failure_keeps_trim (self : VideoTrimmer) (w : World)
    (p : string) (n : Z) (d : Q) (b : Z) :
  _temp_output self = Some p ->
  p <> "" ->
  os_path_exists w p = true ->
  os_path_getsize w p = Return n ->
  _max_size_mb self * 1024 * 1024 < n ->
  value (probe_duration_seconds (Some p) self w) = Return d ->
  (0 < d)%Q ->
  target_bitrate (_max_size_mb self) d = Return b ->
  let w1 := snd (subprocess_run (ffprobe_cmd (Some p)) w) in
  let cmd := compress_cmd (Some p) b (Some compressed_video_path) in
  let o := _check_and_compress self w in
  (forall result : CompletedProcess,
      fst (subprocess_run cmd w1) = Return result ->
      returncode result <> 0 ->
      file_to_claim (self_of o) = Some p
      /\ In (Emit (errorOccurred [Str "Error compressing video: "; Str (stderr result)]))
            (events o))
  /\ (forall e : exn,
        fst (subprocess_run cmd w1) = Raise e ->
        file_to_claim (self_of o) = Some p
        /\ In (Emit (errorOccurred [Str "Error during compression: "; Str (str_e e)]))
              (events o)).
Proof.
  intros Ht Hne He Hs Hn Hd Hpos Hb. cbv zeta. apply truthy_true in Hne.
  rewrite (check_and_compress_oversized self w p n Ht He Hs Hn). cbv zeta.
  rewrite Hd, (fle_positive d Hpos), Hb.
  assert (Hclaim : file_to_claim (with_compressed_output (Some p) self) = Some p).
  { unfold file_to_claim. simpl. rewrite Hne. reflexivity. }
  destruct (subprocess_run (compress_cmd _ _ _) _) as [[result|e] w2]; simpl; split.
  - intros r Hr Hrc. injection Hr as <-. apply Z.eqb_neq in Hrc. rewrite Hrc. simpl.
    split; [exact Hclaim | auto 10].
  - intros e Hr. discriminate Hr.
  - intros r Hr. discriminate Hr.
  - intros e' Hr. injection Hr as <-. split; [exact Hclaim | simpl; auto 10].
Qed.

End Fallback.

Lemma check_and_compress_failure_keeps_trim_witness :
  let os := sim_os sc_encode_fails in
  let o := _check_and_compress (os := os) trimmed (disk_with_trim (80 * 1024 * 1024)) in
  file_to_claim (self_of o) = Some "/tmp/trimmed_video_4242.mp4"
  /\ In (Emit (errorOccurred [Str "Error compressing video: ";
                              Str "Unknown encoder 'libx264'"])) (events o).
Proof.
  apply (proj1 (check_and_compress_failure_keeps_trim (os := sim_os sc_encode_fails) trimmed
                  (disk_with_trim (80 * 1024 * 1024)) "/tmp/trimmed_video_4242.mp4"
                  (80 * 1024 * 1024) (30 # 1) 13281962 eq_refl ltac:(discriminate)
                  ltac:(vm_compute; reflexivity) ltac:(vm_compute; reflexivity)
                  eq_refl ltac:(vm_compute; reflexivity) eq_refl
                  ltac:(vm_compute; reflexivity))
           (Completed 1 "" "Unknown encoder 'libx264'")).
  - vm_compute; reflexivity.
  - simpl; lia.
Defined.
